(** * social-analyzer: validation, configuration and error taxonomy

    A shallow embedding of [modules/validation.js], [modules/config.js],
    [modules/error-handler.js] and the request middleware of
    [modules/security.js], the properties of the specification that are
    decided by them, and further properties of the same functions.

    Conventions of the embedding.
    - A JavaScript string is a [string]; every [ascii] is one code unit in
      the range 0..255.  Code units above 255 are outside the model.
    - A function that throws returns [Throw e]; one that returns, [Ok v].
    - [process.env], the clock, the file system and the random generator
      are explicit arguments.
    - The [validator] package, the platform [URL] parser, [JSON.stringify],
      the [path] functions and the text that [console.error] prints for an
      object are not part of the repository; they are parameters of the
      functions that call them.
    - A parsed request body is a [json] value in which a property name
      occurs once. *)

From Stdlib Require Import ZArith QArith String Ascii List Lia Bool.
From stdpp Require Import base option list gmap strings pretty.

Local Open Scope string_scope.
Local Open Scope list_scope.
Local Open Scope nat_scope.

(** ** Results of functions that may throw *)

Inductive result (E A : Type) : Type :=
| Ok (a : A)
| Throw (e : E).
Arguments Ok {E A} a.
Arguments Throw {E A} e.

#[export] Instance result_ret {E} : MRet (result E) := fun _ a => Ok a.
#[export] Instance result_bind {E} : MBind (result E) :=
  fun _ _ k r => match r with Ok a => k a | Throw e => Throw e end.

Definition is_ok {E A} (r : result E A) : bool :=
  match r with Ok _ => true | Throw _ => false end.

(** ** JavaScript strings *)

Module JSString.

Definition code (c : ascii) : nat := nat_of_ascii c.

Definition in_range (lo hi : nat) (c : ascii) : bool :=
  (lo <=? code c) && (code c <=? hi).

Definition ascii_eqb (a b : ascii) : bool := Ascii.eqb a b.

(** WhiteSpace and LineTerminator code units below 256:
    TAB, LF, VT, FF, CR, SP and NBSP. *)
Definition is_whitespace (c : ascii) : bool :=
  in_range 9 13 c || (code c =? 32) || (code c =? 160).

Fixpoint trimStart (s : string) : string :=
  match s with
  | "" => ""
  | String c s' => if is_whitespace c then trimStart s' else s
  end.

(** [trimEnd] keeps a character when it is not white space or when
    something remains after it. *)
Fixpoint trimEnd (s : string) : string :=
  match s with
  | "" => ""
  | String c s' =>
      match trimEnd s' with
      | "" => if is_whitespace c then "" else String c ""
      | t => String c t
      end
  end.

(** [String.prototype.trim] *)
Definition trim (s : string) : string := trimEnd (trimStart s).

Fixpoint map_chars (f : ascii -> ascii) (s : string) : string :=
  match s with
  | "" => ""
  | String c s' => String (f c) (map_chars f s')
  end.

Definition shift_code (c : ascii) (d : Z) : ascii :=
  ascii_of_nat (Z.to_nat (Z.of_nat (code c) + d)).

(** Lower-case mapping of one code unit: A-Z, and the Latin-1 capitals
    U+00C0..U+00DE except the multiplication sign U+00D7. *)
Definition lower_char (c : ascii) : ascii :=
  if in_range 65 90 c then shift_code c 32
  else if in_range 192 222 c && negb (code c =? 215) then shift_code c 32
  else c.

(** [String.prototype.toLowerCase] *)
Definition toLowerCase (s : string) : string := map_chars lower_char s.

(** Upper-case mapping of one code unit.  U+00DF maps to two units; the
    upper-case forms of U+00B5 and U+00FF lie above 255 and those two
    units are left as they are. *)
Definition upper_char (c : ascii) : string :=
  if in_range 97 122 c then String (shift_code c (-32)) ""
  else if in_range 224 254 c && negb (code c =? 247) then String (shift_code c (-32)) ""
  else if code c =? 223 then "SS"
  else String c "".

(** [String.prototype.toUpperCase] *)
Fixpoint toUpperCase (s : string) : string :=
  match s with
  | "" => ""
  | String c s' => upper_char c ++ toUpperCase s'
  end.

(** [s.startsWith(p)] *)
Fixpoint startsWith (p s : string) : bool :=
  match p, s with
  | "", _ => true
  | String a p', String b s' => ascii_eqb a b && startsWith p' s'
  | String _ _, "" => false
  end.

(** [s.includes(p)] *)
Fixpoint includes (s p : string) : bool :=
  startsWith p s ||
  match s with
  | "" => false
  | String _ s' => includes s' p
  end.

Fixpoint drop (n : nat) (s : string) : string :=
  match n, s with
  | O, _ => s
  | S n', String _ s' => drop n' s'
  | S _, "" => ""
  end.

(** Splitting on a non-empty separator; [cur] holds the characters of the
    segment being read, last first.  [skip] counts the characters of a
    separator still to be passed over. *)
Fixpoint split_go (sep : string) (s : string) (cur : string) (skip : nat)
  : list string :=
  match s with
  | "" => [String.rev cur]
  | String c s' =>
      match skip with
      | S k => split_go sep s' cur k
      | O =>
          if startsWith sep s
          then String.rev cur :: split_go sep s' "" (String.length sep - 1)
          else split_go sep s' (String c cur) 0
      end
  end.

(** [s.split(sep)]; an empty separator splits into single code units. *)
Definition split (s sep : string) : list string :=
  match sep with
  | "" => (fun c => String c "") <$> list_ascii_of_string s
  | _ => split_go sep s "" 0
  end.

(** [l.join(sep)] *)
Fixpoint join (sep : string) (l : list string) : string :=
  match l with
  | [] => ""
  | [x] => x
  | x :: rest => x ++ sep ++ join sep rest
  end.

(** [s.replace(/c/g, r)] for a pattern that is one literal character, and
    more generally for a one-character class [p]. *)
Fixpoint replace_class (p : ascii -> bool) (r : string) (s : string) : string :=
  match s with
  | "" => ""
  | String c s' =>
      (if p c then r else String c "") ++ replace_class p r s'
  end.

Definition replace_char (c : ascii) (r : string) (s : string) : string :=
  replace_class (ascii_eqb c) r s.

(** [c.repeat(n)] for a one-character string *)
Fixpoint repeat_char (c : ascii) (n : nat) : string :=
  match n with
  | O => ""
  | S n' => String c (repeat_char c n')
  end.

(** [s.substring(0, n)] *)
Fixpoint take (n : nat) (s : string) : string :=
  match n, s with
  | O, _ => ""
  | S n', String c s' => String c (take n' s')
  | S _, "" => ""
  end.

(** The double quote, U+0022. *)
Definition dquote : ascii := ascii_of_nat 34.

Fixpoint contains_char (c : ascii) (s : string) : bool :=
  match s with
  | "" => false
  | String d s' => ascii_eqb c d || contains_char c s'
  end.

End JSString.

(** ** Regular expressions

    The patterns of the sources use literals, classes, alternation and
    repetition only, so [RegExp.prototype.test] is language membership;
    it is computed with derivatives. *)

Module Regex.
Import JSString.

Inductive regex : Type :=
| Void
| Eps
| Class (p : ascii -> bool)
| Cat (r1 r2 : regex)
| Alt (r1 r2 : regex)
| Star (r : regex).

Fixpoint nullable (r : regex) : bool :=
  match r with
  | Void => false
  | Eps => true
  | Class _ => false
  | Cat r1 r2 => nullable r1 && nullable r2
  | Alt r1 r2 => nullable r1 || nullable r2
  | Star _ => true
  end.

Fixpoint deriv (a : ascii) (r : regex) : regex :=
  match r with
  | Void => Void
  | Eps => Void
  | Class p => if p a then Eps else Void
  | Cat r1 r2 =>
      if nullable r1
      then Alt (Cat (deriv a r1) r2) (deriv a r2)
      else Cat (deriv a r1) r2
  | Alt r1 r2 => Alt (deriv a r1) (deriv a r2)
  | Star r1 => Cat (deriv a r1) (Star r1)
  end.

Fixpoint matches (r : regex) (s : string) : bool :=
  match s with
  | "" => nullable r
  | String a s' => matches (deriv a r) s'
  end.

Definition anything : regex := Star (Class (fun _ => true)).

(** How a pattern is anchored in the source: [/^r$/], [/^r/] or [/r/]. *)
Inductive pattern : Type :=
| Anchored (r : regex)
| Prefix (r : regex)
| Search (r : regex).

(** [pattern.test(s)] *)
Definition test (p : pattern) (s : string) : bool :=
  match p with
  | Anchored r => matches r s
  | Prefix r => matches (Cat r anything) s
  | Search r => matches (Cat anything (Cat r anything)) s
  end.

Definition chr (c : ascii) : regex := Class (ascii_eqb c).
(** literal, case-insensitive ([/i] flag) *)
Definition chr_i (c : ascii) : regex :=
  Class (fun a => ascii_eqb (lower_char a) (lower_char c)).

Fixpoint lit (s : string) : regex :=
  match s with
  | "" => Eps
  | String c s' => Cat (chr c) (lit s')
  end.

Fixpoint lit_i (s : string) : regex :=
  match s with
  | "" => Eps
  | String c s' => Cat (chr_i c) (lit_i s')
  end.

Definition plus (r : regex) : regex := Cat r (Star r).
Definition opt (r : regex) : regex := Alt r Eps.

Definition is_digit (c : ascii) : bool := in_range 48 57 c.
Definition is_alpha (c : ascii) : bool := in_range 65 90 c || in_range 97 122 c.
(** [\w] *)
Definition is_word (c : ascii) : bool := is_alpha c || is_digit c || (code c =? 95).
(** [.] : anything but LF and CR *)
Definition is_dot (c : ascii) : bool := negb ((code c =? 10) || (code c =? 13)).

Definition digit : regex := Class is_digit.
Definition digits : regex := plus digit.

End Regex.

(** ** JavaScript values *)

(** A number: every double is [NaN], an infinity or a rational. *)
Inductive jsnum : Type :=
| NaN
| NegInf
| PosInf
| Fin (q : Q).

#[warnings="-register-all"]
Inductive jsval : Type :=
| JUndefined
| JNull
| JBool (b : bool)
| JNum (n : jsnum)
| JStr (s : string)
| JObj (fields : list (string * jsval)).

Module JS.

Definition num_is_zero (n : jsnum) : bool :=
  match n with
  | Fin q => Qeq_bool q 0
  | _ => false
  end.

(** ToBoolean *)
Definition truthy (v : jsval) : bool :=
  match v with
  | JUndefined | JNull => false
  | JBool b => b
  | JNum NaN => false
  | JNum n => negb (num_is_zero n)
  | JStr s => negb (String.eqb s "")
  | JObj _ => true
  end.

Definition falsy (v : jsval) : bool := negb (truthy v).

(** [typeof v === 'string'] *)
Definition is_string (v : jsval) : bool :=
  match v with JStr _ => true | _ => false end.

(** [v === s] for a string literal [s] *)
Definition eq_str (v : jsval) (s : string) : bool :=
  match v with JStr t => String.eqb t s | _ => false end.

(** [a || b] *)
Definition or (a b : jsval) : jsval := if truthy a then a else b.

Definition int (z : Z) : jsval := JNum (Fin (inject_Z z)).

End JS.

(** ** Platform interfaces

    [URL] is the record produced by the platform parser [new URL(s)]; the
    parser itself and [validator.isURL] are parameters below. *)

Record URL : Type := mkURL {
  protocol : string;
  username : string;
  password : string;
  host : string;
  hostname : string;
  pathname : string
}.

(** ** modules/validation.js *)

Module Validation.
Import JSString Regex.

(** [class ValidationError extends Error] *)
Record ValidationError : Type := mkValidationError {
  field : string;
  message : string;
  userMessage : string
}.

(** [new ValidationError(field, message)] *)
Definition new_ValidationError (field message : string) : ValidationError :=
  {| field := field;
     message := message;
     userMessage := "Invalid " ++ field ++ ": " ++ message |}.

Definition fail {A} (field message : string) : result ValidationError A :=
  Throw (new_ValidationError field message).

Module USERNAME_RULES.
Definition minLength : nat := 1.
Definition maxLength : nat := 100.
Definition allowed (c : ascii) : bool :=
  is_alpha c || is_digit c || contains_char c "._-".
(** [/^[a-zA-Z0-9._-]+$/] *)
Definition pattern : Regex.pattern := Anchored (plus (Class allowed)).
Definition blacklist : list string :=
  ["SELECT"; "INSERT"; "UPDATE"; "DELETE"; "DROP"; "CREATE"; "ALTER";
   "EXEC"; "EXECUTE"; "SCRIPT"; "JAVASCRIPT"].
(** [/\.\./] *)
Definition pathTraversal : Regex.pattern := Search (lit "..").
End USERNAME_RULES.

Definition validateUsername (username : jsval) : result ValidationError string :=
  if JS.falsy username then fail "username" "Username is required"
  else match username with
  | JStr username =>
      let username := trim username in
      if String.length username <? USERNAME_RULES.minLength then
        fail "username" ("Username must be at least "
                         ++ pretty USERNAME_RULES.minLength ++ " character")
      else if USERNAME_RULES.maxLength <? String.length username then
        fail "username" ("Username cannot exceed "
                         ++ pretty USERNAME_RULES.maxLength ++ " characters")
      else if negb (test USERNAME_RULES.pattern username) then
        fail "username"
          "Username can only contain letters, numbers, dots, underscores, and hyphens"
      else if test USERNAME_RULES.pathTraversal username then
        fail "username" "Invalid username format"
      else
        let upperUsername := toUpperCase username in
        if existsb (includes upperUsername) USERNAME_RULES.blacklist then
          fail "username" "Username contains blocked keywords"
        else Ok username
  | _ => fail "username" "Username must be a string"
  end.

(** The callback of [usernameList.map((username, index) => ...)], applied
    from index [index] on; the first throw ends the traversal. *)
Fixpoint validate_each (usernameList : list string) (index : nat)
  : result ValidationError (list string) :=
  match usernameList with
  | [] => Ok []
  | username :: rest =>
      match validateUsername (JStr username) with
      | Ok v => vs ← validate_each rest (S index); Ok (v :: vs)
      | Throw err =>
          fail "usernames" ("Username #" ++ pretty (index + 1)
                            ++ " is invalid: " ++ userMessage err)
      end
  end.

(** [usernames.split(',').map(u => u.trim()).filter(u => u)] *)
Definition usernameList_of (usernames : string) : list string :=
  List.filter (fun u => JS.truthy (JStr u)) (trim <$> split usernames ",").

Definition validateUsernames (usernames : jsval)
  : result ValidationError (list string) :=
  if JS.falsy usernames then fail "usernames" "At least one username is required"
  else match usernames with
  | JStr usernames =>
      let usernameList := usernameList_of usernames in
      if length usernameList =? 0 then
        fail "usernames" "At least one valid username is required"
      else if 50 <? length usernameList then
        fail "usernames" "Maximum 50 usernames allowed per request"
      else validate_each usernameList 0
  | _ => fail "usernames" "Usernames must be a string"
  end.

Definition validModes : list string := ["fast"; "slow"; "special"].

Definition validateMode (mode : jsval) : result ValidationError string :=
  if JS.falsy mode then Ok "fast"
  else match mode with
  | JStr mode =>
      let mode := toLowerCase (trim mode) in
      if negb (bool_decide (mode ∈ validModes)) then
        fail "mode" ("Mode must be one of: " ++ join ", " validModes)
      else Ok mode
  | _ => fail "mode" "Mode must be a string"
  end.

(** [/[\x00-\x1F\x7F-\x9F]/] *)
Definition is_control (c : ascii) : bool :=
  in_range 0 31 c || in_range 127 159 c.

Definition sanitizeText (text : jsval) : string :=
  if JS.falsy text || negb (JS.is_string text) then ""
  else match text with
  | JStr text =>
      let text := replace_class is_control "" text in
      replace_char "/" "&#x2F;"
        (replace_char "'" "&#x27;"
          (replace_char dquote "&quot;"
            (replace_char ">" "&gt;"
              (replace_char "<" "&lt;"
                (replace_char "&" "&amp;" text)))))
  | _ => ""
  end.

Module UUID_RULES.
Definition minLength : nat := 5.
Definition maxLength : nat := 50.
Definition allowed (c : ascii) : bool :=
  is_alpha c || is_digit c || contains_char c "-".
(** [/^[a-zA-Z0-9-]+$/] *)
Definition pattern : Regex.pattern := Anchored (plus (Class allowed)).
End UUID_RULES.

Definition validateUUID (uuid : jsval) : result ValidationError string :=
  if JS.falsy uuid then fail "uuid" "UUID is required"
  else match uuid with
  | JStr uuid =>
      let uuid := trim uuid in
      if (String.length uuid <? UUID_RULES.minLength)
         || (UUID_RULES.maxLength <? String.length uuid) then
        fail "uuid" "Invalid UUID format"
      else if negb (test UUID_RULES.pattern uuid) then
        fail "uuid" "UUID can only contain letters, numbers, and hyphens"
      else if test USERNAME_RULES.pathTraversal uuid then
        fail "uuid" "Invalid UUID format"
      else Ok uuid
  | _ => fail "uuid" "UUID must be a string"
  end.

Definition validOptions : list string :=
  ["FindUserProfilesFast"; "FindUserProfilesSlow"; "FindUserProfilesSpecial";
   "ShowUserInfo"].

Definition validateOption (option : jsval) : result ValidationError string :=
  if JS.falsy option then fail "option" "Option is required"
  else match option with
  | JStr option =>
      let option := trim option in
      if negb (bool_decide (option ∈ validOptions)) then
        fail "option" ("Invalid option. Must be one of: " ++ join ", " validOptions)
      else Ok option
  | _ => fail "option" "Option must be a string"
  end.

Definition default_userAgent : string :=
  "Mozilla/5.0 (X11; Ubuntu; Linux x86_64; rv:102.0) Gecko/20100101 Firefox/102.0".

(** [/[\x00-\x1F\x7F]/] *)
Definition is_ascii_control (c : ascii) : bool :=
  in_range 0 31 c || (code c =? 127).

Definition validateUserAgent (userAgent : jsval) : result ValidationError string :=
  if JS.falsy userAgent then Ok default_userAgent
  else match userAgent with
  | JStr userAgent =>
      let userAgent := trim userAgent in
      if (String.length userAgent <? 10) || (500 <? String.length userAgent) then
        fail "userAgent" "User-Agent has invalid length"
      else Ok (replace_class is_ascii_control "" userAgent)
  | _ => fail "userAgent" "User-Agent must be a string"
  end.

(** [/^[a-zA-Z0-9_-]+$/] *)
Definition apiKey_allowed (c : ascii) : bool :=
  is_alpha c || is_digit c || contains_char c "_-".

(** [optional] is the truth value of [options.optional]. *)
Definition validateApiKey (apiKey : jsval) (optional : bool)
  : result ValidationError string :=
  if JS.falsy apiKey then
    if optional then Ok "" else fail "apiKey" "API key is required"
  else match apiKey with
  | JStr apiKey =>
      let apiKey := trim apiKey in
      if (String.length apiKey <? 10) || (200 <? String.length apiKey) then
        fail "apiKey" "API key has invalid length"
      else if negb (test (Anchored (plus (Class apiKey_allowed))) apiKey) then
        fail "apiKey" "API key contains invalid characters"
      else Ok apiKey
  | _ => fail "apiKey" "API key must be a string"
  end.

(** The class of [escapeRegex]: the characters
    [. * + ? ^ $ { } ( ) | [ ] \]. *)
Definition is_regex_meta (c : ascii) : bool :=
  contains_char c ".*+?^${}()|[]\".

(** [s.replace(/[...]/g, '\\$&')]: a backslash before every character of
    the class. *)
Fixpoint escape_class (p : ascii -> bool) (s : string) : string :=
  match s with
  | "" => ""
  | String c s' =>
      if p c then String "\" (String c (escape_class p s'))
      else String c (escape_class p s')
  end.

Definition escapeRegex (str : jsval) : string :=
  if JS.falsy str || negb (JS.is_string str) then ""
  else match str with
  | JStr str => escape_class is_regex_meta str
  | _ => ""
  end.

(** [/^[a-zA-Z0-9._/-]+$/] *)
Definition filePath_allowed (c : ascii) : bool :=
  is_alpha c || is_digit c || contains_char c "._/-".

Definition validateFilePath (filePath : jsval) : result ValidationError string :=
  if JS.falsy filePath || negb (JS.is_string filePath) then
    fail "filePath" "File path is required"
  else match filePath with
  | JStr filePath =>
      if includes filePath ".." || includes filePath "~" then
        fail "filePath" "Invalid file path"
      else if negb (test (Anchored (plus (Class filePath_allowed))) filePath) then
        fail "filePath" "File path contains invalid characters"
      else Ok filePath
  | _ => fail "filePath" "File path is required"
  end.

Definition validLevels : list string := ["extreme"; "high"; "normal"; "low"].

Definition validateDetectionLevel (level : jsval) : result ValidationError string :=
  if JS.falsy level then Ok "high"
  else match level with
  | JStr level =>
      let level := toLowerCase (trim level) in
      if negb (bool_decide (level ∈ validLevels)) then
        fail "detectionLevel"
          ("Detection level must be one of: " ++ join ", " validLevels)
      else Ok level
  | _ => fail "detectionLevel" "Detection level must be a string"
  end.

(** *** Request bodies

    A parsed JSON value.  The properties of an object are listed in their
    order; a property name occurs once. *)
#[warnings="-register-all"]
Inductive json : Type :=
| JsNull
| JsBool (b : bool)
| JsNum (n : jsnum)
| JsStr (s : string)
| JsArr (items : list json)
| JsObj (fields : list (string * json)).

(** The property names of an array: its indices. *)
Fixpoint indexed {A : Type} (i : nat) (l : list A) : list (string * A) :=
  match l with
  | [] => []
  | x :: rest => (pretty i, x) :: indexed (S i) rest
  end.

(** The value as the validators receive it; an array is an object. *)
Fixpoint to_jsval (v : json) : jsval :=
  match v with
  | JsNull => JNull
  | JsBool b => JBool b
  | JsNum n => JNum n
  | JsStr s => JStr s
  | JsArr items => JObj (indexed 0 (List.map to_jsval items))
  | JsObj fields => JObj (List.map (fun kv => (kv.1, to_jsval kv.2)) fields)
  end.

Fixpoint assoc {A : Type} (key : string) (l : list (string * A)) : option A :=
  match l with
  | [] => None
  | (k, v) :: rest => if String.eqb k key then Some v else assoc key rest
  end.

(** [body[key]] for one of the names [uuid], [string], [option], [mode]:
    only an object has such a property.  A missing property reads
    [undefined]. *)
Definition body_prop (body : json) (key : string) : jsval :=
  match body with
  | JsObj fields =>
      match assoc key fields with
      | Some v => to_jsval v
      | None => JUndefined
      end
  | _ => JUndefined
  end.

Definition body_prop_json (body : json) (key : string) : option json :=
  match body with
  | JsObj fields => assoc key fields
  | _ => None
  end.

(** [typeof body === 'object'] for a truthy [body] *)
Definition is_object (v : json) : bool :=
  match v with
  | JsArr _ | JsObj _ => true
  | _ => false
  end.

(** What a validation of a request can throw: a [ValidationError], or the
    [TypeError] of a call of something that is not a function. *)
Inductive request_error : Type :=
| Invalid (e : ValidationError)
| NotAFunction (message : string).

Definition lift {A} (r : result ValidationError A) : result request_error A :=
  match r with
  | Ok a => Ok a
  | Throw e => Throw (Invalid e)
  end.

(** [v.includes(',')] for a truthy [v]: a string and an array have the
    method; a number, a boolean and a plain object have not. *)
Definition includes_comma (v : json) : result request_error bool :=
  match v with
  | JsStr s => Ok (includes s ",")
  | JsArr items =>
      Ok (existsb (fun x => match x with JsStr s => String.eqb s "," | _ => false end)
            items)
  | _ => Throw (NotAFunction "body.string.includes is not a function")
  end.

Record analyze_request : Type := mkAnalyzeRequest {
  req_uuid : string;
  req_string : list string;
  req_option : option string;
  req_mode : option string
}.

Definition validateAnalyzeRequest (body : json) : result request_error analyze_request :=
  if JS.falsy (to_jsval body) || negb (is_object body) then
    Throw (Invalid (new_ValidationError "request" "Invalid request body"))
  else
    uuid ← lift (validateUUID (body_prop body "uuid"));
    several ←
      (if JS.truthy (body_prop body "string") then
         match body_prop_json body "string" with
         | Some v => includes_comma v
         | None => Ok false
         end
       else Ok false);
    names ←
      (if several : bool then lift (validateUsernames (body_prop body "string"))
       else name ← lift (validateUsername (body_prop body "string")); Ok [name]);
    option ←
      (if JS.truthy (body_prop body "option")
       then o ← lift (validateOption (body_prop body "option")); Ok (Some o)
       else Ok None);
    mode ←
      (if JS.truthy (body_prop body "mode")
       then m ← lift (validateMode (body_prop body "mode")); Ok (Some m)
       else Ok None);
    Ok (mkAnalyzeRequest uuid names option mode).

Section WithUrlPlatform.

(** [validator.isURL(url, { protocols: ['http', 'https'],
    require_protocol: true, require_valid_protocol: true,
    allow_underscores: true })] *)
Variable isURL : string -> bool.
(** [new URL(url)]; [None] when the constructor throws. *)
Variable parseURL : string -> option URL.

Definition seq (rs : list regex) : regex := foldr Cat Eps rs.

Definition privatePatterns : list Regex.pattern :=
  [ Anchored (lit_i "localhost");
    Anchored (seq [lit "127."; digits; lit "."; digits; lit "."; digits]);
    Anchored (seq [lit "10."; digits; lit "."; digits; lit "."; digits]);
    Anchored (seq [lit "172.";
                   Alt (Cat (chr "1") (Class (in_range 54 57)))
                     (Alt (Cat (chr "2") digit)
                          (Cat (chr "3") (Class (in_range 48 49))));
                   lit "."; digits; lit "."; digits]);
    Anchored (seq [lit "192.168."; digits; lit "."; digits]);
    Anchored (lit "::1");
    Prefix (lit_i "fe80:") ].

(** [NODE_ENV] is [process.env.NODE_ENV]; [optional] is the truth value of
    [options.optional]. *)
Definition validateUrl (NODE_ENV : option string) (url : jsval) (optional : bool)
  : result ValidationError string :=
  if JS.falsy url then
    if optional then Ok "" else fail "url" "URL is required"
  else match url with
  | JStr url =>
      let url := trim url in
      if negb (isURL url) then fail "url" "Invalid URL format"
      else
        match parseURL url with
        | None => fail "url" "Invalid URL format"
        | Some parsed =>
            if bool_decide (NODE_ENV = Some "production") then
              let hostname := toLowerCase (hostname parsed) in
              if existsb (fun pattern => test pattern hostname) privatePatterns
              then fail "url" "Private/internal URLs are not allowed"
              else Ok url
            else Ok url
        end
  | _ => fail "url" "URL must be a string"
  end.

End WithUrlPlatform.

End Validation.

(** ** modules/config.js *)

Module Config.
Import JSString Regex.

(** *** Values and the array store

    A configuration value is a number, a boolean, a string or a reference
    to an array of strings.  Arrays are objects: two references to the same
    location see each other's updates. *)

Definition loc : Type := nat.

Inductive cval : Type :=
| CNum (n : jsnum)
| CBool (b : bool)
| CStr (s : string)
| CArr (a : loc).

Record heap : Type := mkHeap {
  cells : gmap loc (list string);
  next : loc
}.

(** A new array literal. *)
Definition alloc (h : heap) (l : list string) : loc * heap :=
  (next h, {| cells := <[next h := l]> (cells h); next := S (next h) |}).

Definition array_at (h : heap) (a : loc) : list string :=
  default [] (cells h !! a).

(** [array.push(x)] *)
Definition array_push (h : heap) (a : loc) (x : string) : heap :=
  {| cells := <[a := array_at h a ++ [x]]> (cells h); next := next h |}.

(** ToBoolean *)
Definition truthy (v : cval) : bool :=
  match v with
  | CNum NaN => false
  | CNum n => negb (JS.num_is_zero n)
  | CBool b => b
  | CStr s => negb (String.eqb s "")
  | CArr _ => true
  end.

(** Truth value of a property read; a missing property reads [undefined]. *)
Definition truthy_opt (v : option cval) : bool :=
  match v with Some v => truthy v | None => false end.

Definition num_of_Z (z : Z) : cval := CNum (Fin (inject_Z z)).

Definition isNaN (n : jsnum) : bool :=
  match n with NaN => true | _ => false end.

(** [n < z] and [n > z] for an integer bound [z] *)
Definition num_lt (n : jsnum) (z : Z) : bool :=
  match n with
  | NaN | PosInf => false
  | NegInf => true
  | Fin q => negb (Qle_bool (inject_Z z) q)
  end.

Definition num_gt (n : jsnum) (z : Z) : bool :=
  match n with
  | NaN | NegInf => false
  | PosInf => true
  | Fin q => negb (Qle_bool q (inject_Z z))
  end.

(** *** The schema *)

Inductive schema_type : Type := TNumber | TBoolean | TString | TArray.

Record field_schema : Type := mkField {
  type : schema_type;
  default : cval;
  min : option Z;
  max : option Z;
  minLength : option nat;
  pattern : option Regex.pattern;
  enum : option (list string);
  separator : option string;
  optional : bool;
  required : bool;
  description : string
}.

Definition number_field (d lo hi : Z) (desc : string) : field_schema :=
  mkField TNumber (num_of_Z d) (Some lo) (Some hi) None None None None false false desc.

Definition boolean_field (d : bool) (desc : string) : field_schema :=
  mkField TBoolean (CBool d) None None None None None None false false desc.

Definition string_field (d : string) (opt : bool) (pat : option Regex.pattern)
  (enum : option (list string)) (desc : string) : field_schema :=
  mkField TString (CStr d) None None None pat enum None opt false desc.

(** [/^(localhost|127\.0\.0\.1|0\.0\.0\.0|[\w\.-]+)$/] *)
Definition HOST_pattern : Regex.pattern :=
  Anchored
    (Alt (lit "localhost")
      (Alt (lit "127.0.0.1")
        (Alt (lit "0.0.0.0")
          (plus (Class (fun c => is_word c || contains_char c ".-")))))).

(** [/^(https?:\/\/.+|)$/] *)
Definition URL_pattern : Regex.pattern :=
  Anchored
    (Alt (Cat (lit "http") (Cat (opt (chr "s")) (Cat (lit "://") (plus (Class is_dot)))))
         Eps).

(** The array literal [['http://localhost:3000']] of the schema is created
    once, when the module is evaluated; it lives at location 0. *)
Definition CORS_ORIGINS_default : loc := 0.

Definition module_heap : heap :=
  {| cells := {[ CORS_ORIGINS_default := ["http://localhost:3000"] ]}; next := 1 |}.

(** [production_at_import] is the value of
    [process.env.NODE_ENV === 'production'] when the module is evaluated. *)
Definition CONFIG_SCHEMA (production_at_import : bool) : list (string * field_schema) :=
  [ ("PORT", number_field 9005 1024 65535 "Server port number");
    ("HOST", string_field "localhost" false (Some HOST_pattern) None "Server host address");
    ("VERBOSE", boolean_field false "Enable verbose debug logging");
    ("GOOGLE_API_KEY", string_field "" true None None "Google Custom Search API key");
    ("GOOGLE_API_CS", string_field "" true None None "Google Custom Search Engine ID");
    ("SELENIUM_GRID_URL", string_field "" true (Some URL_pattern) None "Selenium Grid URL");
    ("HTTP_PROXY", string_field "" true (Some URL_pattern) None "HTTP/HTTPS proxy URL");
    ("USER_AGENT",
     string_field
       "Mozilla/5.0 (X11; Ubuntu; Linux x86_64; rv:102.0) Gecko/20100101 Firefox/102.0"
       false None None "User-Agent string for HTTP requests");
    ("SESSION_SECRET",
     mkField TString (CStr "") None None (Some 32) None None None false
       production_at_import "Session secret for CSRF protection");
    ("ENABLE_CORS", boolean_field false "Enable CORS");
    ("CORS_ORIGINS",
     mkField TArray (CArr CORS_ORIGINS_default) None None None None None (Some ",")
       false false "Allowed CORS origins");
    ("RATE_LIMIT_MAX", number_field 100 1 10000 "Maximum requests per IP per window");
    ("RATE_LIMIT_WINDOW", number_field 15 1 1440 "Rate limit window in minutes");
    ("DETECTION_LEVEL",
     string_field "high" false None (Some ["extreme"; "high"; "normal"; "low"])
       "Detection sensitivity level");
    ("MAX_FAST_WORKERS", number_field 15 1 50 "Maximum concurrent fast scans");
    ("MAX_SLOW_WORKERS", number_field 8 1 20 "Maximum concurrent slow scans");
    ("MAX_SPECIAL_WORKERS", number_field 5 1 20 "Maximum concurrent special scans");
    ("REQUEST_TIMEOUT", number_field 5 1 60 "HTTP request timeout in seconds");
    ("ENABLE_FILE_LOGGING", boolean_field true "Enable file logging");
    ("LOG_DIR", string_field "./logs" false None None "Log directory path");
    ("LOG_LEVEL",
     string_field "info" false None (Some ["error"; "warn"; "info"; "debug"])
       "Logging level");
    ("SITES_DATA_PATH", string_field "./data/sites.json" false None None "Path to sites.json");
    ("NAMES_DATA_PATH", string_field "./data/names.json" false None None "Path to names.json");
    ("LANGUAGES_DATA_PATH",
     string_field "./data/languages.json" false None None "Path to languages.json");
    ("DICT_DATA_PATH", string_field "./data/dict.json" false None None "Path to dict.json");
    ("COUNTRIES_DATA_PATH",
     string_field "./data/countries.json" false None None "Path to countries.json") ].

(** [class ConfigValidationError extends Error]; [TypeError] is what the
    platform throws when an argument has the wrong type. *)
Inductive load_error : Type :=
| ConfigValidationError (errors : list string)
| TypeError (message : string).

(** The [message] of a [ConfigValidationError]. *)
Definition ConfigValidationError_message (errors : list string) : string :=
  "Configuration validation failed:" ++ String (ascii_of_nat 10) ""
  ++ join (String (ascii_of_nat 10) "") ((fun e => ("  - " ++ e)%string) <$> errors).

Record vresult : Type := mkVresult {
  valid : bool;
  errors : list string;
  value : cval
}.

(** An object with string keys; [frozen] is set by [Object.freeze]. *)
Record jsobject : Type := mkObject {
  props : gmap string cval;
  frozen : bool
}.

(** What the process reads from its surroundings while loading. *)
Record World : Type := mkWorld {
  env : gmap string string;            (* process.env, after dotenv.config() *)
  resolve : string -> string;          (* path.resolve *)
  existsSync : string -> bool;         (* fs.existsSync *)
  mkdirSync : string -> bool;          (* fs.mkdirSync returns (true) or throws (false) *)
  randomBytes : nat -> list Byte.byte  (* crypto.randomBytes *)
}.

Definition NODE_ENV (w : World) : option string := env w !! "NODE_ENV".

Definition is_production (w : World) : bool :=
  bool_decide (NODE_ENV w = Some "production").

Definition hex_digit (n : N) : ascii :=
  ascii_of_N (if (n <? 10)%N then 48 + n else 87 + n)%N.

(** [buffer.toString('hex')] *)
Definition toHex (bytes : list Byte.byte) : string :=
  string_of_list_ascii
    (flat_map (fun b => let n := Byte.to_N b in
                        [hex_digit (n / 16); hex_digit (n mod 16)]) bytes).


Section WithPlatform.

(** [Number(s)] for a string [s], and the conversion of a number to a
    string in a template literal. *)
Variable Number : string -> jsnum.
Variable numToString : jsnum -> string.
(** [new URL(s)]; [None] when the constructor throws. *)
Variable parseURL : string -> option URL.

(** [String(v)], also the conversion applied by template literals. *)
Definition display (h : heap) (v : cval) : string :=
  match v with
  | CNum n => numToString n
  | CBool b => if b then "true" else "false"
  | CStr s => s
  | CArr a => join "," (array_at h a)
  end.

(** [!value || value === ''] for [value = process.env[key]] *)
Definition unset (value : option string) : bool :=
  match value with
  | None => true
  | Some s => String.eqb s ""
  end.

(** *** validateValue

    [value] is [process.env[key]]: a string, or [None] for [undefined].
    The array branch creates a new array, so the store is threaded. *)
Definition validateValue (key : string) (value : option string)
  (schema : field_schema) (h : heap) : vresult * heap :=
  if required schema && unset value then
    (mkVresult false [(key ++ " is required but not set")%string] (default schema), h)
  else if unset value then
    (mkVresult true [] (default schema), h)
  else
    let value := match value with Some s => s | None => "" end in
    match type schema with
    | TNumber =>
        let num := Number value in
        if isNaN num then
          let errors := [(key ++ " must be a number, got: " ++ value)%string] in
          (mkVresult false errors (CStr value), h)
        else
          let errors :=
            (match min schema with
             | Some lo =>
                 if num_lt num lo
                 then [(key ++ " must be >= " ++ pretty lo ++ ", got: "
                        ++ numToString num)%string]
                 else []
             | None => []
             end)
            ++
            (match max schema with
             | Some hi =>
                 if num_gt num hi
                 then [(key ++ " must be <= " ++ pretty hi ++ ", got: "
                        ++ numToString num)%string]
                 else []
             | None => []
             end) in
          (mkVresult (length errors =? 0) errors (CNum num), h)
    | TBoolean =>
        let value := String.eqb (toLowerCase value) "true" || String.eqb value "1" in
        (mkVresult true [] (CBool value), h)
    | TString =>
        let errors :=
          (match minLength schema with
           | Some n =>
               if negb (n =? 0) && (String.length value <? n)
               then [(key ++ " must be at least " ++ pretty n ++ " characters, got: "
                      ++ pretty (String.length value))%string]
               else []
           | None => []
           end)
          ++
          (match pattern schema with
           | Some p => if negb (test p value)
                       then [(key ++ " has invalid format")%string] else []
           | None => []
           end)
          ++
          (match enum schema with
           | Some allowed =>
               if negb (bool_decide (value ∈ allowed))
               then [(key ++ " must be one of: " ++ join ", " allowed ++ ", got: "
                      ++ value)%string]
               else []
           | None => []
           end) in
        (mkVresult (length errors =? 0) errors (CStr value), h)
    | TArray =>
        let sep := match separator schema with
                   | Some s => if String.eqb s "" then "," else s
                   | None => ","
                   end in
        let items :=
          List.filter (fun v => negb (String.eqb v "")) (trim <$> split value sep) in
        let (a, h') := alloc h items in
        (mkVresult true [] (CArr a), h')
    end.

(** *** loadConfig *)

Record load_acc : Type := mkAcc {
  acc_config : gmap string cval;
  acc_errors : list string;
  acc_warnings : list string;
  acc_heap : heap
}.

(** One iteration of [for (const [key, schema] of Object.entries(CONFIG_SCHEMA))] *)
Definition load_step (w : World) (acc : load_acc) (entry : string * field_schema)
  : load_acc :=
  let key := entry.1 in
  let schema := entry.2 in
  let envValue := env w !! key in
  let r := validateValue key envValue schema (acc_heap acc) in
  let result := r.1 in
  {| acc_config := <[key := value result]> (acc_config acc);
     acc_errors :=
       if valid result then acc_errors acc else acc_errors acc ++ errors result;
     acc_warnings :=
       if unset envValue && required schema && truthy (default schema)
       then acc_warnings acc
            ++ [(key ++ " not set, using default: "
                 ++ display r.2 (default schema))%string]
       else acc_warnings acc;
     acc_heap := r.2 |}.

Definition dataPaths : list string :=
  ["SITES_DATA_PATH"; "NAMES_DATA_PATH"; "LANGUAGES_DATA_PATH";
   "DICT_DATA_PATH"; "COUNTRIES_DATA_PATH"].

(** [path.resolve(config[key])]; the platform throws on a non-string. *)
Definition resolve_field (w : World) (config : gmap string cval) (key : string)
  : result load_error string :=
  match config !! key with
  | Some (CStr s) => Ok (resolve w s)
  | _ => Throw (TypeError "The paths[0] argument must be of type string")
  end.

(** The loop that collects [missingFiles]. *)
Fixpoint missing_files (w : World) (config : gmap string cval) (keys : list string)
  : result load_error (list string) :=
  match keys with
  | [] => Ok []
  | pathKey :: rest =>
      filePath ← resolve_field w config pathKey;
      missing ← missing_files w config rest;
      Ok (if existsSync w filePath then missing
          else (pathKey ++ ": " ++ filePath)%string :: missing)
  end.

Record load_outcome : Type := mkOutcome {
  returned : result load_error jsobject;
  heap_after : heap;
  console : list string
}.

Definition generate_hint : string :=
  "Generate one with: node -e "
  ++ String dquote "console.log(require('crypto').randomBytes(32).toString('hex'))"
  ++ String dquote "".

Definition loadConfig (production_at_import : bool) (w : World) (h : heap)
  : load_outcome :=
  let acc :=
    foldl (load_step w) (mkAcc ∅ [] [] h) (CONFIG_SCHEMA production_at_import) in
  let config := acc_config acc in
  let h := acc_heap acc in
  if negb (length (acc_errors acc) =? 0) then
    mkOutcome (Throw (ConfigValidationError (acc_errors acc))) h []
  else
    let verbose := truthy_opt (config !! "VERBOSE") in
    let out :=
      if verbose && negb (length (acc_warnings acc) =? 0)
      then "Configuration warnings:"
           :: ((fun x => ("  - " ++ x)%string) <$> acc_warnings acc)
      else [] in
    match missing_files w config dataPaths with
    | Throw e => mkOutcome (Throw e) h out
    | Ok ((_ :: _) as missingFiles) =>
        mkOutcome
          (Throw (ConfigValidationError ("Required data files not found:" :: missingFiles)))
          h out
    | Ok [] =>
        let logging :=
          if truthy_opt (config !! "ENABLE_FILE_LOGGING") then
            logDir ← resolve_field w config "LOG_DIR";
            if existsSync w logDir then Ok tt
            else if mkdirSync w logDir then Ok tt
            else Throw (ConfigValidationError
                          [("Cannot create log directory: " ++ logDir)%string])
          else Ok tt in
        match logging with
        | Throw e => mkOutcome (Throw e) h out
        | Ok _ =>
            if is_production w && negb (truthy_opt (config !! "SESSION_SECRET")) then
              mkOutcome
                (Throw (ConfigValidationError
                   ["SESSION_SECRET is required in production";
                    generate_hint]))
                h out
            else if negb (truthy_opt (config !! "SESSION_SECRET")) then
              let secret := toHex (randomBytes w 32) in
              mkOutcome
                (Ok (mkObject (<["SESSION_SECRET" := CStr secret]> config) true))
                h
                (out ++ if verbose
                        then ["Generated temporary SESSION_SECRET for development"]
                        else [])
            else
              mkOutcome (Ok (mkObject config true)) h out
        end
    end.

(** *** The module variable [config] and its readers *)

Record module_state : Type := mkState {
  config : option jsobject;
  store : heap
}.

Inductive init_outcome : Type :=
| Initialized (st : module_state) (console : list string)
| Exit (code : Z) (console : list string)
| Uncaught (e : load_error).

(** The line feed, U+000A. *)
Definition LF : string := String (ascii_of_nat 10) "".

(** [initConfig]: a [ConfigValidationError] is printed and the process
    exits with status 1; anything else is thrown again.  The four texts
    given to [console.error] are kept with their line feeds.  The two
    characters that open the first text are written as they stand in the
    source file, in its UTF-8 encoding; the second of them is above code
    unit 255. *)
Definition initConfig (production_at_import : bool) (w : World) (h : heap)
  : init_outcome :=
  let o := loadConfig production_at_import w h in
  match returned o with
  | Ok c => Initialized (mkState (Some c) (heap_after o)) (console o)
  | Throw (ConfigValidationError errors) =>
      Exit 1 (console o ++
              [("âŒ Configuration Error:" ++ LF)%string;
               ConfigValidationError_message errors;
               (LF ++ "Please check your .env file or environment variables.")%string;
               ("Run with --config-help to see all available options." ++ LF)%string])
  | Throw e => Uncaught e
  end.

Definition not_initialized : string :=
  "Configuration not initialized. Call loadConfig() first.".

(** [get(key)]; a missing property reads [undefined], here [None]. *)
Definition get (st : module_state) (key : string) : result string (option cval) :=
  match config st with
  | None => Throw not_initialized
  | Some c => Ok (props c !! key)
  end.

Definition getAll (st : module_state) : result string jsobject :=
  match config st with
  | None => Throw not_initialized
  | Some c => Ok c
  end.

(** [obj[key] = v] in module (strict) code *)
Definition set_property (o : jsobject) (key : string) (v : cval)
  : result string jsobject :=
  if frozen o then Throw "TypeError: Cannot assign to read only property"
  else Ok (mkObject (<[key := v]> (props o)) false).

(** [delete obj[key]] in module (strict) code *)
Definition delete_property (o : jsobject) (key : string) : result string jsobject :=
  if frozen o then
    match props o !! key with
    | Some _ => Throw "TypeError: Cannot delete property"
    | None => Ok o
    end
  else Ok (mkObject (delete key (props o)) false).

(** *** Secret projection *)

Definition substring_is_not_a_function : string :=
  "TypeError: secret.substring is not a function".

Definition maskSecret (h : heap) (secret : cval) : result string cval :=
  if negb (truthy secret) then Ok (CStr "***")
  else match secret with
  | CStr secret =>
      if String.length secret <=? 10 then Ok (CStr "***")
      else Ok (CStr (take 10 secret ++ repeat_char "*" (String.length secret - 10)))
  | CArr a =>
      if length (array_at h a) <=? 10 then Ok (CStr "***")
      else Throw substring_is_not_a_function
  | _ => Throw substring_is_not_a_function
  end.

Definition maskUrl (h : heap) (url : cval) : cval :=
  if negb (truthy url) then CStr ""
  else
    match parseURL (display h url) with
    | None => CStr "***"
    | Some parsed =>
        if negb (String.eqb (username parsed) "") || negb (String.eqb (password parsed) "")
        then CStr (protocol parsed ++ "//***.***@" ++ host parsed ++ pathname parsed)
        else url
    end.

(** The body of [getSanitized], applied to the object held by [config]. *)
Definition sanitize (h : heap) (config : jsobject) : result string jsobject :=
  let sanitized := props config in
  sanitized ←
    (if truthy_opt (sanitized !! "GOOGLE_API_KEY") then
       match sanitized !! "GOOGLE_API_KEY" with
       | Some key => masked ← maskSecret h key;
                     Ok (<["GOOGLE_API_KEY" := masked]> sanitized)
       | None => Ok sanitized
       end
     else Ok sanitized);
  let sanitized :=
    if truthy_opt (sanitized !! "SESSION_SECRET")
    then <["SESSION_SECRET" := CStr "***HIDDEN***"]> sanitized
    else sanitized in
  let sanitized :=
    if truthy_opt (sanitized !! "HTTP_PROXY") then
      match sanitized !! "HTTP_PROXY" with
      | Some url => <["HTTP_PROXY" := maskUrl h url]> sanitized
      | None => sanitized
      end
    else sanitized in
  Ok (mkObject sanitized false).

Definition getSanitized (st : module_state) : result string jsobject :=
  match config st with
  | None => Throw not_initialized
  | Some c => sanitize (store st) c
  end.

End WithPlatform.

End Config.

(** ** modules/error-handler.js *)

Module ErrorHandler.

Module ErrorTypes.
Definition VALIDATION : string := "validation_error".
Definition AUTHENTICATION : string := "authentication_error".
Definition AUTHORIZATION : string := "authorization_error".
Definition NOT_FOUND : string := "not_found".
Definition RATE_LIMIT : string := "rate_limit_exceeded".
Definition INTERNAL : string := "internal_error".
Definition CONFIGURATION : string := "configuration_error".
Definition NETWORK : string := "network_error".
Definition TIMEOUT : string := "timeout_error".
End ErrorTypes.

(** A thrown object: what [err instanceof AppError] answers, and what a
    property read finds (own or inherited).  A property that is not there
    reads [undefined]. *)
Record thrown : Type := mkThrown {
  instanceof_AppError : bool;
  fields : gmap string jsval
}.

Definition prop (err : thrown) (key : string) : jsval :=
  default JUndefined (fields err !! key).

(** [new AppError(type, message, statusCode, details)], created at time [now] *)
Definition new_AppError (type message : string) (statusCode : Z) (details : jsval)
  (now : string) : thrown :=
  mkThrown true
    (<["name" := JStr "AppError"]>
      (<["message" := JStr message]>
        (<["type" := JStr type]>
          (<["statusCode" := JS.int statusCode]>
            (<["details" := details]>
              (<["timestamp" := JStr now]> ∅)))))).

(** The response record under construction. *)
Definition base_response (now : string) : gmap string jsval :=
  <["timestamp" := JStr now]>
    (<["type" := JStr ErrorTypes.INTERNAL]>
      (<["message" := JStr "An error occurred"]>
        (<["error" := JBool true]> ∅))).

Definition respond (message type statusCode : jsval) (response : gmap string jsval)
  : gmap string jsval :=
  <["statusCode" := statusCode]>
    (<["type" := type]> (<["message" := message]> response)).

(** [NODE_ENV] is [process.env.NODE_ENV], [st] the state of the
    configuration module read by [getConfig], [now] the clock.  The second
    parameter [req] of the source is not used by it. *)
Definition createErrorResponse (NODE_ENV : option string) (st : Config.module_state)
  (now : string) (err : thrown) : result string (gmap string jsval) :=
  let isDevelopment := negb (bool_decide (NODE_ENV = Some "production")) in
  verbose ← Config.get st "VERBOSE";
  let verbose := Config.truthy_opt verbose in
  let response := base_response now in
  if JS.eq_str (prop err "name") "ValidationError" then
    Ok (respond (JS.or (prop err "userMessage") (prop err "message"))
          (JStr ErrorTypes.VALIDATION) (JS.int 400) response)
  else if instanceof_AppError err then
    let response :=
      respond (prop err "message") (prop err "type") (prop err "statusCode") response in
    Ok (if isDevelopment && JS.truthy (prop err "details")
        then <["details" := prop err "details"]> response
        else response)
  else if JS.eq_str (prop err "code") "ECONNREFUSED" then
    Ok (respond (JStr "Service temporarily unavailable")
          (JStr ErrorTypes.NETWORK) (JS.int 503) response)
  else if JS.eq_str (prop err "code") "ETIMEDOUT"
          || JS.eq_str (prop err "name") "TimeoutError" then
    Ok (respond (JStr "Request timeout") (JStr ErrorTypes.TIMEOUT) (JS.int 504) response)
  else if JS.eq_str (prop err "code") "ENOENT" then
    Ok (respond (JStr "Resource not found") (JStr ErrorTypes.NOT_FOUND) (JS.int 404)
          response)
  else
    let response :=
      if isDevelopment || verbose then
        <["details" := JObj [("name", prop err "name"); ("code", prop err "code")]]>
          (<["stack" := prop err "stack"]>
            (<["message" := prop err "message"]> response))
      else response in
    Ok (<["statusCode" := JS.or (prop err "statusCode") (JS.int 500)]> response).

(** The [stack] that the platform records when an error is created. *)
Definition with_stack (err : thrown) (stack : string) : thrown :=
  mkThrown (instanceof_AppError err) (<["stack" := JStr stack]> (fields err)).

(** *** The error constructors

    A message left out is [None]. *)

Definition validationError (field message now : string) : thrown :=
  new_AppError ErrorTypes.VALIDATION message 400 (JObj [("field", JStr field)]) now.

Definition notFoundError (resource now : string) : thrown :=
  new_AppError ErrorTypes.NOT_FOUND (resource ++ " not found") 404 JNull now.

Definition rateLimitError (retryAfter : jsval) (now : string) : thrown :=
  let details :=
    if JS.truthy retryAfter then JObj [("retryAfter", retryAfter)] else JNull in
  new_AppError ErrorTypes.RATE_LIMIT "Too many requests, please try again later" 429
    details now.

Definition internalError (message : option string) (now : string) : thrown :=
  new_AppError ErrorTypes.INTERNAL (default "Internal server error" message) 500 JNull now.

Definition configurationError (message now : string) : thrown :=
  new_AppError ErrorTypes.CONFIGURATION message 500 JNull now.

Definition networkError (message : option string) (now : string) : thrown :=
  new_AppError ErrorTypes.NETWORK (default "Network request failed" message) 503 JNull now.

Definition timeoutError (message : option string) (now : string) : thrown :=
  new_AppError ErrorTypes.TIMEOUT (default "Request timeout" message) 504 JNull now.

(** *** Requests and logging *)

(** A request, as far as the handlers read it.  The headers are the
    properties of [req.headers] in their order, each name once; an
    address that is not there is [None]. *)
Record request : Type := mkRequest {
  req_method : string;
  req_url : string;
  req_originalUrl : option string;
  req_headers : list (string * string);
  connection_remoteAddress : option string;
  socket_remoteAddress : option string;
  connection_socket_remoteAddress : option string
}.

(** [a || b] for a string or [undefined] on the left *)
Definition or_else (a : option string) (b : string) : string :=
  match a with
  | Some s => if String.eqb s "" then b else s
  | None => b
  end.

(** [s.split(',')[0]] *)
Definition first_segment (s : string) : string :=
  match JSString.split s "," with
  | x :: _ => x
  | [] => ""
  end.

Definition getClientIp (req : request) : string :=
  or_else (first_segment <$> Validation.assoc "x-forwarded-for" (req_headers req))
    (or_else (Validation.assoc "x-real-ip" (req_headers req))
      (or_else (connection_remoteAddress req)
        (or_else (socket_remoteAddress req)
          (or_else (connection_socket_remoteAddress req) "unknown")))).

(** [delete obj[key]] on a copy of the headers *)
Definition delete_header (key : string) (headers : list (string * string))
  : list (string * string) :=
  List.filter (fun kv => negb (String.eqb kv.1 key)) headers.

(** What logging needs from the platform: [JSON.stringify(v)],
    [JSON.stringify(v, null, 2)], [path.resolve] on a string and the
    message of the [TypeError] it throws on anything else, [path.join],
    and [fs.appendFileSync], which returns ([None]) or throws an error
    with a message. *)
Record LogPlatform : Type := mkLogPlatform {
  stringify : jsval -> string;
  stringify_indented : jsval -> string;
  path_resolve : string -> string;
  path_resolve_failure : string;
  path_join : string -> string -> string;
  appendFileSync : string -> string -> option string
}.

(** What a call writes: lines on the console, and texts appended to
    files. *)
Record log_effects : Type := mkEffects {
  to_console : list string;
  to_file : list (string * string)
}.

Definition no_effects : log_effects := mkEffects [] [].

(** [context.level] *)
Definition context_level (context : list (string * jsval)) : jsval :=
  default JUndefined (Validation.assoc "level" context).

(** The object [logEntry] with its properties in the order in which they
    are added. *)
Definition logEntry (NODE_ENV : option string) (verbose : bool) (now : string)
  (err : thrown) (req : option request) (context : list (string * jsval))
  : list (string * jsval) :=
  [ ("timestamp", JStr now);
    ("level", JS.or (context_level context) (JStr "error"));
    ("message", prop err "message");
    ("type", JS.or (prop err "type") (JStr "unknown"));
    ("name", prop err "name");
    ("code", prop err "code");
    ("statusCode", prop err "statusCode") ]
  ++ match req with
     | Some req =>
         [ ("request",
            JObj [ ("method", JStr (req_method req));
                   ("url", JStr (or_else (req_originalUrl req) (req_url req)));
                   ("ip", JStr (getClientIp req));
                   ("userAgent",
                    match Validation.assoc "user-agent" (req_headers req) with
                    | Some ua => JStr ua
                    | None => JUndefined
                    end) ]);
           ("headers",
            JObj ((fun kv => (kv.1, JStr kv.2))
                    <$> delete_header "cookie"
                          (delete_header "authorization" (req_headers req)))) ]
     | None => []
     end
  ++ (if negb (length context =? 0) then [("context", JObj context)] else [])
  ++ (if verbose || negb (bool_decide (NODE_ENV = Some "production"))
      then [("stack", prop err "stack")] else []).

(** [logError(err, req, context)]; [now] is the clock. *)
Definition logError (NODE_ENV : option string) (st : Config.module_state)
  (platform : LogPlatform) (now : string)
  (err : thrown) (req : option request) (context : list (string * jsval))
  : result string log_effects :=
  verbose ← Config.get st "VERBOSE";
  enableFileLogging ← Config.get st "ENABLE_FILE_LOGGING";
  logLevel ← Config.get st "LOG_LEVEL";
  let verbose := Config.truthy_opt verbose in
  if match logLevel with Some (Config.CStr l) => String.eqb l "error" | _ => false end
     && negb (JS.eq_str (context_level context) "error")
  then Ok no_effects
  else
    let entry := JObj (logEntry NODE_ENV verbose now err req context) in
    let console :=
      if verbose
      then ["--- Error Log ---"; stringify_indented platform entry; "-----------------"]
      else [] in
    let failed (message : string) :=
      mkEffects (console ++ [("Failed to write error log: " ++ message)%string]) [] in
    if Config.truthy_opt enableFileLogging then
      match Config.get st "LOG_DIR" with
      | Ok (Some (Config.CStr dir)) =>
          let logFile := path_join platform (path_resolve platform dir) "error.log" in
          let logLine := (stringify platform entry ++ String (ascii_of_nat 10) "")%string in
          match appendFileSync platform logFile logLine with
          | None => Ok (mkEffects console [(logFile, logLine)])
          | Some message => Ok (failed message)
          end
      | Ok _ => Ok (failed (path_resolve_failure platform))
      | Throw message => Ok (failed message)
      end
    else Ok (mkEffects console []).

(** What a handler sends: [res.status(status).json(body)]. *)
Record sent : Type := mkSent {
  status : jsval;
  body : gmap string jsval
}.

(** [errorMiddleware(err, req, res, next)]; the clock is read once for
    the log entry and once for the response. *)
Definition errorMiddleware (NODE_ENV : option string) (st : Config.module_state)
  (platform : LogPlatform) (now_log now_response : string)
  (err : thrown) (req : request) : result string (log_effects * sent) :=
  written ← logError NODE_ENV st platform now_log err (Some req) [];
  errorResponse ← createErrorResponse NODE_ENV st now_response err;
  Ok (written,
      mkSent (JS.or (default JUndefined (errorResponse !! "statusCode")) (JS.int 500))
        errorResponse).

(** [notFoundHandler(req, res)]; the clock is read for the error, for
    the log entry and for the response. *)
Definition notFoundHandler (NODE_ENV : option string) (st : Config.module_state)
  (platform : LogPlatform) (now_error now_log now_response stack : string)
  (req : request) : result string (log_effects * sent) :=
  let error :=
    with_stack (new_AppError ErrorTypes.NOT_FOUND "Endpoint not found" 404 JNull now_error)
      stack in
  written ← logError NODE_ENV st platform now_log error (Some req)
              [("level", JStr "warn")];
  response ← createErrorResponse NODE_ENV st now_response error;
  Ok (written, mkSent (JS.int 404) response).

(** The context that [handleUncaughtException] gives to [logError]. *)
Definition uncaught_context : list (string * jsval) :=
  [("level", JStr "critical"); ("type", JStr "uncaught_exception")].

(** The context that [handleUnhandledRejection] gives to [logError];
    [promise] is the text [String(promise)]. *)
Definition rejection_context (promise : string) : list (string * jsval) :=
  [("level", JStr "critical"); ("type", JStr "unhandled_rejection");
   ("promise", JStr promise)].

(** [new Error(message)]; [stack] is the text the platform records. *)
Definition new_Error (message stack : string) : thrown :=
  mkThrown false
    (<["name" := JStr "Error"]>
      (<["message" := JStr message]>
        (<["stack" := JStr stack]> ∅))).

(** The reason of a rejection: an instance of [Error], or any other value,
    given by its text [String(reason)]. *)
Inductive rejection_reason : Type :=
| ReasonError (err : thrown)
| ReasonOther (text : string).

(** [reason instanceof Error ? reason : new Error(String(reason))] *)
Definition rejection_error (reason : rejection_reason) (stack : string) : thrown :=
  match reason with
  | ReasonError err => err
  | ReasonOther text => new_Error text stack
  end.

(** What a global handler does: the lines it prints itself with
    [console.error], the outcome of its call of [logError], and the exit
    it schedules with [setTimeout], as the delay in milliseconds and the
    status. *)
Record handled : Type := mkHandled {
  printed : list string;
  logged : result string log_effects;
  exit_scheduled : option (Z * Z)
}.

(** [handleUncaughtException(err)]; [inspect] is the text that
    [console.error] prints for an object.  The exit is scheduled after
    [logError] has returned. *)
Definition handleUncaughtException (NODE_ENV : option string)
  (st : Config.module_state) (platform : LogPlatform) (inspect : thrown -> string)
  (now : string) (err : thrown) : handled :=
  let printed := ["--- Uncaught Exception ---"; inspect err] in
  match logError NODE_ENV st platform now err None uncaught_context with
  | Ok written => mkHandled printed (Ok written) (Some (1000, 1)%Z)
  | Throw failure => mkHandled printed (Throw failure) None
  end.

(** [handleUnhandledRejection(reason, promise)] *)
Definition handleUnhandledRejection (NODE_ENV : option string)
  (st : Config.module_state) (platform : LogPlatform) (inspect : thrown -> string)
  (now stack : string) (reason : rejection_reason) (promise : string) : handled :=
  let err := rejection_error reason stack in
  let printed := ["--- Unhandled Rejection ---"; inspect err] in
  mkHandled printed
    (logError NODE_ENV st platform now err None (rejection_context promise))
    None.

End ErrorHandler.

(** ** modules/security.js *)

Module Security.
Import JSString.

(** [s.replace(/\0/g, '')] *)
Definition strip_nul (s : string) : string :=
  replace_char (ascii_of_nat 0) "" s.

(** The body of the loops of [sanitizeRequest]: a property that holds a
    string is assigned the string without its NUL characters; any other
    property is left as it is. *)
Definition sanitize_property (v : Validation.json) : Validation.json :=
  match v with
  | Validation.JsStr s => Validation.JsStr (strip_nul s)
  | _ => v
  end.

(** What [sanitizeRequest] reads of a request: [req.query], an object
    when it is there, and [req.body]; [None] is [undefined]. *)
Record request : Type := mkRequest {
  query : option (list (string * Validation.json));
  body : option Validation.json
}.

(** [for (const key in obj) ...] over the properties of an object *)
Definition sanitize_properties (fields : list (string * Validation.json))
  : list (string * Validation.json) :=
  (fun kv => (kv.1, sanitize_property kv.2)) <$> fields.

(** The same loop over [req.body]: the properties of an object or the
    indices of an array; anything else is not an object and is skipped. *)
Definition sanitize_body (b : Validation.json) : Validation.json :=
  match b with
  | Validation.JsObj fields => Validation.JsObj (sanitize_properties fields)
  | Validation.JsArr items => Validation.JsArr (sanitize_property <$> items)
  | _ => b
  end.

(** [sanitizeRequest(req, res, next)]: the request after the call;
    [next()] is called in every case. *)
Definition sanitizeRequest (req : request) : request :=
  {| query := sanitize_properties <$> query req;
     body := sanitize_body <$> body req |}.

(** *** The CORS middleware of [setupSecurityHeaders] *)

Inductive cors_outcome : Type :=
| SendStatus (code : Z)
| CallNext.

Record cors_result : Type := mkCorsResult {
  set_headers : list (string * string);
  outcome : cors_outcome
}.

Definition cors_headers (origin : string) : list (string * string) :=
  [ ("Access-Control-Allow-Origin", origin);
    ("Access-Control-Allow-Methods", "GET, POST, OPTIONS");
    ("Access-Control-Allow-Headers", "Content-Type, X-CSRF-Token");
    ("Access-Control-Allow-Credentials", "true") ].

(** [corsOrigins.includes(origin)] for the value [corsOrigins] that
    [getConfig('CORS_ORIGINS')] returned: membership for an array, the
    substring test for a string (with [undefined] converted to text), a
    [TypeError] for anything else. *)
Definition origin_included (corsOrigins : option Config.cval) (h : Config.heap)
  (origin : option string) : result string bool :=
  match corsOrigins with
  | Some (Config.CArr a) =>
      Ok (match origin with
          | Some o => bool_decide (o ∈ Config.array_at h a)
          | None => false
          end)
  | Some (Config.CStr s) => Ok (includes s (default "undefined" origin))
  | Some _ => Throw "TypeError: corsOrigins.includes is not a function"
  | None => Throw "TypeError: Cannot read properties of undefined (reading 'includes')"
  end.

(** The middleware; [h] is the store when the request arrives.  A header
    cannot be set to [undefined]. *)
Definition cors_middleware (corsOrigins : option Config.cval) (h : Config.heap)
  (origin : option string) (method : string) : result string cors_result :=
  included ← origin_included corsOrigins h origin;
  headers ←
    (if included : bool then
       match origin with
       | Some o => Ok (cors_headers o)
       | None => Throw "TypeError [ERR_HTTP_INVALID_HEADER_VALUE]"
       end
     else Ok []);
  Ok (mkCorsResult headers (if String.eqb method "OPTIONS" then SendStatus 200 else CallNext)).

(** The part of [setupSecurityHeaders] that depends on the
    configuration: whether the CORS middleware is installed, and the
    value of [CORS_ORIGINS] that it holds from then on. *)
Definition setupSecurityHeaders (st : Config.module_state)
  : result string (option (option Config.cval)) :=
  enableCors ← Config.get st "ENABLE_CORS";
  if Config.truthy_opt enableCors then
    corsOrigins ← Config.get st "CORS_ORIGINS";
    Ok (Some corsOrigins)
  else Ok None.

End Security.

(** * Specification *)

Import JSString Regex.

(** ** Definitions that follow the words of the specification *)

(** The entity of a character: the ampersand, the angle brackets, the two
    quotes and the slash have one; every other character stands for
    itself. *)
Definition spec_entity (c : ascii) : string :=
  if ascii_eqb c "&" then "&amp;"
  else if ascii_eqb c "<" then "&lt;"
  else if ascii_eqb c ">" then "&gt;"
  else if ascii_eqb c dquote then "&quot;"
  else if ascii_eqb c "'" then "&#x27;"
  else if ascii_eqb c "/" then "&#x2F;"
  else String c "".

(** Every character replaced by its entity, in one pass. *)
Fixpoint spec_escape (s : string) : string :=
  match s with
  | "" => ""
  | String c s' => spec_entity c ++ spec_escape s'
  end.

(** The control characters: the code units 0 to 31 of the block C0, the
    delete character 127 and the code units 128 to 159 of the block C1. *)
Definition control_character (c : ascii) : bool :=
  (code c <? 32) || ((126 <? code c) && (code c <? 160)).

(** The characters of [s] that are not control characters. *)
Fixpoint spec_strip_control (s : string) : string :=
  match s with
  | "" => ""
  | String c s' =>
      if control_character c then spec_strip_control s'
      else String c (spec_strip_control s')
  end.

(** The six substitutions of [sanitizeText], in the order of the source. *)
Definition entity_passes (s : string) : string :=
  replace_char "/" "&#x2F;"
    (replace_char "'" "&#x27;"
      (replace_char dquote "&quot;"
        (replace_char ">" "&gt;"
          (replace_char "<" "&lt;"
            (replace_char "&" "&amp;" s))))).

(** The text of the specification's example: a script element whose body
    calls alert on the quoted letter x. *)
Definition script_example : string :=
  "<script>alert(" ++ String dquote "x" ++ String dquote ")</script>".

(** A text with the control characters 0, 31, 127 and 159 between
    printable ones, and with the neighbours 32, 126 and 160 of the two
    ranges. *)
Definition control_example : string :=
  String (ascii_of_nat 0)
    ("a" ++ String (ascii_of_nat 31)
       (" b" ++ String (ascii_of_nat 127)
          ("<~" ++ String (ascii_of_nat 159)
             ("c" ++ String (ascii_of_nat 160) "")))).

(** Strings made of white space only. *)
Fixpoint all_whitespace (s : string) : bool :=
  match s with
  | "" => true
  | String c s' => is_whitespace c && all_whitespace s'
  end.

(** [c] is the lower-case letter [d] or its capital. *)
Definition letter_variant (c d : ascii) : bool :=
  ascii_eqb c d || (in_range 97 122 d && (code c + 32 =? code d)).

(** [s] is the word [m] up to the case of its letters. *)
Fixpoint same_up_to_case (s m : string) : bool :=
  match s, m with
  | "", "" => true
  | String c s', String d m' => letter_variant c d && same_up_to_case s' m'
  | _, _ => false
  end.

(** [s] differs from the mode [m] in case or surrounding white space only. *)
Definition mode_variant (m s : string) : Prop :=
  exists pre body post : string,
    s = (pre ++ body ++ post)%string
    /\ all_whitespace pre = true
    /\ all_whitespace post = true
    /\ same_up_to_case body m = true.

(** Strings of lower-case letters a-z. *)
Fixpoint lower_word (m : string) : bool :=
  match m with
  | "" => true
  | String d m' => in_range 97 122 d && lower_word m'
  end.

Fixpoint no_whitespace (s : string) : bool :=
  match s with
  | "" => true
  | String c s' => negb (is_whitespace c) && no_whitespace s'
  end.

(** The messages of the constraints that [x] violates, in the order in
    which the constraints are declared. *)
Definition violations {A : Type} (constraints : list (A -> option string)) (x : A)
  : list string :=
  omap (fun c => c x) constraints.

(** The text a username constraint looks at: the trimmed string. *)
Definition username_text (v : jsval) : string :=
  match v with
  | JStr s => trim s
  | _ => ""
  end.

(** The constraints on a username in their declared order: presence,
    type, length (lower and upper bound), pattern (character class, then
    path traversal), blacklist. *)
Definition username_constraints : list (jsval -> option string) :=
  [ (fun v => if JS.truthy v then None else Some "Username is required");
    (fun v => if JS.is_string v then None else Some "Username must be a string");
    (fun v => if String.length (username_text v) <? 1
              then Some "Username must be at least 1 character" else None);
    (fun v => if 100 <? String.length (username_text v)
              then Some "Username cannot exceed 100 characters" else None);
    (fun v => if test Validation.USERNAME_RULES.pattern (username_text v) then None
              else Some "Username can only contain letters, numbers, dots, underscores, and hyphens");
    (fun v => if test Validation.USERNAME_RULES.pathTraversal (username_text v)
              then Some "Invalid username format" else None);
    (fun v => if existsb (includes (toUpperCase (username_text v)))
                   Validation.USERNAME_RULES.blacklist
              then Some "Username contains blocked keywords" else None) ].

Section FieldConstraints.
Import Config.
Variable Number : string -> jsnum.
Variable numToString : jsnum -> string.

(** The constraints of a configuration field on a raw value that is set,
    in their declared order: type, range, length, pattern, enum. *)
Definition field_constraints (key : string) (schema : field_schema)
  : list (string -> option string) :=
  match type schema with
  | TNumber =>
      [ (fun raw => if isNaN (Number raw)
                    then Some (key ++ " must be a number, got: " ++ raw)%string
                    else None);
        (fun raw => match min schema with
                    | Some lo =>
                        if num_lt (Number raw) lo
                        then Some (key ++ " must be >= " ++ pretty lo ++ ", got: "
                                   ++ numToString (Number raw))%string
                        else None
                    | None => None
                    end);
        (fun raw => match max schema with
                    | Some hi =>
                        if num_gt (Number raw) hi
                        then Some (key ++ " must be <= " ++ pretty hi ++ ", got: "
                                   ++ numToString (Number raw))%string
                        else None
                    | None => None
                    end) ]
  | TString =>
      [ (fun raw => match minLength schema with
                    | Some n =>
                        if negb (n =? 0) && (String.length raw <? n)
                        then Some (key ++ " must be at least " ++ pretty n
                                   ++ " characters, got: "
                                   ++ pretty (String.length raw))%string
                        else None
                    | None => None
                    end);
        (fun raw => match pattern schema with
                    | Some p => if test p raw then None
                                else Some (key ++ " has invalid format")%string
                    | None => None
                    end);
        (fun raw => match enum schema with
                    | Some allowed =>
                        if bool_decide (raw ∈ allowed) then None
                        else Some (key ++ " must be one of: " ++ join ", " allowed
                                   ++ ", got: " ++ raw)%string
                    | None => None
                    end) ]
  | TBoolean | TArray => []
  end.

End FieldConstraints.

(** A rule-set in which no two constraints can fail together: a numeric
    range that is not empty, and at most one of length, pattern and enum
    on a string. *)
Definition one_failure_at_most (schema : Config.field_schema) : bool :=
  match Config.type schema with
  | Config.TNumber =>
      match Config.min schema, Config.max schema with
      | Some lo, Some hi => (lo <=? hi)%Z
      | _, _ => true
      end
  | Config.TString =>
      match Config.minLength schema, Config.pattern schema, Config.enum schema with
      | Some _, None, None | None, Some _, None | None, None, Some _
      | None, None, None => true
      | _, _, _ => false
      end
  | _ => true
  end.

(** A rule-set that is not in [CONFIG_SCHEMA]: a string with a minimal
    length and a pattern. *)
Definition two_rule_field : Config.field_schema :=
  Config.mkField Config.TString (Config.CStr "") None None (Some 5)
    (Some (Anchored (plus digit))) None None false false "two rules".

(** ** Stand-ins for the platform

    The platform functions are parameters of the embedding.  The functions
    below are small instances of them, used where a statement is applied to
    a concrete input. *)

(** [Number] on unsigned decimal integers; anything else is not a number
    for this stand-in. *)
Fixpoint decimal_value (acc : Z) (s : string) : option Z :=
  match s with
  | "" => Some acc
  | String c s' =>
      if is_digit c
      then decimal_value (10 * acc + Z.of_nat (code c - 48))%Z s'
      else None
  end.

Definition Number_decimal (s : string) : jsnum :=
  match s with
  | "" => Fin 0
  | _ => match decimal_value 0 s with
         | Some z => Fin (inject_Z z)
         | None => NaN
         end
  end.

(** The text of an integral number. *)
Definition numToString_integral (n : jsnum) : string :=
  match n with
  | NaN => "NaN"
  | NegInf => "-Infinity"
  | PosInf => "Infinity"
  | Fin q => pretty (Qnum q)
  end.

(** [validator.isURL] reduced to its check of the scheme. *)
Definition isURL_scheme (s : string) : bool :=
  (startsWith "http://" s && (7 <? String.length s))
  || (startsWith "https://" s && (8 <? String.length s)).

(** A parser that knows three addresses. *)
Definition parseURL_table (s : string) : option URL :=
  if String.eqb s "http://127.0.0.1" then
    Some (mkURL "http:" "" "" "127.0.0.1" "127.0.0.1" "/")
  else if String.eqb s "http://user:pw@proxy.example:8080/" then
    Some (mkURL "http:" "user" "pw" "proxy.example:8080" "proxy.example" "/")
  else if String.eqb s "http://***.***@proxy.example:8080/" then
    Some (mkURL "http:" "***.***" "" "proxy.example:8080" "proxy.example" "/")
  else None.

(** ** Failures and scenarios *)

(** A failure that no branch of [createErrorResponse] classifies: it is not
    a validation failure, not an [AppError], and has none of the transport
    codes. *)
Definition unclassified (err : ErrorHandler.thrown) : bool :=
  negb (JS.eq_str (ErrorHandler.prop err "name") "ValidationError")
  && negb (ErrorHandler.instanceof_AppError err)
  && negb (JS.eq_str (ErrorHandler.prop err "code") "ECONNREFUSED")
  && negb (JS.eq_str (ErrorHandler.prop err "code") "ETIMEDOUT")
  && negb (JS.eq_str (ErrorHandler.prop err "name") "TimeoutError")
  && negb (JS.eq_str (ErrorHandler.prop err "code") "ENOENT").

Definition newline : string := String (ascii_of_nat 10) "".

(** An [Error] thrown by a database helper. *)
Definition database_failure : ErrorHandler.thrown :=
  ErrorHandler.mkThrown false
    (<["name" := JStr "Error"]>
      (<["message" := JStr "password authentication failed for user admin"]>
        (<["stack" :=
             JStr ("Error: password authentication failed for user admin" ++ newline
                   ++ "    at connect (/srv/app/modules/db.js:42:11)")]> ∅))).

(** A [ValidationError] as [validateMode] throws it. *)
Definition mode_failure : ErrorHandler.thrown :=
  ErrorHandler.mkThrown false
    (<["name" := JStr "ValidationError"]>
      (<["field" := JStr "mode"]>
        (<["message" := JStr "Mode must be a string"]>
          (<["userMessage" := JStr "Invalid mode: Mode must be a string"]>
            (<["stack" := JStr "ValidationError: Mode must be a string"]> ∅))))).

(** A production deployment: a session secret of 32 characters, verbose
    logging switched on, every data file in place. *)
Definition production_verbose_world : Config.World :=
  Config.mkWorld
    (<["NODE_ENV" := "production"]>
      (<["VERBOSE" := "true"]>
        (<["SESSION_SECRET" := "0123456789abcdef0123456789abcdef"]> ∅)))
    (fun p => p) (fun _ => true) (fun _ => true) (fun n => replicate n Byte.x00).

Definition state_after_init (o : Config.init_outcome) : Config.module_state :=
  match o with
  | Config.Initialized st _ => st
  | _ => Config.mkState None Config.module_heap
  end.

Definition production_verbose_state : Config.module_state :=
  state_after_init
    (Config.initConfig Number_decimal numToString_integral true
       production_verbose_world Config.module_heap).

(** ** Secret projection *)

Definition has_credentials (u : URL) : bool :=
  negb (String.eqb (username u) "") || negb (String.eqb (password u) "").

(** The text [maskUrl] returns for a URL with credentials. *)
Definition masked_form (u : URL) : string :=
  protocol u ++ "//***.***@" ++ host u ++ pathname u.

(** What the projection needs from the URL parser: the placeholder is
    not a URL, and the masked form of a URL is read back as a URL with
    credentials and with the same scheme, host and path. *)
Definition rereads_masked_form (parseURL : string -> option URL) : Prop :=
  parseURL "***" = None
  /\ forall (s : string) (u : URL),
       parseURL s = Some u -> has_credentials u = true ->
       exists u', parseURL (masked_form u) = Some u'
                  /\ has_credentials u' = true
                  /\ masked_form u' = masked_form u.

(** A property is rewritten when it holds a truthy value. *)
Definition update_truthy (key : string) (f : Config.cval -> Config.cval)
  (m : gmap string Config.cval) : gmap string Config.cval :=
  match m !! key with
  | Some v => if Config.truthy v then <[key := f v]> m else m
  | None => m
  end.

(** [maskSecret] where it returns, the identity where it throws. *)
Definition maskSecret_or_keep (h : Config.heap) (v : Config.cval) : Config.cval :=
  match Config.maskSecret h v with
  | Ok r => r
  | Throw _ => v
  end.

(** The properties of the projected object: the three rewritings of
    [getSanitized], one after the other. *)
Definition projected_props (numToString : jsnum -> string)
  (parseURL : string -> option URL) (h : Config.heap)
  (m : gmap string Config.cval) : gmap string Config.cval :=
  update_truthy "HTTP_PROXY" (Config.maskUrl numToString parseURL h)
    (update_truthy "SESSION_SECRET" (fun _ => Config.CStr "***HIDDEN***")
      (update_truthy "GOOGLE_API_KEY" (maskSecret_or_keep h) m)).

(** A loaded snapshot with an API key and a proxy with credentials. *)
Definition snapshot_with_secrets : Config.jsobject :=
  Config.mkObject
    (<["GOOGLE_API_KEY" := Config.CStr "AIzaSyA-0123456789"]>
      (<["SESSION_SECRET" := Config.CStr "0123456789abcdef0123456789abcdef"]>
        (<["HTTP_PROXY" := Config.CStr "http://user:pw@proxy.example:8080/"]>
          (<["PORT" := Config.num_of_Z 9005]> ∅))))
    true.

(** ** Loading *)

Definition is_array_field (e : string * Config.field_schema) : bool :=
  match Config.type e.2 with
  | Config.TArray => true
  | _ => false
  end.

(** The value of a string setting without constraints: the raw value
    when it is set, the default otherwise. *)
Definition string_setting (w : Config.World) (key dflt : string) : string :=
  match Config.env w !! key with
  | Some raw => if String.eqb raw "" then dflt else raw
  | None => dflt
  end.

(** The value of [ENABLE_FILE_LOGGING]: on by default. *)
Definition file_logging (w : Config.World) : bool :=
  match Config.env w !! "ENABLE_FILE_LOGGING" with
  | Some raw =>
      if String.eqb raw "" then true
      else String.eqb (toLowerCase raw) "true" || String.eqb raw "1"
  | None => true
  end.

Definition data_files : list (string * string) :=
  [ ("SITES_DATA_PATH", "./data/sites.json");
    ("NAMES_DATA_PATH", "./data/names.json");
    ("LANGUAGES_DATA_PATH", "./data/languages.json");
    ("DICT_DATA_PATH", "./data/dict.json");
    ("COUNTRIES_DATA_PATH", "./data/countries.json") ].

(** Every data file is where the configuration says. *)
Definition data_files_present (w : Config.World) : Prop :=
  forall key dflt, (key, dflt) ∈ data_files ->
    Config.existsSync w (Config.resolve w (string_setting w key dflt)) = true.

(** File logging is off, or the log directory is there or can be made. *)
Definition log_dir_available (w : Config.World) : bool :=
  let logDir := Config.resolve w (string_setting w "LOG_DIR" "./logs") in
  negb (file_logging w) || Config.existsSync w logDir || Config.mkdirSync w logDir.

(** A development machine with the data files and nothing set. *)
Definition development_world : Config.World :=
  Config.mkWorld ∅ (fun p => p) (fun _ => true) (fun _ => true)
    (fun n => replicate n Byte.x2a).


(** ** Reading and changing a loaded snapshot *)

(** What a reader sees of a value; an array is read through the store. *)
Inductive observed : Type :=
| ONum (n : jsnum)
| OBool (b : bool)
| OStr (s : string)
| OArr (items : list string).

Definition observe (h : Config.heap) (v : Config.cval) : observed :=
  match v with
  | Config.CNum n => ONum n
  | Config.CBool b => OBool b
  | Config.CStr s => OStr s
  | Config.CArr a => OArr (Config.array_at h a)
  end.

(** [get(key)] and what the caller sees in the value. *)
Definition read (st : Config.module_state) (key : string)
  : result string (option observed) :=
  match Config.get st key with
  | Ok v => Ok (observe (Config.store st) <$> v)
  | Throw e => Throw e
  end.

(** [getAll()[key].push(x)]: the call a client of the module can make on
    the array it is handed. *)
Definition push_to_field (st : Config.module_state) (key x : string)
  : result string Config.module_state :=
  match Config.getAll st with
  | Ok c =>
      match Config.props c !! key with
      | Some (Config.CArr a) =>
          Ok (Config.mkState (Config.config st)
                (Config.array_push (Config.store st) a x))
      | _ => Throw "TypeError: push is not a function"
      end
  | Throw e => Throw e
  end.

(** A development machine that sets one allowed origin. *)
Definition cors_world : Config.World :=
  Config.mkWorld (<["CORS_ORIGINS" := "https://app.example"]> ∅)
    (fun p => p) (fun _ => true) (fun _ => true)
    (fun n => replicate n Byte.x2a).

Definition cors_state : Config.module_state :=
  state_after_init
    (Config.initConfig Number_decimal numToString_integral false cors_world
       Config.module_heap).

Definition snapshot_frozen (st : Config.module_state) : option bool :=
  Config.frozen <$> Config.config st.

(** The push followed by [get(key)], and followed by a read. *)
Definition get_after_push (st : Config.module_state) (key x : string)
  : result string (option Config.cval) :=
  match push_to_field st key x with
  | Ok st' => Config.get st' key
  | Throw e => Throw e
  end.

Definition read_after_push (st : Config.module_state) (key x : string)
  : result string (option observed) :=
  match push_to_field st key x with
  | Ok st' => read st' key
  | Throw e => Throw e
  end.

Definition default_state : Config.module_state :=
  state_after_init
    (Config.initConfig Number_decimal numToString_integral false development_world
       Config.module_heap).

(** A property of a response record, when there is one. *)
Definition response_field (r : result string (gmap string jsval)) (key : string)
  : option jsval :=
  match r with
  | Ok response => response !! key
  | Throw _ => None
  end.

(** An initialised configuration with verbose logging off. *)
Definition quiet_state : Config.module_state :=
  Config.mkState
    (Some (Config.mkObject (<["VERBOSE" := Config.CBool false]> ∅) true))
    Config.module_heap.

(** ** Languages of regular expressions and substrings *)

(** The strings a regular expression denotes. *)
Inductive in_lang : regex -> string -> Prop :=
| in_eps : in_lang Eps ""
| in_class (p : ascii -> bool) (c : ascii) :
    p c = true -> in_lang (Class p) (String c "")
| in_cat (r1 r2 : regex) (s1 s2 : string) :
    in_lang r1 s1 -> in_lang r2 s2 -> in_lang (Cat r1 r2) (s1 ++ s2)
| in_alt_l (r1 r2 : regex) (s : string) : in_lang r1 s -> in_lang (Alt r1 r2) s
| in_alt_r (r1 r2 : regex) (s : string) : in_lang r2 s -> in_lang (Alt r1 r2) s
| in_star_nil (r : regex) : in_lang (Star r) ""
| in_star_app (r : regex) (s1 s2 : string) :
    in_lang r s1 -> in_lang (Star r) s2 -> in_lang (Star r) (s1 ++ s2).

(** [p] occurs in [s]. *)
Definition is_substring (p s : string) : Prop :=
  exists pre post : string, s = (pre ++ p ++ post)%string.

(** Every character of [s] is in the class [p]. *)
Fixpoint all_chars (p : ascii -> bool) (s : string) : bool :=
  match s with
  | "" => true
  | String c s' => p c && all_chars p s'
  end.

(** The inverse of [escape_class]: a backslash is dropped and the
    character after it is kept. *)
Fixpoint unescape (s : string) : string :=
  match s with
  | "" => ""
  | String c s' =>
      if ascii_eqb c "\" then
        match s' with
        | "" => ""
        | String d s'' => String d (unescape s'')
        end
      else String c (unescape s')
  end.

(** ** Failed requests *)

(** The object that a failed validation of a request throws, as the error
    handler reads it; [stack] is the text the platform recorded. *)
Definition thrown_of (e : Validation.request_error) (stack : string)
  : ErrorHandler.thrown :=
  match e with
  | Validation.Invalid e =>
      ErrorHandler.mkThrown false
        (<["name" := JStr "ValidationError"]>
          (<["field" := JStr (Validation.field e)]>
            (<["message" := JStr (Validation.message e)]>
              (<["userMessage" := JStr (Validation.userMessage e)]>
                (<["stack" := JStr stack]> ∅)))))
  | Validation.NotAFunction message =>
      ErrorHandler.mkThrown false
        (<["name" := JStr "TypeError"]>
          (<["message" := JStr message]>
            (<["stack" := JStr stack]> ∅)))
  end.

(** A value of a request body that has no method [includes]: a number, a
    boolean or a plain object. *)
Definition without_includes (v : Validation.json) : bool :=
  match v with
  | Validation.JsNum _ | Validation.JsBool _ | Validation.JsObj _ => true
  | _ => false
  end.

(** ** Outcomes of loading *)

(** The messages of all fields, in the order of the schema. *)
Definition field_errors (Number : string -> jsnum) (numToString : jsnum -> string)
  (p : bool) (w : Config.World) (h : Config.heap) : list string :=
  flat_map
    (fun e => Config.errors
                (Config.validateValue Number numToString e.1 (Config.env w !! e.1) e.2 h).1)
    (Config.CONFIG_SCHEMA p).

(** The lines for the data files that are not there, in the order of the
    five paths. *)
Definition missing_data_files (w : Config.World) : list string :=
  omap (fun e : string * string =>
          let filePath := Config.resolve w (string_setting w e.1 e.2) in
          if Config.existsSync w filePath then None
          else Some (e.1 ++ ": " ++ filePath)%string)
       data_files.

(** The session secret of the raw source; empty when it is not set. *)
Definition session_secret (w : Config.World) : string :=
  string_setting w "SESSION_SECRET" "".

(** A machine with the data files that sets a port below the range and an
    unknown logging level. *)
Definition misconfigured_world : Config.World :=
  Config.mkWorld (<["PORT" := "80"]> (<["LOG_LEVEL" := "loud"]> ∅))
    (fun p => p) (fun _ => true) (fun _ => true)
    (fun n => replicate n Byte.x2a).

(** A development machine without [names.json] and [dict.json]. *)
Definition incomplete_world : Config.World :=
  Config.mkWorld ∅
    (fun p => p)
    (fun p => negb (String.eqb p "./data/names.json" || String.eqb p "./data/dict.json"))
    (fun _ => true)
    (fun n => replicate n Byte.x2a).

(** The default of a numeric field lies within its bounds. *)
Definition default_in_range (s : Config.field_schema) : bool :=
  match Config.type s with
  | Config.TNumber =>
      match Config.default s with
      | Config.CNum n =>
          negb (Config.isNaN n)
          && match Config.min s with Some lo => negb (Config.num_lt n lo) | None => true end
          && match Config.max s with Some hi => negb (Config.num_gt n hi) | None => true end
      | _ => false
      end
  | _ => true
  end.

(** ** Responses and log entries *)

(** The type, the status and the message of a response. *)
Definition response_triple (r : result string (gmap string jsval))
  : option (jsval * jsval * jsval) :=
  match r with
  | Ok response =>
      match response !! "type", response !! "statusCode", response !! "message" with
      | Some t, Some c, Some m => Some (t, c, m)
      | _, _, _ => None
      end
  | Throw _ => None
  end.

(** A failure with one of the transport codes, that is neither a
    validation failure nor an [AppError]. *)
Definition transport_failure (err : ErrorHandler.thrown) : bool :=
  negb (JS.eq_str (ErrorHandler.prop err "name") "ValidationError")
  && negb (ErrorHandler.instanceof_AppError err).

(** A configuration as the handlers read it. *)
Definition handler_state (verbose fileLogging : bool) (logLevel : string)
  : Config.module_state :=
  Config.mkState
    (Some (Config.mkObject
             (<["VERBOSE" := Config.CBool verbose]>
               (<["ENABLE_FILE_LOGGING" := Config.CBool fileLogging]>
                 (<["LOG_LEVEL" := Config.CStr logLevel]>
                   (<["LOG_DIR" := Config.CStr "./logs"]> ∅))))
             true))
    Config.module_heap.

(** A platform that writes every value as [{}] and appends without
    failure. *)
Definition quiet_platform : ErrorHandler.LogPlatform :=
  ErrorHandler.mkLogPlatform (fun _ => "{}") (fun _ => "{}") (fun p => p)
    "The paths[0] argument must be of type string"
    (fun a b => (a ++ "/" ++ b)%string) (fun _ _ => None).

(** A request with a session cookie, a bearer token and a forwarded
    address. *)
Definition sample_request : ErrorHandler.request :=
  ErrorHandler.mkRequest "POST" "/analyze_string" None
    [ ("host", "example.org");
      ("authorization", "Bearer abc");
      ("cookie", "sid=1");
      ("x-forwarded-for", "203.0.113.7, 10.0.0.1");
      ("x-csrf-token", "t0k3n") ]
    (Some "10.0.0.1") (Some "10.0.0.1") None.

(** ** Requests to the server *)

(** A request for two names with an option and no mode, and what
    [validateAnalyzeRequest] returns for it. *)
Definition two_names_body : Validation.json :=
  Validation.JsObj [("uuid", Validation.JsStr "abc-12345");
                    ("string", Validation.JsStr "john, jane");
                    ("option", Validation.JsStr "ShowUserInfo")].

Definition two_names_request : Validation.analyze_request :=
  Validation.mkAnalyzeRequest "abc-12345" ["john"; "jane"]
    (Some "ShowUserInfo") None.

(** The text of [string] in a request is accepted: as a list of usernames
    when it has a comma, as one username otherwise. *)
Definition names_accepted (s : string) : Prop :=
  if includes s ","
  then exists names, Validation.validateUsernames (JStr s) = Ok names
  else exists name, Validation.validateUsername (JStr s) = Ok name.

Definition nul : ascii := ascii_of_nat 0.

(** A body with a NUL character in a name and in a list of names. *)
Definition request_with_nul : Security.request :=
  Security.mkRequest
    (Some [("q", Validation.JsStr (String "a" (String nul "b")))])
    (Some (Validation.JsObj
             [ ("uuid", Validation.JsStr (String nul "abc-12345"));
               ("string", Validation.JsArr [Validation.JsStr (String "j" (String nul "o"))]) ])).

(** A request whose body is an array: a text with a NUL character, a
    list with such a text, and a number. *)
Definition array_request_with_nul : Security.request :=
  Security.mkRequest None
    (Some (Validation.JsArr
             [ Validation.JsStr (String "a" (String nul "b"));
               Validation.JsArr [Validation.JsStr (String nul "c")];
               Validation.JsNum (Fin 7) ])).

(** The characters of [s] other than NUL. *)
Fixpoint without_nul (s : string) : string :=
  match s with
  | "" => ""
  | String c s' =>
      if code c =? 0 then without_nul s' else String c (without_nul s')
  end.

(** A value after sanitising: a text loses its NUL characters, any other
    value stays as it is. *)
Definition cleaned (v : Validation.json) : Validation.json :=
  match v with
  | Validation.JsStr s => Validation.JsStr (without_nul s)
  | _ => v
  end.

(** The state after a load that switches CORS on and sets one origin. *)
Definition cors_enabled_world : Config.World :=
  Config.mkWorld
    (<["ENABLE_CORS" := "true"]> (<["CORS_ORIGINS" := "https://app.example"]> ∅))
    (fun p => p) (fun _ => true) (fun _ => true)
    (fun n => replicate n Byte.x2a).

Definition cors_enabled_state : Config.module_state :=
  state_after_init
    (Config.initConfig Number_decimal numToString_integral false cors_enabled_world
       Config.module_heap).

(** * Lemmas and theorems *)

(** ** Strings *)

Lemma app_String c (s t : string) : (String c s ++ t)%string = String c (s ++ t).
Proof. reflexivity. Qed.

Lemma app_Empty (t : string) : ("" ++ t)%string = t.
Proof. reflexivity. Qed.

Ltac unfold_app := rewrite ?app_String, ?app_Empty.

Lemma string_app_nil_r (s : string) : (s ++ "")%string = s.
Proof. induction s as [|c s IH]; unfold_app; [reflexivity | now rewrite IH]. Qed.

Lemma string_app_assoc (a b c : string) :
  ((a ++ b) ++ c)%string = (a ++ (b ++ c))%string.
Proof. induction a as [|x a IH]; unfold_app; [reflexivity | now rewrite IH]. Qed.

Lemma replace_class_app p r (a b : string) :
  replace_class p r (a ++ b) = (replace_class p r a ++ replace_class p r b)%string.
Proof.
  induction a as [|c a IH]; unfold_app; simpl; [reflexivity|].
  rewrite IH. now rewrite string_app_assoc.
Qed.

Lemma entity_passes_app (a b : string) :
  entity_passes (a ++ b) = (entity_passes a ++ entity_passes b)%string.
Proof. unfold entity_passes, replace_char. now rewrite !replace_class_app. Qed.

Ltac each_ascii c :=
  destruct c as [[] [] [] [] [] [] [] []].

Lemma entity_passes_char (c : ascii) :
  entity_passes (String c "") = spec_entity c.
Proof. each_ascii c; reflexivity. Qed.

Lemma entity_passes_escape (s : string) : entity_passes s = spec_escape s.
Proof.
  induction s as [|c s IH]; [reflexivity|].
  change (String c s) with (String c "" ++ s)%string.
  rewrite entity_passes_app, entity_passes_char, IH. reflexivity.
Qed.

Lemma is_control_control_character (c : ascii) :
  Validation.is_control c = control_character c.
Proof. each_ascii c; reflexivity. Qed.

Lemma control_character_bounds (c : ascii) :
  control_character c = true <-> code c <= 31 \/ 127 <= code c <= 159.
Proof.
  unfold control_character.
  rewrite orb_true_iff, andb_true_iff, !Nat.ltb_lt. lia.
Qed.

Lemma strip_control_replace (s : string) :
  replace_class Validation.is_control "" s = spec_strip_control s.
Proof.
  induction s as [|c s IH]; simpl; [reflexivity|].
  rewrite IH, is_control_control_character.
  now destruct (control_character c).
Qed.

Lemma contains_char_app c (a b : string) :
  contains_char c (a ++ b) = contains_char c a || contains_char c b.
Proof.
  induction a as [|x a IH]; unfold_app; simpl; [reflexivity|].
  rewrite IH. now rewrite orb_assoc.
Qed.

Lemma entity_clean (c : ascii) :
  contains_char "<" (spec_entity c) = false
  /\ contains_char ">" (spec_entity c) = false
  /\ contains_char dquote (spec_entity c) = false
  /\ contains_char "'" (spec_entity c) = false
  /\ contains_char "/" (spec_entity c) = false.
Proof. each_ascii c; repeat split; reflexivity. Qed.

Lemma escape_clean (s : string) :
  contains_char "<" (spec_escape s) = false
  /\ contains_char ">" (spec_escape s) = false
  /\ contains_char dquote (spec_escape s) = false
  /\ contains_char "'" (spec_escape s) = false
  /\ contains_char "/" (spec_escape s) = false.
Proof.
  induction s as [|c s (IH1 & IH2 & IH3 & IH4 & IH5)]; simpl.
  - repeat split; reflexivity.
  - destruct (entity_clean c) as (E1 & E2 & E3 & E4 & E5).
    rewrite !contains_char_app, E1, E2, E3, E4, E5, IH1, IH2, IH3, IH4, IH5.
    repeat split; reflexivity.
Qed.

Lemma strip_control_clean (s : string) (c : ascii) :
  control_character c = true -> contains_char c (spec_strip_control s) = false.
Proof.
  intros Hc. induction s as [|d s IH]; simpl; [reflexivity|].
  destruct (control_character d) eqn:Hd; [exact IH|].
  simpl. rewrite IH, orb_false_r.
  unfold ascii_eqb. destruct (Ascii.eqb_spec c d) as [->|]; [congruence | reflexivity].
Qed.

(** No entity holds a control character. *)
Lemma entity_control (c d : ascii) :
  control_character c = true ->
  contains_char c (spec_entity d) = contains_char c (String d "").
Proof.
  intros Hc. unfold spec_entity, ascii_eqb.
  repeat match goal with
         | |- context [Ascii.eqb d ?x] =>
             destruct (Ascii.eqb_spec d x) as [->|_];
             [revert Hc; each_ascii c; intros Hc;
              first [discriminate Hc | reflexivity]|]
         end.
  reflexivity.
Qed.

Lemma escape_control (s : string) (c : ascii) :
  control_character c = true ->
  contains_char c (spec_escape s) = contains_char c s.
Proof.
  intros Hc. induction s as [|d s IH]; simpl; [reflexivity|].
  rewrite contains_char_app, (entity_control c d Hc), IH. simpl.
  now rewrite orb_false_r.
Qed.

(** ** sanitizeText *)

(** C7. [sanitizeText] is a total function into strings.  On anything that
    is not a string, and on the empty string, it is the empty string.  On
    a string it is the text without its control characters, every
    ampersand, angle bracket, double quote, apostrophe and slash replaced
    by its entity; so no angle bracket, double quote, apostrophe or slash
    is left, and no character whose code is in 0 to 31 or in 127 to 159.
    On the script example it returns the escaped text; on a text with the
    control characters 0, 31, 127 and 159 it drops these four and keeps
    their neighbours 32, 126 and 160. *)
Theorem sanitizeText_total_and_escaping :
  (forall v : jsval,
     Validation.sanitizeText v =
       match v with
       | JStr s => spec_escape (spec_strip_control s)
       | _ => ""
       end)
  /\ (forall s : string,
        contains_char "<" (Validation.sanitizeText (JStr s)) = false
        /\ contains_char ">" (Validation.sanitizeText (JStr s)) = false
        /\ contains_char dquote (Validation.sanitizeText (JStr s)) = false
        /\ contains_char "'" (Validation.sanitizeText (JStr s)) = false
        /\ contains_char "/" (Validation.sanitizeText (JStr s)) = false)
  /\ Validation.sanitizeText (JStr script_example)
     = "&lt;script&gt;alert(&quot;x&quot;)&lt;&#x2F;script&gt;"
  /\ (forall (s : string) (c : ascii),
        code c <= 31 \/ 127 <= code c <= 159 ->
        contains_char c (Validation.sanitizeText (JStr s)) = false)
  /\ Validation.sanitizeText (JStr control_example)
     = ("a b&lt;~c" ++ String (ascii_of_nat 160) "")%string.
Proof.
  assert (Hstr : forall s, Validation.sanitizeText (JStr s)
                           = spec_escape (spec_strip_control s)).
  { intros s. unfold Validation.sanitizeText, JS.falsy, JS.truthy, JS.is_string.
    destruct (String.eqb_spec s "") as [->|Hne]; simpl; [reflexivity|].
    fold (entity_passes (replace_class Validation.is_control "" s)).
    now rewrite entity_passes_escape, strip_control_replace. }
  split_and!.
  - intros v. destruct v as [| |b|n|s|f]; try reflexivity.
    + now destruct b.
    + unfold Validation.sanitizeText, JS.is_string. simpl negb.
      now rewrite orb_true_r.
    + apply Hstr.
  - intros s. rewrite Hstr. apply escape_clean.
  - reflexivity.
  - intros s c Hc. apply control_character_bounds in Hc.
    rewrite Hstr, (escape_control _ c Hc). now apply strip_control_clean.
  - reflexivity.
Qed.

(** The sanitising theorem at the unit separator, code 31, in a text that
    holds it. *)
Lemma sanitizeText_total_and_escaping_witness :
  contains_char (ascii_of_nat 31) control_example = true
  /\ contains_char (ascii_of_nat 31)
       (Validation.sanitizeText (JStr control_example)) = false.
Proof.
  split; [reflexivity|].
  destruct sanitizeText_total_and_escaping as (_ & _ & _ & H & _).
  apply H. left. vm_compute. lia.
Defined.

(** ** Trimming and case *)

Lemma trimStart_app_ws (pre t : string) :
  all_whitespace pre = true -> trimStart (pre ++ t) = trimStart t.
Proof.
  induction pre as [|c pre IH]; unfold_app; simpl; [reflexivity|].
  intros H. apply andb_true_iff in H as [Hc Hp]. rewrite Hc. auto.
Qed.

Lemma trimStart_no_ws (b post : string) :
  no_whitespace b = true -> b <> "" -> trimStart (b ++ post) = (b ++ post)%string.
Proof.
  destruct b as [|c b]; [congruence|]. unfold_app. simpl.
  intros H _. apply andb_true_iff in H as [Hc _].
  now destruct (is_whitespace c).
Qed.

Lemma trimEnd_ws (post : string) : all_whitespace post = true -> trimEnd post = "".
Proof.
  induction post as [|c post IH]; simpl; [reflexivity|].
  intros H. apply andb_true_iff in H as [Hc Hp]. now rewrite IH, Hc.
Qed.

Lemma trimEnd_app_ws (b post : string) :
  all_whitespace post = true -> trimEnd (b ++ post) = trimEnd b.
Proof.
  intros H. induction b as [|c b IH]; unfold_app.
  - now apply trimEnd_ws.
  - simpl. now rewrite IH.
Qed.

Lemma trimEnd_no_ws (b : string) : no_whitespace b = true -> trimEnd b = b.
Proof.
  induction b as [|c b IH]; simpl; [reflexivity|].
  intros H. apply andb_true_iff in H as [Hc Hb]. rewrite (IH Hb).
  destruct b; [|reflexivity]. now destruct (is_whitespace c).
Qed.

Lemma trim_variant (pre b post : string) :
  all_whitespace pre = true -> all_whitespace post = true ->
  no_whitespace b = true -> b <> "" ->
  trim (pre ++ b ++ post) = b.
Proof.
  intros Hpre Hpost Hb Hne. unfold trim.
  rewrite trimStart_app_ws by assumption.
  rewrite trimStart_no_ws by assumption.
  rewrite trimEnd_app_ws by assumption.
  now apply trimEnd_no_ws.
Qed.

Lemma trimStart_split (s : string) :
  exists pre, s = (pre ++ trimStart s)%string /\ all_whitespace pre = true.
Proof.
  induction s as [|c s (pre & E & W)]; simpl.
  - now exists "".
  - destruct (is_whitespace c) eqn:Hc.
    + exists (String c pre). unfold_app. simpl. rewrite Hc, W. now rewrite <- E.
    + now exists "".
Qed.

Lemma trimEnd_split (s : string) :
  exists post, s = (trimEnd s ++ post)%string /\ all_whitespace post = true.
Proof.
  induction s as [|c s (post & E & W)]; simpl.
  - now exists "".
  - destruct (trimEnd s) as [|d t] eqn:Ht.
    + rewrite app_Empty in E. subst post.
      destruct (is_whitespace c) eqn:Hc.
      * exists (String c s). simpl. now rewrite Hc, W.
      * exists s. now unfold_app.
    + exists post. split; [|assumption]. rewrite (app_String c). now f_equal.
Qed.

Lemma trim_split (s : string) :
  exists pre post,
    s = (pre ++ trim s ++ post)%string
    /\ all_whitespace pre = true /\ all_whitespace post = true.
Proof.
  destruct (trimStart_split s) as (pre & E1 & W1).
  destruct (trimEnd_split (trimStart s)) as (post & E2 & W2).
  exists pre, post. unfold trim. now rewrite <- E2, <- E1.
Qed.

Lemma code_bound (c : ascii) : code c < 256.
Proof. apply nat_ascii_bounded. Qed.

Lemma code_inj (c d : ascii) : code c = code d -> c = d.
Proof.
  intros H. rewrite <- (ascii_nat_embedding c), <- (ascii_nat_embedding d).
  unfold code in H. now rewrite H.
Qed.

Lemma code_shift (c : ascii) (k : nat) :
  code c + k < 256 -> code (shift_code c (Z.of_nat k)) = code c + k.
Proof.
  intros H. unfold shift_code, code at 1.
  rewrite <- Nat2Z.inj_add, Nat2Z.id. now apply nat_ascii_embedding.
Qed.

Lemma in_range_spec lo hi c : in_range lo hi c = true <-> lo <= code c <= hi.
Proof. unfold in_range. rewrite andb_true_iff, !Nat.leb_le. tauto. Qed.

(** A character lower-cases to the letter [d] exactly when it is [d] or
    the capital of [d]. *)
Lemma lower_char_letter (c d : ascii) :
  in_range 97 122 d = true ->
  (lower_char c = d <-> letter_variant c d = true).
Proof.
  intros Hd. pose proof (proj1 (in_range_spec _ _ _) Hd) as Bd.
  pose proof (code_bound c) as Bc.
  unfold letter_variant, lower_char. rewrite Hd. simpl andb.
  destruct (in_range 65 90 c) eqn:H1.
  - apply in_range_spec in H1.
    assert (Hs : code (shift_code c 32) = code c + 32)
      by (apply (code_shift c 32); lia).
    split.
    + intros <-. rewrite Hs, Nat.eqb_refl. apply orb_true_r.
    + intros H. apply orb_true_iff in H as [H|H].
      * unfold ascii_eqb in H. apply Ascii.eqb_eq in H. subst d. lia.
      * apply Nat.eqb_eq in H. apply code_inj. lia.
  - assert (N1 : ~ (65 <= code c <= 90)).
    { intros B. apply in_range_spec in B. congruence. }
    destruct (in_range 192 222 c && negb (code c =? 215)) eqn:H2.
    + apply andb_true_iff in H2 as [H2 _]. apply in_range_spec in H2.
      assert (Hs : code (shift_code c 32) = code c + 32)
        by (apply (code_shift c 32); lia).
      split.
      * intros <-. lia.
      * intros H. apply orb_true_iff in H as [H|H].
        -- unfold ascii_eqb in H. apply Ascii.eqb_eq in H. subst d. lia.
        -- apply Nat.eqb_eq in H. lia.
    + split.
      * intros ->. unfold ascii_eqb. rewrite Ascii.eqb_refl. reflexivity.
      * intros H. apply orb_true_iff in H as [H|H].
        -- unfold ascii_eqb in H. now apply Ascii.eqb_eq in H.
        -- apply Nat.eqb_eq in H. lia.
Qed.

Lemma toLowerCase_word (b m : string) :
  lower_word m = true ->
  (toLowerCase b = m <-> same_up_to_case b m = true).
Proof.
  unfold toLowerCase.
  revert m. induction b as [|c b IH]; intros [|d m] Hm; simpl;
    try (split; congruence).
  apply andb_true_iff in Hm as [Hd Hm].
  rewrite andb_true_iff, <- (IH m Hm), <- (lower_char_letter c d Hd).
  split; [intros [= -> ->]; auto | intros [-> ->]; reflexivity].
Qed.

Lemma letter_variant_no_ws (c d : ascii) :
  in_range 97 122 d = true -> letter_variant c d = true -> is_whitespace c = false.
Proof.
  intros Hd H. pose proof (proj1 (in_range_spec _ _ _) Hd) as Bd.
  unfold letter_variant in H. rewrite Hd in H. simpl in H.
  assert (B : 65 <= code c <= 122).
  { apply orb_true_iff in H as [H|H].
    - unfold ascii_eqb in H. apply Ascii.eqb_eq in H. subst. lia.
    - apply Nat.eqb_eq in H. lia. }
  unfold is_whitespace, in_range.
  repeat match goal with
  | |- context [?a <=? ?b] => destruct (Nat.leb_spec a b); try lia
  | |- context [?a =? ?b] => destruct (Nat.eqb_spec a b); try lia
  end; reflexivity.
Qed.

Lemma same_up_to_case_no_ws (b m : string) :
  lower_word m = true -> same_up_to_case b m = true -> no_whitespace b = true.
Proof.
  revert m. induction b as [|c b IH]; intros [|d m] Hm H; simpl in *;
    try congruence.
  apply andb_true_iff in Hm as [Hd Hm]. apply andb_true_iff in H as [Hc H].
  rewrite (letter_variant_no_ws c d Hd Hc). simpl. eauto.
Qed.

Lemma same_up_to_case_nonempty (b m : string) :
  same_up_to_case b m = true -> m <> "" -> b <> "".
Proof. destruct b, m; simpl; congruence. Qed.

Lemma validModes_words (m : string) :
  m ∈ Validation.validModes -> lower_word m = true /\ m <> "".
Proof.
  unfold Validation.validModes. rewrite !elem_of_cons, elem_of_nil.
  intros [->|[->|[->|[]]]]; split; (reflexivity || discriminate).
Qed.

(** ** validateMode *)

(** C10. [validateMode] returns the default [fast] on every falsy input.
    A string that differs from one of [fast], [slow], [special] in the case
    of its letters or in surrounding white space only is accepted and that
    mode is returned in lower case.  Every other non-empty string is
    refused with the validation failure that lists the modes. *)
Theorem validateMode_default_variants_and_failure :
  (forall v : jsval, JS.truthy v = false -> Validation.validateMode v = Ok "fast")
  /\ (forall m s : string,
        m ∈ Validation.validModes -> mode_variant m s ->
        Validation.validateMode (JStr s) = Ok m)
  /\ (forall s : string,
        s <> "" ->
        (forall m, m ∈ Validation.validModes -> ~ mode_variant m s) ->
        Validation.validateMode (JStr s)
        = Throw (Validation.new_ValidationError "mode"
                   "Mode must be one of: fast, slow, special")).
Proof.
  split; [|split].
  - intros v Hv. unfold Validation.validateMode, JS.falsy. now rewrite Hv.
  - intros m s Hm (pre & b & post & -> & Hpre & Hpost & Hb).
    destruct (validModes_words m Hm) as [Hw Hne].
    assert (Hnb : b <> "") by (eapply same_up_to_case_nonempty; eauto).
    assert (Hnw : no_whitespace b = true)
      by (eapply same_up_to_case_no_ws; eauto).
    unfold Validation.validateMode, JS.falsy, JS.truthy.
    destruct (String.eqb_spec (pre ++ b ++ post) "") as [E|_].
    + exfalso. apply (f_equal trim) in E.
      rewrite trim_variant in E by assumption. now subst b.
    + simpl negb at 1. cbv iota.
      rewrite trim_variant by assumption.
      apply (toLowerCase_word b m Hw) in Hb. rewrite Hb.
      now rewrite bool_decide_eq_true_2.
  - intros s Hne Hnone.
    unfold Validation.validateMode, JS.falsy, JS.truthy.
    destruct (String.eqb_spec s "") as [|_]; [contradiction|]. simpl negb at 1.
    cbv iota.
    destruct (bool_decide_reflect (toLowerCase (trim s) ∈ Validation.validModes))
      as [Hin|Hout]; [|reflexivity].
    exfalso. apply (Hnone _ Hin).
    destruct (trim_split s) as (pre & post & E & W1 & W2).
    exists pre, (trim s), post. repeat split; try assumption.
    apply toLowerCase_word; [|reflexivity].
    now apply validModes_words.
Qed.

(** The theorem at [null], at [  FAST ] and at [turbo]. *)
Lemma validateMode_default_variants_and_failure_witness :
  Validation.validateMode JNull = Ok "fast"
  /\ Validation.validateMode (JStr "  FAST ") = Ok "fast"
  /\ Validation.validateMode (JStr "turbo")
     = Throw (Validation.new_ValidationError "mode"
                "Mode must be one of: fast, slow, special").
Proof.
  destruct validateMode_default_variants_and_failure as (H1 & H2 & H3).
  split; [|split].
  - apply H1. reflexivity.
  - apply H2.
    + unfold Validation.validModes. apply elem_of_cons. now left.
    + exists "  ", "FAST", " ". repeat split; reflexivity.
  - apply H3; [discriminate|].
    intros m Hm (pre & b & post & E & Hpre & Hpost & Hb).
    destruct (validModes_words m Hm) as [Hw Hne].
    assert (T : trim "turbo" = b).
    { rewrite E. apply trim_variant; try assumption.
      - eapply same_up_to_case_no_ws; eauto.
      - eapply same_up_to_case_nonempty; eauto. }
    apply (toLowerCase_word b m Hw) in Hb. subst b.
    vm_compute in Hb. subst m.
    unfold Validation.validModes in Hm.
    rewrite !elem_of_cons, elem_of_nil in Hm.
    destruct Hm as [?|[?|[?|[]]]]; discriminate.
Defined.

(** ** validateUsernames *)

Lemma usernameList_of_empty : Validation.usernameList_of "" = [].
Proof. reflexivity. Qed.

(** The traversal stops at the first element that is refused, and reports
    its position counted from one. *)
Lemma validate_each_first_invalid (l : list string) :
  forall (k i : nat) (u : string) (e : Validation.ValidationError),
    l !! i = Some u ->
    Validation.validateUsername (JStr u) = Throw e ->
    (forall j u', j < i -> l !! j = Some u' ->
                  exists v, Validation.validateUsername (JStr u') = Ok v) ->
    Validation.validate_each l k
    = Throw (Validation.new_ValidationError "usernames"
               ("Username #" ++ pretty (k + i + 1) ++ " is invalid: "
                ++ Validation.userMessage e)).
Proof.
  induction l as [|x l IH]; intros k i u e Hi He Hbefore.
  - discriminate.
  - destruct i as [|i]; simpl in Hi.
    + injection Hi as ->. simpl. rewrite He. unfold Validation.fail.
      now rewrite Nat.add_0_r.
    + destruct (Hbefore 0 x) as [v Hv]; [lia | reflexivity |].
      simpl. rewrite Hv.
      rewrite (IH (S k) i u e Hi He).
      * simpl. now replace (S (k + i + 1)) with (k + S i + 1) by lia.
      * intros j u' Hj Hu'. apply (Hbefore (S j) u'); [lia | exact Hu'].
Qed.

(** C5. On [john,jane,bob] the batch validator returns the three names.
    An input whose list of trimmed, non-empty segments has more than 50
    elements is refused with the failure about the maximum, whatever the
    elements are.  Otherwise, when an element is refused and all elements
    before it are accepted, the failure is the one of that element,
    prefixed with its position counted from one. *)
Theorem validateUsernames_batch :
  Validation.validateUsernames (JStr "john,jane,bob") = Ok ["john"; "jane"; "bob"]
  /\ (forall s : string,
        50 < length (Validation.usernameList_of s) ->
        Validation.validateUsernames (JStr s)
        = Throw (Validation.new_ValidationError "usernames"
                   "Maximum 50 usernames allowed per request"))
  /\ (forall (s : string) (i : nat) (u : string) (e : Validation.ValidationError),
        length (Validation.usernameList_of s) <= 50 ->
        Validation.usernameList_of s !! i = Some u ->
        Validation.validateUsername (JStr u) = Throw e ->
        (forall j u', j < i -> Validation.usernameList_of s !! j = Some u' ->
                      exists v, Validation.validateUsername (JStr u') = Ok v) ->
        Validation.validateUsernames (JStr s)
        = Throw (Validation.new_ValidationError "usernames"
                   ("Username #" ++ pretty (i + 1) ++ " is invalid: "
                    ++ Validation.userMessage e))).
Proof.
  split; [vm_compute; reflexivity | split].
  - intros s Hlen.
    unfold Validation.validateUsernames, JS.falsy, JS.truthy.
    destruct (String.eqb_spec s "") as [->|_].
    + rewrite usernameList_of_empty in Hlen. simpl in Hlen. lia.
    + simpl negb. cbv iota.
      destruct (Nat.eqb_spec (length (Validation.usernameList_of s)) 0); [lia|].
      destruct (Nat.ltb_spec 50 (length (Validation.usernameList_of s))); [|lia].
      reflexivity.
  - intros s i u e Hlen Hi He Hbefore.
    unfold Validation.validateUsernames, JS.falsy, JS.truthy.
    destruct (String.eqb_spec s "") as [->|_].
    + rewrite usernameList_of_empty in Hi. discriminate.
    + simpl negb. cbv iota.
      destruct (Nat.eqb_spec (length (Validation.usernameList_of s)) 0) as [E|_].
      { apply lookup_lt_Some in Hi. lia. }
      destruct (Nat.ltb_spec 50 (length (Validation.usernameList_of s))); [lia|].
      apply (validate_each_first_invalid _ 0 i u e Hi He Hbefore).
Qed.

(** The theorem at 51 copies of an invalid name, and at [john,<script>,bob]. *)
Lemma validateUsernames_batch_witness :
  Validation.validateUsernames
    (JStr (join "," (replicate 51 "<b>")))
  = Throw (Validation.new_ValidationError "usernames"
             "Maximum 50 usernames allowed per request")
  /\ Validation.validateUsernames (JStr "john,<script>,bob")
     = Throw (Validation.new_ValidationError "usernames"
                "Username #2 is invalid: Invalid username: Username can only contain letters, numbers, dots, underscores, and hyphens").
Proof.
  destruct validateUsernames_batch as (_ & H2 & H3).
  split.
  - apply H2. vm_compute. lia.
  - apply (H3 "john,<script>,bob" 1 "<script>"
             (Validation.new_ValidationError "username"
                "Username can only contain letters, numbers, dots, underscores, and hyphens")).
    + vm_compute. lia.
    + reflexivity.
    + vm_compute. reflexivity.
    + intros j u' Hj Hu'. assert (j = 0) as -> by lia.
      vm_compute in Hu'. injection Hu' as <-. eexists. vm_compute. reflexivity.
Defined.

(** ** Order of the rules *)

Lemma violations_cons {A} (c : A -> option string) cs (x : A) :
  violations (c :: cs) x =
    match c x with
    | Some m => m :: violations cs x
    | None => violations cs x
    end.
Proof. reflexivity. Qed.

Lemma violations_nil {A} (x : A) : violations [] x = [].
Proof. reflexivity. Qed.

Lemma validateUsername_first_violation (v : jsval) :
  Validation.validateUsername v =
    match violations username_constraints v with
    | [] => Ok (username_text v)
    | m :: _ => Throw (Validation.new_ValidationError "username" m)
    end.
Proof.
  unfold Validation.validateUsername, Validation.fail, username_constraints,
    JS.falsy.
  destruct v as [| |b|n|s|f]; try reflexivity.
  - now destruct b.
  - destruct n as [| | |q]; simpl; try reflexivity.
    now destruct (Qeq_bool q 0).
  - rewrite !violations_cons, violations_nil. cbn beta. unfold JS.truthy.
    change (username_text (JStr s)) with (trim s).
    change Validation.USERNAME_RULES.minLength with 1.
    change Validation.USERNAME_RULES.maxLength with 100.
    generalize (existsb (includes (toUpperCase (trim s)))
                  Validation.USERNAME_RULES.blacklist).
    generalize (test Validation.USERNAME_RULES.pathTraversal (trim s)).
    generalize (test Validation.USERNAME_RULES.pattern (trim s)).
    generalize (100 <? String.length (trim s)).
    generalize (String.length (trim s) <? 1).
    generalize (String.eqb s "").
    intros [] [] [] [] [] []; reflexivity.
Qed.

Lemma num_range_exclusive (n : jsnum) (lo hi : Z) :
  (lo <= hi)%Z -> Config.num_lt n lo = true -> Config.num_gt n hi = false.
Proof.
  intros Hle. destruct n as [| | |q]; simpl; try congruence.
  intros Hlt. apply negb_true_iff in Hlt. apply negb_false_iff.
  apply Qle_bool_iff.
  destruct (Qlt_le_dec q (inject_Z lo)) as [Hq|Hq].
  - apply Qlt_le_weak. eapply Qlt_le_trans; [exact Hq|]. now rewrite <- Zle_Qle.
  - apply Qle_bool_iff in Hq. congruence.
Qed.

Section FieldFacts.
Import Config.
Variable Number : string -> jsnum.
Variable numToString : jsnum -> string.

Lemma unset_Some (raw : string) : raw <> "" -> unset (Some raw) = false.
Proof. intros H. simpl. now apply String.eqb_neq. Qed.

(** On a rule-set in which no two constraints can fail together,
    [validateValue] reports the first violated constraint and nothing
    else. *)
Lemma validateValue_first_violation (key : string) (schema : field_schema)
  (raw : string) (h : heap) :
  one_failure_at_most schema = true -> raw <> "" ->
  errors (validateValue Number numToString key (Some raw) schema h).1
  = firstn 1 (violations (field_constraints Number numToString key schema) raw).
Proof.
  intros Hone Hraw.
  unfold validateValue, field_constraints, one_failure_at_most in *.
  rewrite (unset_Some raw Hraw), andb_false_r.
  destruct (type schema).
  - rewrite !violations_cons, violations_nil.
    destruct (Number raw) as [| | |q] eqn:Hn; cbn [isNaN].
    + simpl. now destruct (min schema), (max schema).
    + destruct (min schema) as [lo|], (max schema) as [hi|]; reflexivity.
    + destruct (min schema) as [lo|], (max schema) as [hi|]; reflexivity.
    + destruct (min schema) as [lo|], (max schema) as [hi|]; cbn [fst errors].
      * apply Z.leb_le in Hone.
        destruct (num_lt (Fin q) lo) eqn:Hlt.
        -- now rewrite (num_range_exclusive (Fin q) lo hi Hone Hlt).
        -- now destruct (num_gt (Fin q) hi).
      * now destruct (num_lt (Fin q) lo).
      * now destruct (num_gt (Fin q) hi).
      * reflexivity.
  - reflexivity.
  - rewrite !violations_cons, violations_nil. cbn [fst errors].
    destruct (minLength schema) as [n|], (pattern schema) as [p|],
      (enum schema) as [allowed|]; try discriminate.
    + now destruct (negb (n =? 0) && (String.length raw <? n)).
    + now destruct (test p raw).
    + now destruct (bool_decide (raw ∈ allowed)).
    + reflexivity.
  - reflexivity.
Qed.

(** On every rule-set [validateValue] reports each violated constraint,
    in the declared order. *)
Lemma validateValue_all_violations (key : string) (schema : field_schema)
  (raw : string) (h : heap) :
  raw <> "" ->
  errors (validateValue Number numToString key (Some raw) schema h).1
  = violations (field_constraints Number numToString key schema) raw.
Proof.
  intros Hraw. unfold validateValue, field_constraints.
  rewrite (unset_Some raw Hraw), andb_false_r.
  destruct (type schema).
  - rewrite !violations_cons, violations_nil.
    destruct (Number raw) as [| | |q] eqn:Hn; cbn [isNaN].
    + simpl. now destruct (min schema), (max schema).
    + destruct (min schema) as [lo|], (max schema) as [hi|]; reflexivity.
    + destruct (min schema) as [lo|], (max schema) as [hi|]; reflexivity.
    + destruct (min schema) as [lo|], (max schema) as [hi|]; cbn [fst errors];
        repeat match goal with
               | |- context [num_lt ?n ?z] => destruct (num_lt n z)
               | |- context [num_gt ?n ?z] => destruct (num_gt n z)
               end; reflexivity.
  - reflexivity.
  - rewrite !violations_cons, violations_nil. cbn [fst errors].
    destruct (minLength schema) as [n|], (pattern schema) as [p|],
      (enum schema) as [allowed|];
      repeat match goal with
             | |- context [negb (?n =? 0) && ?b] => destruct (negb (n =? 0) && b)
             | |- context [test ?p ?r] => destruct (test p r)
             | |- context [bool_decide ?P] => destruct (bool_decide P)
             end; reflexivity.
  - reflexivity.
Qed.

Lemma CONFIG_SCHEMA_one_failure (p : bool) (key : string) (schema : field_schema) :
  (key, schema) ∈ CONFIG_SCHEMA p -> one_failure_at_most schema = true.
Proof.
  assert (H : Forall (fun e => one_failure_at_most e.2 = true) (CONFIG_SCHEMA p))
    by (unfold CONFIG_SCHEMA; repeat constructor).
  intros Hin. rewrite Forall_forall in H. exact (H _ Hin).
Qed.

(** [validateValue] accumulates: on a rule-set with two constraints that
    fail together, which [CONFIG_SCHEMA] does not contain, both are
    reported. *)
Lemma validateValue_accumulates (h : heap) :
  errors (validateValue Number numToString "X" (Some "ab") two_rule_field h).1
  = ["X must be at least 5 characters, got: 2"; "X has invalid format"].
Proof. reflexivity. Qed.

End FieldFacts.

(** C6, as amended.  The rules of a field are applied in their declared
    order.  [validateUsername] stops at the first violated constraint of
    presence, type, length, pattern, blacklist: it fails with that one,
    and returns the trimmed username when none is violated.
    [validateValue] does not stop: for every rule-set and every raw value
    that is set it reports each violated constraint of type, range,
    length, pattern, enum, in that order.  In [CONFIG_SCHEMA] no two
    constraints of a field can be violated together, so for the fields of
    the schema a raw value gets at most one failure, the one of the first
    violated constraint.  Both are functions, so the same input gives the
    same messages. *)
Theorem rules_in_declared_order :
  (forall v : jsval,
     Validation.validateUsername v =
       match violations username_constraints v with
       | [] => Ok (username_text v)
       | m :: _ => Throw (Validation.new_ValidationError "username" m)
       end)
  /\ (forall (Number : string -> jsnum) (numToString : jsnum -> string)
        (key : string) (schema : Config.field_schema) (raw : string) (h : Config.heap),
        raw <> "" ->
        Config.errors (Config.validateValue Number numToString key (Some raw) schema h).1
        = violations (field_constraints Number numToString key schema) raw)
  /\ (forall (Number : string -> jsnum) (numToString : jsnum -> string)
        (production_at_import : bool) (key : string)
        (schema : Config.field_schema) (raw : string) (h : Config.heap),
        (key, schema) ∈ Config.CONFIG_SCHEMA production_at_import ->
        raw <> "" ->
        Config.errors (Config.validateValue Number numToString key (Some raw) schema h).1
        = firstn 1 (violations (field_constraints Number numToString key schema) raw))
  /\ (forall (Number : string -> jsnum) (numToString : jsnum -> string)
        (production_at_import : bool) (key : string)
        (schema : Config.field_schema) (raw : option string) (h : Config.heap),
        (key, schema) ∈ Config.CONFIG_SCHEMA production_at_import ->
        length (Config.errors
                  (Config.validateValue Number numToString key raw schema h).1) <= 1).
Proof.
  split_and!.
  - exact validateUsername_first_violation.
  - intros Number numToString key schema raw h Hraw.
    now apply validateValue_all_violations.
  - intros Number numToString p key schema raw h Hin Hraw.
    apply validateValue_first_violation; [|assumption].
    now apply (CONFIG_SCHEMA_one_failure p key).
  - intros Number numToString p key schema raw h Hin.
    destruct (Config.unset raw) eqn:Hu.
    + unfold Config.validateValue. rewrite Hu, andb_true_r.
      destruct (Config.required schema); simpl; lia.
    + destruct raw as [raw|]; [|discriminate]. simpl in Hu.
      apply String.eqb_neq in Hu.
      rewrite (validateValue_first_violation Number numToString key schema raw h)
        by (try assumption; now apply (CONFIG_SCHEMA_one_failure p key)).
      rewrite length_firstn. lia.
Qed.

(** The rule theorem at the username [a..b], whose pattern is fine and
    whose path traversal is refused; at [PORT=80]; and at a rule-set with
    a minimal length and a pattern, where the value [ab] violates both. *)
Lemma rules_in_declared_order_witness :
  Validation.validateUsername (JStr "a..b")
  = Throw (Validation.new_ValidationError "username" "Invalid username format")
  /\ Config.errors
       (Config.validateValue Number_decimal numToString_integral "PORT" (Some "80")
          (Config.number_field 9005 1024 65535 "Server port number")
          Config.module_heap).1
     = ["PORT must be >= 1024, got: 80"]
  /\ Config.errors
       (Config.validateValue Number_decimal numToString_integral "X" (Some "ab")
          two_rule_field Config.module_heap).1
     = ["X must be at least 5 characters, got: 2"; "X has invalid format"].
Proof.
  destruct rules_in_declared_order as (H1 & H2 & H3 & _).
  split_and!.
  - rewrite H1. vm_compute. reflexivity.
  - rewrite (H3 Number_decimal numToString_integral false "PORT"
               (Config.number_field 9005 1024 65535 "Server port number") "80").
    + vm_compute. reflexivity.
    + unfold Config.CONFIG_SCHEMA. apply elem_of_cons. now left.
    + discriminate.
  - rewrite (H2 Number_decimal numToString_integral "X" two_rule_field "ab")
      by discriminate.
    vm_compute. reflexivity.
Defined.

(** C6 as it is stated fails for [validateValue]: it does not stop at the
    first violated constraint.  On a rule-set with a minimal length and a
    pattern the value [ab] gets two failures, not the first one alone. *)
Lemma validateValue_does_not_short_circuit :
  ~ (forall (Number : string -> jsnum) (numToString : jsnum -> string)
       (key : string) (schema : Config.field_schema) (raw : string) (h : Config.heap),
       raw <> "" ->
       Config.errors (Config.validateValue Number numToString key (Some raw) schema h).1
       = firstn 1 (violations (field_constraints Number numToString key schema) raw)).
Proof.
  intros H.
  specialize (H Number_decimal numToString_integral "X" two_rule_field "ab"
                Config.module_heap ltac:(discriminate)).
  vm_compute in H. discriminate.
Qed.

(** ** validateUrl *)

(** C2. [javascript:alert(1)] is refused in every mode, and
    [http://127.0.0.1] is refused in production and returned unchanged in
    every other mode.  The statement is about every [validator.isURL] that
    refuses the first and accepts the second address, and every URL parser
    that reads the host name [127.0.0.1] in the second. *)
Theorem validateUrl_scheme_and_private_host :
  forall (isURL : string -> bool) (parseURL : string -> option URL) (parsed : URL),
    isURL "javascript:alert(1)" = false ->
    isURL "http://127.0.0.1" = true ->
    parseURL "http://127.0.0.1" = Some parsed ->
    hostname parsed = "127.0.0.1" ->
    (forall (NODE_ENV : option string) (optional : bool),
       Validation.validateUrl isURL parseURL NODE_ENV (JStr "javascript:alert(1)") optional
       = Throw (Validation.new_ValidationError "url" "Invalid URL format"))
    /\ (forall optional : bool,
          Validation.validateUrl isURL parseURL (Some "production")
            (JStr "http://127.0.0.1") optional
          = Throw (Validation.new_ValidationError "url"
                     "Private/internal URLs are not allowed"))
    /\ (forall (NODE_ENV : option string) (optional : bool),
          NODE_ENV <> Some "production" ->
          Validation.validateUrl isURL parseURL NODE_ENV (JStr "http://127.0.0.1") optional
          = Ok "http://127.0.0.1").
Proof.
  intros isURL parseURL parsed Hjs Hip Hparse Hhost.
  assert (T1 : trim "javascript:alert(1)" = "javascript:alert(1)") by reflexivity.
  assert (T2 : trim "http://127.0.0.1" = "http://127.0.0.1") by reflexivity.
  split; [|split].
  - intros env optional. unfold Validation.validateUrl.
    change (JS.falsy (JStr "javascript:alert(1)")) with false. cbv iota.
    rewrite T1, Hjs. reflexivity.
  - intros optional. unfold Validation.validateUrl.
    change (JS.falsy (JStr "http://127.0.0.1")) with false. cbv iota.
    rewrite T2, Hip. cbn [negb]. rewrite Hparse, Hhost.
    rewrite bool_decide_eq_true_2 by reflexivity.
    vm_compute. reflexivity.
  - intros env optional Henv. unfold Validation.validateUrl.
    change (JS.falsy (JStr "http://127.0.0.1")) with false. cbv iota.
    rewrite T2, Hip. cbn [negb]. rewrite Hparse.
    now rewrite bool_decide_eq_false_2.
Qed.

(** The theorem with the stand-ins for the validator and the parser. *)
Lemma validateUrl_scheme_and_private_host_witness :
  Validation.validateUrl isURL_scheme parseURL_table (Some "development")
    (JStr "javascript:alert(1)") false
  = Throw (Validation.new_ValidationError "url" "Invalid URL format")
  /\ Validation.validateUrl isURL_scheme parseURL_table (Some "production")
       (JStr "http://127.0.0.1") false
     = Throw (Validation.new_ValidationError "url"
                "Private/internal URLs are not allowed")
  /\ Validation.validateUrl isURL_scheme parseURL_table None
       (JStr "http://127.0.0.1") false
     = Ok "http://127.0.0.1".
Proof.
  destruct (validateUrl_scheme_and_private_host isURL_scheme parseURL_table
              (mkURL "http:" "" "" "127.0.0.1" "127.0.0.1" "/"))
    as (H1 & H2 & H3); try reflexivity.
  split; [apply H1 | split; [apply H2 | apply H3; discriminate]].
Defined.

(** ** createErrorResponse *)

Section ErrorResponse.
Import ErrorHandler.

Variable NODE_ENV : option string.
Variable st : Config.module_state.
Variable now : string.

Lemma get_initialized (c : Config.jsobject) (key : string) :
  Config.config st = Some c -> Config.get st key = Ok (Config.props c !! key).
Proof. intros H. unfold Config.get. now rewrite H. Qed.

Lemma unclassified_inv (err : thrown) :
  unclassified err = true ->
  JS.eq_str (prop err "name") "ValidationError" = false
  /\ instanceof_AppError err = false
  /\ JS.eq_str (prop err "code") "ECONNREFUSED" = false
  /\ JS.eq_str (prop err "code") "ETIMEDOUT" = false
  /\ JS.eq_str (prop err "name") "TimeoutError" = false
  /\ JS.eq_str (prop err "code") "ENOENT" = false.
Proof.
  unfold unclassified. rewrite !andb_true_iff, !negb_true_iff. tauto.
Qed.

(** What the last branch returns, for a failure that is not classified. *)
Lemma createErrorResponse_unclassified (c : Config.jsobject) (err : thrown) :
  Config.config st = Some c ->
  unclassified err = true ->
  createErrorResponse NODE_ENV st now err =
    Ok (<["statusCode" := JS.or (prop err "statusCode") (JS.int 500)]>
         (if negb (bool_decide (NODE_ENV = Some "production"))
             || Config.truthy_opt (Config.props c !! "VERBOSE")
          then <["details" := JObj [("name", prop err "name"); ("code", prop err "code")]]>
                 (<["stack" := prop err "stack"]>
                   (<["message" := prop err "message"]> (base_response now)))
          else base_response now)).
Proof.
  intros Hc Hu. destruct (unclassified_inv err Hu) as (H1 & H2 & H3 & H4 & H5 & H6).
  unfold createErrorResponse. rewrite (get_initialized c "VERBOSE" Hc).
  cbn [mbind result_bind]. now rewrite H1, H2, H3, H4, H5, H6.
Qed.

End ErrorResponse.

(** In production, with [VERBOSE] off, a failure that is not classified is
    answered with the generic message and without stack or details. *)
Lemma createErrorResponse_production_quiet
  (st : Config.module_state) (c : Config.jsobject) (now : string)
  (err : ErrorHandler.thrown) :
  Config.config st = Some c ->
  Config.truthy_opt (Config.props c !! "VERBOSE") = false ->
  unclassified err = true ->
  exists response,
    ErrorHandler.createErrorResponse (Some "production") st now err = Ok response
    /\ response !! "message" = Some (JStr "An error occurred")
    /\ response !! "type" = Some (JStr "internal_error")
    /\ response !! "stack" = None
    /\ response !! "details" = None.
Proof.
  intros Hc Hv Hu. eexists. split.
  - rewrite (createErrorResponse_unclassified _ st now c err Hc Hu). reflexivity.
  - rewrite Hv. rewrite bool_decide_eq_true_2 by reflexivity. cbn [negb orb].
    unfold ErrorHandler.base_response. repeat split; by simplify_map_eq.
Qed.

(** Outside production the answer carries the message, the stack and the
    details of the failure. *)
Lemma createErrorResponse_development_details
  (NODE_ENV : option string) (st : Config.module_state) (c : Config.jsobject)
  (now : string) (err : ErrorHandler.thrown) :
  Config.config st = Some c ->
  NODE_ENV <> Some "production" ->
  unclassified err = true ->
  exists response,
    ErrorHandler.createErrorResponse NODE_ENV st now err = Ok response
    /\ response !! "message" = Some (ErrorHandler.prop err "message")
    /\ response !! "type" = Some (JStr "internal_error")
    /\ response !! "stack" = Some (ErrorHandler.prop err "stack")
    /\ response !! "details"
       = Some (JObj [("name", ErrorHandler.prop err "name");
                     ("code", ErrorHandler.prop err "code")]).
Proof.
  intros Hc Henv Hu. eexists. split.
  - rewrite (createErrorResponse_unclassified _ st now c err Hc Hu). reflexivity.
  - rewrite bool_decide_eq_false_2 by assumption. cbn [negb orb].
    unfold ErrorHandler.base_response. repeat split; by simplify_map_eq.
Qed.

(** In production with [VERBOSE] on, the same branch is taken as outside
    production. *)
Lemma createErrorResponse_production_verbose
  (st : Config.module_state) (c : Config.jsobject) (now : string)
  (err : ErrorHandler.thrown) :
  Config.config st = Some c ->
  Config.truthy_opt (Config.props c !! "VERBOSE") = true ->
  unclassified err = true ->
  exists response,
    ErrorHandler.createErrorResponse (Some "production") st now err = Ok response
    /\ response !! "message" = Some (ErrorHandler.prop err "message")
    /\ response !! "stack" = Some (ErrorHandler.prop err "stack")
    /\ response !! "details"
       = Some (JObj [("name", ErrorHandler.prop err "name");
                     ("code", ErrorHandler.prop err "code")]).
Proof.
  intros Hc Hv Hu. eexists. split.
  - rewrite (createErrorResponse_unclassified _ st now c err Hc Hu). reflexivity.
  - rewrite Hv, orb_true_r.
    unfold ErrorHandler.base_response. repeat split; by simplify_map_eq.
Qed.

(** C1, at a production deployment with verbose logging on.  The
    configuration loads; the database failure is not classified; and the
    response record carries its message, its stack with the file path, and
    its details, where the claim asks for the generic message and neither
    stack nor details. *)
Theorem createErrorResponse_discloses_in_verbose_production :
  Config.get production_verbose_state "VERBOSE" = Ok (Some (Config.CBool true))
  /\ unclassified database_failure = true
  /\ is_ok (ErrorHandler.createErrorResponse (Some "production")
              production_verbose_state "2025-11-18T10:00:00.000Z" database_failure)
     = true
  /\ response_field
       (ErrorHandler.createErrorResponse (Some "production") production_verbose_state
          "2025-11-18T10:00:00.000Z" database_failure) "message"
     = Some (JStr "password authentication failed for user admin")
  /\ response_field
       (ErrorHandler.createErrorResponse (Some "production") production_verbose_state
          "2025-11-18T10:00:00.000Z" database_failure) "stack"
     = Some (JStr ("Error: password authentication failed for user admin"
                   ++ newline
                   ++ "    at connect (/srv/app/modules/db.js:42:11)"))
  /\ response_field
       (ErrorHandler.createErrorResponse (Some "production") production_verbose_state
          "2025-11-18T10:00:00.000Z" database_failure) "details"
     = Some (JObj [("name", JStr "Error"); ("code", JUndefined)]).
Proof. split_and!; vm_compute; reflexivity. Qed.

(** C9. With the configuration initialised, a failure whose name is
    [ValidationError] is answered, in every mode, with the type
    [validation_error], the status 400 and the failure's [userMessage], or
    its [message] when [userMessage] is missing or falsy; the record has no
    stack and no details. *)
Theorem createErrorResponse_validation_failure :
  forall (NODE_ENV : option string) (st : Config.module_state)
    (c : Config.jsobject) (now : string) (err : ErrorHandler.thrown),
    Config.config st = Some c ->
    ErrorHandler.prop err "name" = JStr "ValidationError" ->
    exists response,
      ErrorHandler.createErrorResponse NODE_ENV st now err = Ok response
      /\ response !! "type" = Some (JStr "validation_error")
      /\ response !! "statusCode" = Some (JS.int 400)
      /\ response !! "message"
         = Some (if JS.truthy (ErrorHandler.prop err "userMessage")
                 then ErrorHandler.prop err "userMessage"
                 else ErrorHandler.prop err "message")
      /\ response !! "stack" = None
      /\ response !! "details" = None.
Proof.
  intros env st c now err Hc Hname. eexists. split.
  - unfold ErrorHandler.createErrorResponse.
    rewrite (get_initialized st c "VERBOSE" Hc). cbn [mbind result_bind].
    rewrite Hname. change (JS.eq_str (JStr "ValidationError") "ValidationError") with true.
    cbv iota. reflexivity.
  - unfold ErrorHandler.respond, ErrorHandler.base_response, JS.or.
    repeat split; by simplify_map_eq.
Qed.

(** The theorem at the failure of [validateMode], outside production. *)
Lemma createErrorResponse_validation_failure_witness :
  exists response,
    ErrorHandler.createErrorResponse (Some "development") quiet_state
      "2025-11-18T10:00:00.000Z" mode_failure = Ok response
    /\ response !! "type" = Some (JStr "validation_error")
    /\ response !! "statusCode" = Some (JS.int 400)
    /\ response !! "message" = Some (JStr "Invalid mode: Mode must be a string")
    /\ response !! "stack" = None
    /\ response !! "details" = None.
Proof.
  destruct (createErrorResponse_validation_failure (Some "development")
              quiet_state (Config.mkObject (<["VERBOSE" := Config.CBool false]> ∅) true)
              "2025-11-18T10:00:00.000Z" mode_failure eq_refl eq_refl)
    as (response & H & Ht & Hs & Hm & Hk & Hd).
  exists response. repeat split; assumption.
Defined.

(** ** Secret projection *)

Lemma length_app (a b : string) :
  String.length (a ++ b) = String.length a + String.length b.
Proof. induction a as [|c a IH]; unfold_app; simpl; [reflexivity | now rewrite IH]. Qed.

Lemma length_take (n : nat) (s : string) :
  n <= String.length s -> String.length (take n s) = n.
Proof.
  revert s. induction n as [|n IH]; intros [|c s]; simpl; try lia.
  intros H. rewrite IH; lia.
Qed.

Lemma length_repeat_char (c : ascii) (n : nat) : String.length (repeat_char c n) = n.
Proof. induction n; simpl; congruence. Qed.

Lemma take_app_exact (n : nat) (a b : string) :
  String.length a = n -> take n (a ++ b) = a.
Proof.
  revert a. induction n as [|n IH]; intros [|c a]; unfold_app; simpl; try discriminate.
  - reflexivity.
  - intros [= H]. now rewrite IH.
Qed.

Lemma length_zero_empty (s : string) : String.length s = 0 -> s = "".
Proof. destruct s; [reflexivity | discriminate]. Qed.

Lemma eqb_empty_length (s : string) : 0 < String.length s -> String.eqb s "" = false.
Proof. destruct s; simpl; [lia | reflexivity]. Qed.

(** The masked secret is a fixed point of [maskSecret]. *)
Lemma maskSecret_string (h : Config.heap) (s : string) :
  exists m : string,
    Config.maskSecret h (Config.CStr s) = Ok (Config.CStr m)
    /\ 0 < String.length m
    /\ Config.maskSecret h (Config.CStr m) = Ok (Config.CStr m).
Proof.
  unfold Config.maskSecret. cbn [Config.truthy].
  destruct (String.eqb_spec s "") as [->|Hne].
  - exists "***". repeat split; simpl; lia || reflexivity.
  - cbn [negb]. destruct (Nat.leb_spec (String.length s) 10) as [Hle|Hgt].
    + exists "***". repeat split; simpl; lia || reflexivity.
    + set (m := (take 10 s ++ repeat_char "*" (String.length s - 10))%string).
      assert (Hlen : String.length m = String.length s).
      { unfold m. rewrite length_app, length_take, length_repeat_char by lia. lia. }
      exists m. split; [reflexivity|]. split; [lia|].
      rewrite eqb_empty_length by lia. cbn [negb].
      destruct (Nat.leb_spec (String.length m) 10); [lia|].
      rewrite Hlen. f_equal. f_equal. unfold m at 1.
      rewrite take_app_exact; [reflexivity | apply length_take; lia].
Qed.

Lemma maskSecret_or_keep_stable (h : Config.heap) (v : Config.cval) :
  Config.truthy v = true ->
  Config.truthy (maskSecret_or_keep h v) = true
  /\ maskSecret_or_keep h (maskSecret_or_keep h v) = maskSecret_or_keep h v.
Proof.
  intros Hv. unfold maskSecret_or_keep.
  destruct (Config.maskSecret h v) as [r|e] eqn:E.
  - assert (Hr : exists m, r = Config.CStr m /\ 0 < String.length m
                           /\ Config.maskSecret h r = Ok r).
    { unfold Config.maskSecret in E. rewrite Hv in E. cbn [negb] in E.
      destruct v as [n|b|s|a].
      - discriminate.
      - discriminate.
      - destruct (maskSecret_string h s) as (m & E1 & Hm & E2).
        unfold Config.maskSecret in E1. rewrite Hv in E1. cbn [negb] in E1.
        rewrite E1 in E. injection E as <-. eauto.
      - destruct (length (Config.array_at h a) <=? 10); [|discriminate].
        injection E as <-. exists "***". repeat split; simpl; lia. }
    destruct Hr as (m & -> & Hm & E2).
    split.
    + simpl. now rewrite eqb_empty_length.
    + now rewrite E2.
  - split; [assumption|]. now rewrite E.
Qed.

Section MaskUrl.
Import Config.
Variable numToString : jsnum -> string.
Variable parseURL : string -> option URL.
Hypothesis parser_ok : rereads_masked_form parseURL.

Lemma masked_form_nonempty (u : URL) : 0 < String.length (masked_form u).
Proof. unfold masked_form. rewrite !length_app. simpl. lia. Qed.

Lemma maskUrl_truthy (h : heap) (v : cval) :
  truthy v = true ->
  maskUrl numToString parseURL h v =
    match parseURL (display numToString h v) with
    | Some u => if has_credentials u then CStr (masked_form u) else v
    | None => CStr "***"
    end.
Proof. intros Hv. unfold maskUrl. now rewrite Hv. Qed.

Lemma truthy_nonempty (s : string) : 0 < String.length s -> truthy (CStr s) = true.
Proof. intros H. simpl. now rewrite eqb_empty_length. Qed.

Lemma maskUrl_stable (h : heap) (v : cval) :
  truthy v = true ->
  truthy (maskUrl numToString parseURL h v) = true
  /\ maskUrl numToString parseURL h (maskUrl numToString parseURL h v)
     = maskUrl numToString parseURL h v.
Proof.
  destruct parser_ok as [Hstars Hmasked].
  intros Hv. rewrite (maskUrl_truthy h v Hv).
  destruct (parseURL (display numToString h v)) as [u|] eqn:Hp.
  - destruct (has_credentials u) eqn:Hc.
    + destruct (Hmasked _ _ Hp Hc) as (u' & Hp' & Hc' & Hm').
      pose proof (truthy_nonempty _ (masked_form_nonempty u)) as Ht.
      split; [exact Ht|].
      rewrite (maskUrl_truthy h _ Ht). cbn [display].
      now rewrite Hp', Hc', Hm'.
    + split; [assumption|].
      rewrite (maskUrl_truthy h v Hv). now rewrite Hp, Hc.
  - split; [reflexivity|].
    rewrite (maskUrl_truthy h (CStr "***")) by reflexivity.
    cbn [display]. now rewrite Hstars.
Qed.

Lemma maskUrl_string (h : heap) (s : string) :
  exists m : string,
    maskUrl numToString parseURL h (CStr s) = CStr m
    /\ maskUrl numToString parseURL h (CStr m) = CStr m.
Proof.
  destruct (String.eqb_spec s "") as [->|Hne].
  - exists "". split; reflexivity.
  - assert (Hv : truthy (CStr s) = true).
    { simpl. apply negb_true_iff. now apply String.eqb_neq. }
    destruct (maskUrl_stable h (CStr s) Hv) as [_ Hs].
    assert (exists m, maskUrl numToString parseURL h (CStr s) = CStr m) as [m Hm].
    { unfold maskUrl. rewrite Hv. cbn [negb].
      destruct (parseURL _); [destruct (_ || _)|]; eauto. }
    exists m. split; [assumption|]. now rewrite Hm in Hs.
Qed.

End MaskUrl.

Lemma maskSecret_Ok_stable (h : Config.heap) (v r : Config.cval) :
  Config.truthy v = true -> Config.maskSecret h v = Ok r ->
  Config.truthy r = true /\ Config.maskSecret h r = Ok r.
Proof.
  intros Hv E. destruct (maskSecret_or_keep_stable h v Hv) as [Ht Hs].
  unfold maskSecret_or_keep in Ht, Hs. rewrite E in Ht, Hs.
  split; [assumption|].
  unfold Config.maskSecret in E. rewrite Hv in E. cbn [negb] in E.
  destruct v as [n|b|s|a]; try discriminate.
  - destruct (maskSecret_string h s) as (m & E1 & Hm & E2).
    unfold Config.maskSecret in E1. rewrite Hv in E1. cbn [negb] in E1.
    rewrite E1 in E. now injection E as <-.
  - destruct (length (Config.array_at h a) <=? 10); [|discriminate].
    now injection E as <-.
Qed.

Section UpdateTruthy.
Import Config.
Implicit Types (m : gmap string cval) (f g : cval -> cval).

Lemma update_truthy_lookup_ne k k' f m :
  k <> k' -> update_truthy k f m !! k' = m !! k'.
Proof.
  intros Hne. unfold update_truthy.
  destruct (m !! k) as [v|]; [|reflexivity].
  destruct (truthy v); [|reflexivity]. now rewrite lookup_insert_ne.
Qed.

Lemma update_truthy_comm k1 k2 f g m :
  k1 <> k2 ->
  update_truthy k1 f (update_truthy k2 g m) = update_truthy k2 g (update_truthy k1 f m).
Proof.
  intros Hne. unfold update_truthy at 1 3.
  rewrite update_truthy_lookup_ne by congruence.
  rewrite update_truthy_lookup_ne by congruence.
  unfold update_truthy.
  destruct (m !! k1) as [v1|], (m !! k2) as [v2|]; try reflexivity.
  destruct (truthy v1), (truthy v2); try reflexivity.
  now apply insert_insert_ne.
Qed.

Lemma update_truthy_idem k f m :
  (forall v, truthy v = true -> truthy (f v) = true /\ f (f v) = f v) ->
  update_truthy k f (update_truthy k f m) = update_truthy k f m.
Proof.
  intros Hf. unfold update_truthy at 2 3.
  destruct (m !! k) as [v|] eqn:Hk.
  - destruct (truthy v) eqn:Hv.
    + destruct (Hf v Hv) as [Ht Hs].
      unfold update_truthy. rewrite lookup_insert_eq, Ht, Hs.
      apply insert_insert_eq.
    + unfold update_truthy. now rewrite Hk, Hv.
  - unfold update_truthy. now rewrite Hk.
Qed.

End UpdateTruthy.

Section Sanitize.
Import Config.
Variable numToString : jsnum -> string.
Variable parseURL : string -> option URL.

Local Abbreviation projected := (projected_props numToString parseURL).

Lemma sanitize_projected (h : heap) (o : jsobject) :
  (forall v, props o !! "GOOGLE_API_KEY" = Some v -> truthy v = true ->
             exists r, maskSecret h v = Ok r) ->
  sanitize numToString parseURL h o = Ok (mkObject (projected h (props o)) false).
Proof.
  intros Hkey. unfold sanitize, projected_props.
  unfold update_truthy at 3, maskSecret_or_keep.
  destruct (props o !! "GOOGLE_API_KEY") as [v|] eqn:Hg; cbn [truthy_opt].
  - destruct (truthy v) eqn:Hv.
    + destruct (Hkey v eq_refl Hv) as [r Hr]. rewrite Hr. cbn [mbind result_bind].
      unfold update_truthy, truthy_opt.
      destruct (<["GOOGLE_API_KEY":=r]> (props o) !! "SESSION_SECRET") as [s|];
        [destruct (truthy s)|];
        match goal with
        | |- context [?m !! "HTTP_PROXY"] =>
            destruct (m !! "HTTP_PROXY") as [p|]; [destruct (truthy p)|]
        end; reflexivity.
    + cbn [mbind result_bind]. unfold update_truthy, truthy_opt.
      destruct (props o !! "SESSION_SECRET") as [s|];
        [destruct (truthy s)|];
        match goal with
        | |- context [?m !! "HTTP_PROXY"] =>
            destruct (m !! "HTTP_PROXY") as [p|]; [destruct (truthy p)|]
        end; reflexivity.
  - cbn [mbind result_bind]. unfold update_truthy, truthy_opt.
    destruct (props o !! "SESSION_SECRET") as [s|];
      [destruct (truthy s)|];
      match goal with
      | |- context [?m !! "HTTP_PROXY"] =>
          destruct (m !! "HTTP_PROXY") as [p|]; [destruct (truthy p)|]
      end; reflexivity.
Qed.

Lemma sanitize_Ok_key (h : heap) (o o' : jsobject) :
  sanitize numToString parseURL h o = Ok o' ->
  forall v, props o !! "GOOGLE_API_KEY" = Some v -> truthy v = true ->
            exists r, maskSecret h v = Ok r.
Proof.
  intros E v Hg Hv. unfold sanitize in E. rewrite Hg in E.
  cbn [truthy_opt] in E. rewrite Hv in E.
  destruct (maskSecret h v) as [r|e]; [eauto | discriminate].
Qed.

Hypothesis parser_ok : rereads_masked_form parseURL.

Lemma projected_idempotent (h : heap) (m : gmap string cval) :
  projected h (projected h m) = projected h m.
Proof.
  unfold projected_props.
  set (u1 := update_truthy "GOOGLE_API_KEY" (maskSecret_or_keep h)).
  set (u2 := update_truthy "SESSION_SECRET" (fun _ => CStr "***HIDDEN***")).
  set (u3 := update_truthy "HTTP_PROXY" (maskUrl numToString parseURL h)).
  assert (C13 : forall x, u1 (u3 x) = u3 (u1 x))
    by (intros; apply update_truthy_comm; discriminate).
  assert (C12 : forall x, u1 (u2 x) = u2 (u1 x))
    by (intros; apply update_truthy_comm; discriminate).
  assert (C23 : forall x, u2 (u3 x) = u3 (u2 x))
    by (intros; apply update_truthy_comm; discriminate).
  assert (I1 : forall x, u1 (u1 x) = u1 x)
    by (intros; apply update_truthy_idem, maskSecret_or_keep_stable).
  assert (I2 : forall x, u2 (u2 x) = u2 x).
  { intros. apply update_truthy_idem. intros v _. split; reflexivity. }
  assert (I3 : forall x, u3 (u3 x) = u3 x).
  { intros. apply update_truthy_idem. intros v Hv.
    now apply maskUrl_stable. }
  now rewrite C13, C12, I1, C23, I2, I3.
Qed.

Lemma sanitize_idempotent (h : heap) (o o' : jsobject) :
  sanitize numToString parseURL h o = Ok o' ->
  sanitize numToString parseURL h o' = Ok o'.
Proof.
  intros E. pose proof (sanitize_Ok_key h o o' E) as Hkey.
  rewrite (sanitize_projected h o Hkey) in E. injection E as <-.
  rewrite sanitize_projected.
  - cbn [props]. now rewrite projected_idempotent.
  - cbn [props]. intros v Hg Hv. unfold projected_props in Hg.
    rewrite !update_truthy_lookup_ne in Hg by discriminate.
    unfold update_truthy in Hg.
    destruct (props o !! "GOOGLE_API_KEY") as [v0|] eqn:Hg0; [|congruence].
    destruct (truthy v0) eqn:Hv0.
    + rewrite lookup_insert_eq in Hg. injection Hg as <-.
      destruct (Hkey v0 eq_refl Hv0) as [r Hr].
      unfold maskSecret_or_keep. rewrite Hr.
      exists r. now apply (maskSecret_Ok_stable h v0 r).
    + congruence.
Qed.

End Sanitize.

(** C8. Secret projection is idempotent.  The masked form of a secret is
    masked to itself; for every URL parser that reads the masked form of a
    URL back with the same scheme, host and path, the masked form of a URL
    is masked to itself; and projecting a projected snapshot, through
    [sanitize] or through [getSanitized], returns the same record. *)
Theorem secret_projection_idempotent :
  forall (numToString : jsnum -> string) (parseURL : string -> option URL),
    rereads_masked_form parseURL ->
    (forall (h : Config.heap) (s : string),
       exists m : string,
         Config.maskSecret h (Config.CStr s) = Ok (Config.CStr m)
         /\ Config.maskSecret h (Config.CStr m) = Ok (Config.CStr m))
    /\ (forall (h : Config.heap) (u : string),
          exists m : string,
            Config.maskUrl numToString parseURL h (Config.CStr u) = Config.CStr m
            /\ Config.maskUrl numToString parseURL h (Config.CStr m) = Config.CStr m)
    /\ (forall (h : Config.heap) (o o' : Config.jsobject),
          Config.sanitize numToString parseURL h o = Ok o' ->
          Config.sanitize numToString parseURL h o' = Ok o')
    /\ (forall (st : Config.module_state) (o' : Config.jsobject),
          Config.getSanitized numToString parseURL st = Ok o' ->
          Config.getSanitized numToString parseURL
            (Config.mkState (Some o') (Config.store st)) = Ok o').
Proof.
  intros numToString parseURL Hparser. split; [|split; [|split]].
  - intros h s. destruct (maskSecret_string h s) as (m & E1 & _ & E2). eauto.
  - intros h u. now apply maskUrl_string.
  - intros h o o'. now apply sanitize_idempotent.
  - intros st o'. unfold Config.getSanitized. cbn [Config.config Config.store].
    destruct (Config.config st) as [c|]; [|discriminate].
    now apply sanitize_idempotent.
Qed.

Lemma parseURL_table_rereads : rereads_masked_form parseURL_table.
Proof.
  split; [reflexivity|].
  intros s u. unfold parseURL_table at 1.
  destruct (String.eqb s "http://127.0.0.1");
    [|destruct (String.eqb s "http://user:pw@proxy.example:8080/");
      [|destruct (String.eqb s "http://***.***@proxy.example:8080/")]];
    intros [= <-]; try discriminate; intros _;
    eexists; repeat split; vm_compute; reflexivity.
Qed.

(** The theorem with the table parser: an API key, a proxy address with
    credentials, and the snapshot that holds both. *)
Lemma secret_projection_idempotent_witness :
  Config.maskSecret Config.module_heap (Config.CStr "AIzaSyA-01********")
  = Ok (Config.CStr "AIzaSyA-01********")
  /\ Config.maskUrl numToString_integral parseURL_table Config.module_heap
       (Config.CStr "http://***.***@proxy.example:8080/")
     = Config.CStr "http://***.***@proxy.example:8080/"
  /\ exists o',
       Config.sanitize numToString_integral parseURL_table Config.module_heap
         snapshot_with_secrets = Ok o'
       /\ Config.sanitize numToString_integral parseURL_table Config.module_heap o'
          = Ok o'.
Proof.
  destruct (secret_projection_idempotent numToString_integral parseURL_table
              parseURL_table_rereads) as (H1 & H2 & H3 & _).
  split; [|split].
  - destruct (H1 Config.module_heap "AIzaSyA-0123456789") as (m & E1 & E2).
    vm_compute in E1. injection E1 as <-. exact E2.
  - destruct (H2 Config.module_heap "http://user:pw@proxy.example:8080/")
      as (m & E1 & E2).
    vm_compute in E1. injection E1 as <-. exact E2.
  - eexists. split.
    + vm_compute. reflexivity.
    + apply (H3 Config.module_heap snapshot_with_secrets). vm_compute. reflexivity.
Defined.

(** ** loadConfig *)

Section LoadFacts.
Import Config.
Variable Number : string -> jsnum.
Variable numToString : jsnum -> string.

Local Abbreviation vv := (validateValue Number numToString).

Lemma validateValue_valid key raw s h :
  valid (vv key raw s h).1 = (length (errors (vv key raw s h).1) =? 0).
Proof.
  unfold validateValue.
  destruct (required s && unset raw); [reflexivity|].
  destruct (unset raw); [reflexivity|].
  destruct (type s); try reflexivity.
  now destruct (isNaN _).
Qed.

Lemma validateValue_errors_heap key raw s h h' :
  errors (vv key raw s h).1 = errors (vv key raw s h').1.
Proof.
  unfold validateValue.
  destruct (required s && unset raw); [reflexivity|].
  destruct (unset raw); [reflexivity|].
  destruct (type s); try reflexivity.
  now destruct (isNaN _).
Qed.

Lemma validateValue_value_heap key raw s h h' :
  type s <> TArray -> value (vv key raw s h).1 = value (vv key raw s h').1.
Proof.
  intros Ht. unfold validateValue.
  destruct (required s && unset raw); [reflexivity|].
  destruct (unset raw); [reflexivity|].
  destruct (type s); try reflexivity; try congruence.
  now destruct (isNaN _).
Qed.

Lemma validateValue_heap key raw s h :
  type s <> TArray -> (vv key raw s h).2 = h.
Proof.
  intros Ht. unfold validateValue.
  destruct (required s && unset raw); [reflexivity|].
  destruct (unset raw); [reflexivity|].
  destruct (type s); try reflexivity; try congruence.
  now destruct (isNaN _).
Qed.


Lemma validateValue_string key raw s h d :
  type s = TString -> default s = CStr d ->
  value (vv key raw s h).1
  = CStr (match raw with
          | Some r => if String.eqb r "" then d else r
          | None => d
          end).
Proof.
  intros Ht Hd. unfold validateValue.
  destruct raw as [r|]; simpl unset.
  - destruct (String.eqb r "").
    + rewrite andb_true_r. now destruct (required s).
    + rewrite andb_false_r, Ht. reflexivity.
  - rewrite andb_true_r. now destruct (required s).
Qed.

Lemma validateValue_boolean key raw s h d :
  type s = TBoolean -> default s = CBool d ->
  value (vv key raw s h).1
  = CBool (match raw with
           | Some r =>
               if String.eqb r "" then d
               else String.eqb (toLowerCase r) "true" || String.eqb r "1"
           | None => d
           end).
Proof.
  intros Ht Hd. unfold validateValue.
  destruct raw as [r|]; simpl unset.
  - destruct (String.eqb r "").
    + rewrite andb_true_r. now destruct (required s).
    + rewrite andb_false_r, Ht. reflexivity.
  - rewrite andb_true_r. now destruct (required s).
Qed.

Variable w : World.

Local Abbreviation run := (foldl (load_step Number numToString w)).

Lemma load_step_errors acc e :
  acc_errors (load_step Number numToString w acc e)
  = acc_errors acc ++ errors (vv e.1 (env w !! e.1) e.2 (acc_heap acc)).1.
Proof.
  unfold load_step. cbn [acc_errors]. rewrite validateValue_valid.
  destruct (errors _) as [|x l]; simpl; [now rewrite app_nil_r | reflexivity].
Qed.

Lemma load_errors es : forall acc h0,
  acc_errors (run acc es)
  = acc_errors acc ++ flat_map (fun e => errors (vv e.1 (env w !! e.1) e.2 h0).1) es.
Proof.
  induction es as [|e es IH]; intros acc h0; simpl.
  - now rewrite app_nil_r.
  - rewrite (IH _ h0), load_step_errors, <- app_assoc.
    now rewrite (validateValue_errors_heap _ _ _ (acc_heap acc) h0).
Qed.

Lemma load_config_other es : forall acc k,
  k ∉ es.*1 -> acc_config (run acc es) !! k = acc_config acc !! k.
Proof.
  induction es as [|e es IH]; intros acc k Hk; simpl; [reflexivity|].
  rewrite fmap_cons in Hk. apply not_elem_of_cons in Hk as [Hne Hk].
  rewrite IH by assumption. unfold load_step. cbn [acc_config].
  now rewrite lookup_insert_ne.
Qed.

Lemma load_heap_no_array es : forall acc,
  forallb (fun e => negb (is_array_field e)) es = true ->
  acc_heap (run acc es) = acc_heap acc.
Proof.
  induction es as [|e es IH]; intros acc H; simpl in *; [reflexivity|].
  apply andb_true_iff in H as [He H]. rewrite IH by assumption.
  unfold load_step. cbn [acc_heap]. apply validateValue_heap.
  unfold is_array_field in He. destruct (type e.2); (discriminate || congruence).
Qed.

(** With distinct keys and at most one array-valued field, every field
    holds the value [validateValue] gives for it in the initial store. *)
Lemma load_config_field es : forall acc k s,
  NoDup es.*1 ->
  length (List.filter is_array_field es) <= 1 ->
  (k, s) ∈ es ->
  acc_config (run acc es) !! k
  = Some (value (vv k (env w !! k) s (acc_heap acc)).1).
Proof.
  induction es as [|e es IH]; intros acc k s Hnd Harr Hin.
  - apply elem_of_nil in Hin. contradiction.
  - rewrite fmap_cons in Hnd. apply NoDup_cons in Hnd as [Hfresh Hnd].
    apply elem_of_cons in Hin as [<-|Hin].
    + simpl. rewrite load_config_other by exact Hfresh.
      unfold load_step. cbn [acc_config fst snd]. apply lookup_insert_eq.
    + simpl. simpl in Harr.
      destruct (is_array_field e) eqn:He.
      * simpl in Harr.
        assert (Hnone : List.filter is_array_field es = []).
        { destruct (List.filter is_array_field es); [reflexivity | simpl in Harr; lia]. }
        rewrite (IH _ k s Hnd); [|rewrite Hnone; simpl; lia|assumption].
        f_equal. apply validateValue_value_heap.
        intros Ht. assert (Hks : (k, s) ∈ List.filter is_array_field es).
        { apply list_elem_of_In, filter_In. split; [now apply list_elem_of_In|].
          unfold is_array_field. cbn [snd]. now rewrite Ht. }
        rewrite Hnone in Hks. apply elem_of_nil in Hks. contradiction.
      * rewrite (IH _ k s Hnd Harr Hin). do 4 f_equal.
        unfold load_step. cbn [acc_heap]. apply validateValue_heap.
        unfold is_array_field in He. destruct (type e.2); (discriminate || congruence).
Qed.

End LoadFacts.

Ltac in_list :=
  repeat first [apply list_elem_of_here | apply list_elem_of_further].

Section LoadedSnapshot.
Import Config.
Variable Number : string -> jsnum.
Variable numToString : jsnum -> string.
Variable p : bool.
Variable w : World.
Variable h : heap.

Local Abbreviation vv := (validateValue Number numToString).
Local Abbreviation acc :=
  (foldl (load_step Number numToString w) (mkAcc ∅ [] [] h) (CONFIG_SCHEMA p)).

Lemma CONFIG_SCHEMA_NoDup : NoDup (CONFIG_SCHEMA p).*1.
Proof. apply (bool_decide_unpack _). vm_compute. reflexivity. Qed.

Lemma CONFIG_SCHEMA_one_array :
  length (List.filter is_array_field (CONFIG_SCHEMA p)) <= 1.
Proof. vm_compute. lia. Qed.

Lemma loaded_field k s :
  (k, s) ∈ CONFIG_SCHEMA p ->
  acc_config acc !! k = Some (value (vv k (env w !! k) s h).1).
Proof.
  intros Hin.
  apply (load_config_field Number numToString w (CONFIG_SCHEMA p)
           (mkAcc ∅ [] [] h) k s CONFIG_SCHEMA_NoDup CONFIG_SCHEMA_one_array Hin).
Qed.

Lemma loaded_errors :
  acc_errors acc
  = flat_map (fun e => errors (vv e.1 (env w !! e.1) e.2 h).1) (CONFIG_SCHEMA p).
Proof. now rewrite (load_errors Number numToString w _ _ h). Qed.

Lemma loaded_string k d opt pat en desc :
  (k, string_field d opt pat en desc) ∈ CONFIG_SCHEMA p ->
  acc_config acc !! k = Some (CStr (string_setting w k d)).
Proof.
  intros Hin. rewrite (loaded_field _ _ Hin).
  now rewrite (validateValue_string Number numToString _ _ _ _ d).
Qed.


Lemma loaded_file_logging :
  acc_config acc !! "ENABLE_FILE_LOGGING" = Some (CBool (file_logging w)).
Proof.
  rewrite (loaded_field "ENABLE_FILE_LOGGING" (boolean_field true "Enable file logging"))
    by in_list.
  now rewrite (validateValue_boolean Number numToString _ _ _ _ true).
Qed.

Lemma resolve_data_path key dflt :
  (key, dflt) ∈ data_files ->
  resolve_field w (acc_config acc) key = Ok (resolve w (string_setting w key dflt)).
Proof.
  unfold data_files. rewrite !elem_of_cons, elem_of_nil. unfold resolve_field.
  intros [E|[E|[E|[E|[E|[]]]]]]; injection E as -> ->;
    erewrite loaded_string by in_list; reflexivity.
Qed.

Lemma resolve_log_dir :
  resolve_field w (acc_config acc) "LOG_DIR"
  = Ok (resolve w (string_setting w "LOG_DIR" "./logs")).
Proof. unfold resolve_field. erewrite loaded_string by in_list. reflexivity. Qed.




Lemma secret_schema s :
  ("SESSION_SECRET", s) ∈ CONFIG_SCHEMA p ->
  s = mkField TString (CStr "") None None (Some 32) None None None false p
        "Session secret for CSRF protection".
Proof.
  assert (H : Forall
                (fun e => e.1 = "SESSION_SECRET" ->
                          e.2 = mkField TString (CStr "") None None (Some 32) None None
                                  None false p "Session secret for CSRF protection")
                (CONFIG_SCHEMA p)).
  { unfold CONFIG_SCHEMA.
    repeat (constructor; [cbn [fst snd]; intros E; (discriminate E || reflexivity)|]).
    constructor. }
  intros Hin. rewrite Forall_forall in H. exact (H _ Hin eq_refl).
Qed.


End LoadedSnapshot.




(** ** The frozen snapshot *)

(** Every snapshot that [loadConfig] returns is frozen. *)
Lemma loadConfig_frozen (Number : string -> jsnum) (numToString : jsnum -> string)
  (p : bool) (w : Config.World) (h : Config.heap) (c : Config.jsobject) :
  Config.returned (Config.loadConfig Number numToString p w h) = Ok c ->
  Config.frozen c = true.
Proof.
  unfold Config.loadConfig.
  set (acc := foldl _ _ _). clearbody acc.
  destruct (negb (length (Config.acc_errors acc) =? 0)); [discriminate|].
  destruct (Config.missing_files w (Config.acc_config acc) Config.dataPaths)
    as [[|x l]|e]; try discriminate.
  match goal with
  | |- context [match ?x with Ok _ => _ | Throw _ => _ end] => destruct x
  end; try discriminate.
  destruct (Config.is_production w && _); [discriminate|].
  destruct (negb _); cbn [Config.returned]; intros [= <-]; reflexivity.
Qed.

(** Assignment to a property of a frozen object, and removal of one, are
    refused with a [TypeError]. *)
Lemma frozen_rejects_writes (c : Config.jsobject) (key : string) (v : Config.cval) :
  Config.frozen c = true ->
  Config.set_property c key v = Throw "TypeError: Cannot assign to read only property"
  /\ (is_Some (Config.props c !! key) ->
      Config.delete_property c key = Throw "TypeError: Cannot delete property").
Proof.
  intros Hf. unfold Config.set_property, Config.delete_property. rewrite Hf.
  split; [reflexivity|]. now intros [x ->].
Qed.

(** A push on an array leaves every property of the snapshot as it was;
    only what is read through the reference changes. *)
Lemma push_keeps_properties (st st' : Config.module_state) (key x k : string) :
  push_to_field st key x = Ok st' -> Config.get st' k = Config.get st k.
Proof.
  unfold push_to_field, Config.getAll, Config.get.
  destruct (Config.config st) as [c|] eqn:Hc; [|discriminate].
  destruct (Config.props c !! key) as [[| | |a]|]; try discriminate.
  intros [= <-]. reflexivity.
Qed.

(** C4, at the array-valued field.  After a load with one allowed origin,
    the snapshot is frozen and the field reads as that origin; a push
    through the reference that [getAll] hands out is accepted, and the
    next read of the field through [get] sees the added element, where
    the claim asks for the value the snapshot held at creation. *)
Theorem snapshot_array_field_can_be_changed :
  snapshot_frozen cors_state = Some true
  /\ read cors_state "CORS_ORIGINS" = Ok (Some (OArr ["https://app.example"]))
  /\ is_ok (push_to_field cors_state "CORS_ORIGINS" "https://evil.example") = true
  /\ get_after_push cors_state "CORS_ORIGINS" "https://evil.example"
     = Config.get cors_state "CORS_ORIGINS"
  /\ read_after_push cors_state "CORS_ORIGINS" "https://evil.example"
     = Ok (Some (OArr ["https://app.example"; "https://evil.example"])).
Proof. split_and!; vm_compute; reflexivity. Qed.

(** When [CORS_ORIGINS] is not set the snapshot holds the array of the
    schema itself, so the same push also changes the default that the next
    load hands out. *)
Lemma default_origins_are_shared :
  Config.get default_state "CORS_ORIGINS"
  = Ok (Some (Config.CArr Config.CORS_ORIGINS_default))
  /\ read
       (state_after_init
          (Config.initConfig Number_decimal numToString_integral false
             development_world
             (Config.array_push (Config.store default_state)
                Config.CORS_ORIGINS_default "https://evil.example")))
       "CORS_ORIGINS"
     = Ok (Some (OArr ["http://localhost:3000"; "https://evil.example"])).
Proof. split_and!; vm_compute; reflexivity. Qed.

(** * Further properties of the modules *)

(** ** The matcher and the languages *)

Lemma app_eq_empty (a b : string) : (a ++ b)%string = "" -> a = "" /\ b = "".
Proof.
  destruct a; [rewrite app_Empty; now intros -> | rewrite app_String; discriminate].
Qed.

Lemma in_void_inv (s : string) : ~ in_lang Void s.
Proof. inversion 1. Qed.

Lemma in_eps_inv (s : string) : in_lang Eps s -> s = "".
Proof. now inversion 1. Qed.

Lemma in_class_inv (p : ascii -> bool) (s : string) :
  in_lang (Class p) s -> exists c, s = String c "" /\ p c = true.
Proof. inversion 1; subst; eauto. Qed.

Lemma in_cat_inv (r1 r2 : regex) (s : string) :
  in_lang (Cat r1 r2) s ->
  exists s1 s2, s = (s1 ++ s2)%string /\ in_lang r1 s1 /\ in_lang r2 s2.
Proof. inversion 1; subst; eauto. Qed.

Lemma in_alt_inv (r1 r2 : regex) (s : string) :
  in_lang (Alt r1 r2) s -> in_lang r1 s \/ in_lang r2 s.
Proof. inversion 1; subst; auto. Qed.

Lemma nullable_spec (r : regex) : nullable r = true <-> in_lang r "".
Proof.
  induction r as [| |p|r1 IH1 r2 IH2|r1 IH1 r2 IH2|r IH]; simpl.
  - split; [discriminate | intros H; now apply in_void_inv in H].
  - split; [constructor | reflexivity].
  - split; [discriminate|].
    intros H. apply in_class_inv in H as (c & E & _). discriminate.
  - rewrite andb_true_iff, IH1, IH2. split.
    + intros [H1 H2]. exact (in_cat r1 r2 "" "" H1 H2).
    + intros H. apply in_cat_inv in H as (s1 & s2 & E & H1 & H2).
      symmetry in E. apply app_eq_empty in E as [-> ->]. now split.
  - rewrite orb_true_iff, IH1, IH2. split.
    + intros [H|H]; [now apply in_alt_l | now apply in_alt_r].
    + apply in_alt_inv.
  - split; [constructor | reflexivity].
Qed.

Lemma star_cons_inv (r : regex) (a : ascii) (s : string) :
  in_lang (Star r) (String a s) ->
  exists s1 s2, s = (s1 ++ s2)%string /\ in_lang r (String a s1) /\ in_lang (Star r) s2.
Proof.
  intros H. remember (Star r) as R eqn:ER. remember (String a s) as x eqn:Ex.
  revert s Ex. induction H as [| | | | | |r' s1 s2 H1 _ H2 IH2]; intros t Ex;
    try discriminate.
  injection ER as ->. destruct s1 as [|c s1].
  - rewrite app_Empty in Ex. now apply IH2.
  - rewrite app_String in Ex. injection Ex as -> <-. eauto.
Qed.

Lemma deriv_spec (r : regex) :
  forall (a : ascii) (s : string), in_lang (deriv a r) s <-> in_lang r (String a s).
Proof.
  induction r as [| |p|r1 IH1 r2 IH2|r1 IH1 r2 IH2|r IH]; intros a s; simpl.
  - split; intros H; now apply in_void_inv in H.
  - split; intros H; [now apply in_void_inv in H|].
    apply in_eps_inv in H. discriminate.
  - destruct (p a) eqn:Hp; split; intros H.
    + apply in_eps_inv in H. subst. now constructor.
    + apply in_class_inv in H as (c & [= -> ->] & _). constructor.
    + now apply in_void_inv in H.
    + apply in_class_inv in H as (c & [= -> ->] & Hc). congruence.
  - assert (Hcat : in_lang (Cat (deriv a r1) r2) s ->
                   in_lang (Cat r1 r2) (String a s)).
    { intros H. apply in_cat_inv in H as (s1 & s2 & -> & H1 & H2).
      apply IH1 in H1. exact (in_cat r1 r2 (String a s1) s2 H1 H2). }
    split.
    + destruct (nullable r1) eqn:Hn; [|exact Hcat].
      intros H. apply in_alt_inv in H as [H|H]; [now apply Hcat|].
      apply IH2 in H. apply nullable_spec in Hn.
      exact (in_cat r1 r2 "" (String a s) Hn H).
    + intros H. apply in_cat_inv in H as (s1 & s2 & E & H1 & H2).
      destruct s1 as [|c s1].
      * rewrite app_Empty in E. subst s2. apply nullable_spec in H1. rewrite H1.
        apply in_alt_r. now apply IH2.
      * rewrite app_String in E. injection E as -> ->.
        apply IH1 in H1. pose proof (in_cat _ _ _ _ H1 H2) as Hc.
        destruct (nullable r1); [now apply in_alt_l | exact Hc].
  - split; intros H.
    + apply in_alt_inv in H as [H|H]; [apply in_alt_l, IH1 | apply in_alt_r, IH2];
        exact H.
    + apply in_alt_inv in H as [H|H]; [apply in_alt_l, IH1 | apply in_alt_r, IH2];
        exact H.
  - split; intros H.
    + apply in_cat_inv in H as (s1 & s2 & -> & H1 & H2).
      apply IH in H1. exact (in_star_app r (String a s1) s2 H1 H2).
    + apply star_cons_inv in H as (s1 & s2 & -> & H1 & H2).
      apply IH in H1. now constructor.
Qed.

(** The matcher decides membership in the language. *)
Lemma matches_spec (s : string) :
  forall r : regex, matches r s = true <-> in_lang r s.
Proof.
  induction s as [|a s IH]; intros r; simpl.
  - apply nullable_spec.
  - rewrite IH. apply deriv_spec.
Qed.

Lemma in_lang_lit (l s : string) : in_lang (lit l) s <-> s = l.
Proof.
  revert s. induction l as [|c l IH]; intros s; simpl.
  - split; [apply in_eps_inv | intros ->; constructor].
  - split.
    + intros H. apply in_cat_inv in H as (s1 & s2 & -> & H1 & H2).
      apply in_class_inv in H1 as (d & -> & Hd).
      unfold ascii_eqb in Hd. apply Ascii.eqb_eq in Hd. subst d.
      apply IH in H2. now subst s2.
    + intros ->. apply (in_cat (chr c) (lit l) (String c "") l).
      * constructor. unfold ascii_eqb. apply Ascii.eqb_refl.
      * now apply IH.
Qed.

Lemma in_lang_star_class (p : ascii -> bool) (s : string) :
  in_lang (Star (Class p)) s <-> all_chars p s = true.
Proof.
  split.
  - intros H. remember (Star (Class p)) as R eqn:ER.
    induction H as [| | | | | |r s1 s2 H1 _ H2 IH2]; try discriminate.
    + reflexivity.
    + injection ER as ->. apply in_class_inv in H1 as (c & -> & Hc).
      rewrite app_String, app_Empty. simpl.
      rewrite IH2 by reflexivity. now rewrite Hc.
  - induction s as [|c s IH]; simpl; [constructor|].
    intros H. apply andb_true_iff in H as [Hc Hs].
    apply (in_star_app (Class p) (String c "") s); [now constructor | auto].
Qed.

Lemma in_lang_anything (s : string) : in_lang anything s.
Proof.
  apply in_lang_star_class. induction s; simpl; [reflexivity | assumption].
Qed.

(** [/^[class]+$/] accepts the non-empty strings over the class. *)
Lemma test_plus_class (p : ascii -> bool) (s : string) :
  test (Anchored (plus (Class p))) s = negb (String.eqb s "") && all_chars p s.
Proof.
  apply eq_true_iff_eq. unfold test, plus. rewrite matches_spec. split.
  - intros H. apply in_cat_inv in H as (s1 & s2 & -> & H1 & H2).
    apply in_class_inv in H1 as (c & -> & Hc). apply in_lang_star_class in H2.
    rewrite app_String, app_Empty. simpl. now rewrite Hc, H2.
  - destruct s as [|c s]; simpl; [discriminate|].
    intros H. apply andb_true_iff in H as [Hc Hs].
    apply (in_cat (Class p) (Star (Class p)) (String c "") s);
      [now constructor | now apply in_lang_star_class].
Qed.

(** An unanchored literal pattern looks for a substring. *)
Lemma test_search_lit (l s : string) :
  test (Search (lit l)) s = true <-> is_substring l s.
Proof.
  unfold test, is_substring. rewrite matches_spec. split.
  - intros H. apply in_cat_inv in H as (s1 & s23 & -> & H1 & H23).
    apply in_cat_inv in H23 as (s2 & s3 & -> & H2 & H3).
    apply in_lang_lit in H2. subst s2. eauto.
  - intros (pre & post & ->).
    apply in_cat; [apply in_lang_anything|].
    apply in_cat; [now apply in_lang_lit | apply in_lang_anything].
Qed.

Lemma startsWith_spec (p s : string) :
  startsWith p s = true <-> exists post, s = (p ++ post)%string.
Proof.
  revert s. induction p as [|a p IH]; intros s; simpl.
  - split; [intros _; now exists s | reflexivity].
  - destruct s as [|b s].
    + split; [discriminate | intros (post & E); discriminate].
    + rewrite andb_true_iff, IH. unfold ascii_eqb. rewrite Ascii.eqb_eq. split.
      * intros (-> & post & ->). now exists post.
      * intros (post & E). rewrite app_String in E. injection E as -> ->. eauto.
Qed.

(** [s.includes(p)] is the substring relation. *)
Lemma includes_spec (s p : string) : includes s p = true <-> is_substring p s.
Proof.
  unfold is_substring. induction s as [|c s IH].
  - simpl. rewrite orb_false_r, startsWith_spec. split.
    + intros (post & E). now exists "", post.
    + intros (pre & post & E). symmetry in E.
      apply app_eq_empty in E as [_ E]. eauto.
  - cbn [includes]. rewrite orb_true_iff, startsWith_spec, IH. split.
    + intros [(post & E)|(pre & post & E)].
      * now exists "", post.
      * exists (String c pre), post. now rewrite app_String, <- E.
    + intros (pre & post & E). destruct pre as [|d pre].
      * left. now exists post.
      * right. rewrite app_String in E. injection E as -> E. eauto.
Qed.

Lemma test_search_includes (l s : string) : test (Search (lit l)) s = includes s l.
Proof. apply eq_true_iff_eq. now rewrite test_search_lit, includes_spec. Qed.

Lemma includes_false (s p : string) : includes s p = false <-> ~ is_substring p s.
Proof. now rewrite <- includes_spec, not_true_iff_false. Qed.

Lemma existsb_includes_false (u : string) (l : list string) :
  existsb (includes u) l = false <-> forall k, k ∈ l -> ~ is_substring k u.
Proof.
  induction l as [|x l IH]; simpl.
  - split; [intros _ k Hk; now apply elem_of_nil in Hk | reflexivity].
  - rewrite orb_false_iff, IH, includes_false. split.
    + intros [Hx Hl] k Hk. apply elem_of_cons in Hk as [->|Hk]; [exact Hx | now apply Hl].
    + intros H. split.
      * apply H, list_elem_of_here.
      * intros k Hk. now apply H, list_elem_of_further.
Qed.

Lemma substring_contains_char (c : ascii) (t s : string) :
  is_substring (String c t) s -> contains_char c s = true.
Proof.
  intros (pre & post & ->). rewrite contains_char_app, app_String. simpl.
  unfold ascii_eqb. rewrite Ascii.eqb_refl. apply orb_true_r.
Qed.

Lemma all_chars_contains (p : ascii -> bool) (c : ascii) (s : string) :
  p c = false -> all_chars p s = true -> contains_char c s = false.
Proof.
  intros Hc. induction s as [|d s IH]; simpl; [reflexivity|].
  intros H. apply andb_true_iff in H as [Hd Hs]. rewrite (IH Hs), orb_false_r.
  unfold ascii_eqb. destruct (Ascii.eqb_spec c d) as [->|]; [congruence | reflexivity].
Qed.

(** A string over a class without [c] has no substring that starts with [c]. *)
Lemma all_chars_excludes (p : ascii -> bool) (c : ascii) (t s : string) :
  p c = false -> all_chars p s = true -> includes s (String c t) = false.
Proof.
  intros Hc Hs. apply includes_false. intros Hsub.
  apply substring_contains_char in Hsub.
  now rewrite (all_chars_contains p c s Hc Hs) in Hsub.
Qed.

Lemma all_chars_no_ws (p : ascii -> bool) (s : string) :
  (forall c, p c = true -> is_whitespace c = false) ->
  all_chars p s = true -> no_whitespace s = true.
Proof.
  intros Hp. induction s as [|c s IH]; simpl; [reflexivity|].
  intros H. apply andb_true_iff in H as [Hc Hs]. now rewrite (Hp c Hc), IH.
Qed.

Lemma trim_no_ws (s : string) : no_whitespace s = true -> trim s = s.
Proof.
  intros H. destruct s as [|c s]; [reflexivity|].
  pose proof (trim_variant "" (String c s) "" eq_refl eq_refl H) as E.
  rewrite app_Empty, string_app_nil_r in E. apply E. discriminate.
Qed.

Lemma filePath_allowed_not_ws (c : ascii) :
  Validation.filePath_allowed c = true -> is_whitespace c = false.
Proof. each_ascii c; intros H; (reflexivity || discriminate H). Qed.

Lemma username_allowed_filePath (c : ascii) :
  Validation.USERNAME_RULES.allowed c = true -> Validation.filePath_allowed c = true.
Proof. each_ascii c; intros H; (reflexivity || discriminate H). Qed.

Lemma uuid_allowed_username (c : ascii) :
  Validation.UUID_RULES.allowed c = true -> Validation.USERNAME_RULES.allowed c = true.
Proof. each_ascii c; intros H; (reflexivity || discriminate H). Qed.

Lemma apiKey_allowed_username (c : ascii) :
  Validation.apiKey_allowed c = true -> Validation.USERNAME_RULES.allowed c = true.
Proof. each_ascii c; intros H; (reflexivity || discriminate H). Qed.

Lemma all_chars_weaken (p q : ascii -> bool) (s : string) :
  (forall c, p c = true -> q c = true) -> all_chars p s = true -> all_chars q s = true.
Proof.
  intros Hpq. induction s as [|c s IH]; simpl; [reflexivity|].
  intros H. apply andb_true_iff in H as [Hc Hs]. now rewrite (Hpq c Hc), IH.
Qed.

Lemma username_chars_trim (u : string) :
  all_chars Validation.USERNAME_RULES.allowed u = true -> trim u = u.
Proof.
  intros H. apply trim_no_ws, (all_chars_no_ws Validation.filePath_allowed).
  - apply filePath_allowed_not_ws.
  - revert H. apply all_chars_weaken, username_allowed_filePath.
Qed.

(** ** The validators of single values *)

Lemma validateUsername_iff (s u : string) :
  Validation.validateUsername (JStr s) = Ok u <->
  u = trim s
  /\ 1 <= String.length u <= 100
  /\ all_chars Validation.USERNAME_RULES.allowed u = true
  /\ ~ is_substring ".." u
  /\ (forall k, k ∈ Validation.USERNAME_RULES.blacklist ->
                ~ is_substring k (toUpperCase u)).
Proof.
  unfold Validation.validateUsername, JS.falsy, JS.truthy, Validation.fail.
  unfold Validation.USERNAME_RULES.pattern, Validation.USERNAME_RULES.pathTraversal,
    Validation.USERNAME_RULES.minLength, Validation.USERNAME_RULES.maxLength.
  rewrite test_plus_class, test_search_includes.
  destruct (String.eqb_spec s "") as [->|Hs]; cbn [negb].
  { split; [discriminate|]. intros (-> & [H _] & _). simpl in H. lia. }
  destruct (Nat.ltb_spec (String.length (trim s)) 1) as [H1|H1].
  { split; [discriminate | intros (-> & ? & _); lia]. }
  destruct (Nat.ltb_spec 100 (String.length (trim s))) as [H2|H2].
  { split; [discriminate | intros (-> & ? & _); lia]. }
  destruct (String.eqb_spec (trim s) "") as [E|E].
  { rewrite E in H1. simpl in H1. lia. }
  cbn [negb andb].
  destruct (all_chars _ (trim s)) eqn:H3; cbn [negb].
  2:{ split; [discriminate | intros (-> & _ & ? & _); congruence]. }
  destruct (includes (trim s) "..") eqn:H4.
  { split; [discriminate|]. intros (-> & _ & _ & H & _).
    apply includes_spec in H4. contradiction. }
  destruct (existsb _ _) eqn:H5.
  { split; [discriminate|]. intros (-> & _ & _ & _ & H).
    apply existsb_includes_false in H. congruence. }
  split.
  - intros [= <-]. split_and!; try done.
    + now apply includes_false.
    + now apply existsb_includes_false.
  - now intros (-> & _).
Qed.

Lemma validateUUID_iff (s u : string) :
  Validation.validateUUID (JStr s) = Ok u <->
  u = trim s
  /\ 5 <= String.length u <= 50
  /\ all_chars Validation.UUID_RULES.allowed u = true.
Proof.
  unfold Validation.validateUUID, JS.falsy, JS.truthy, Validation.fail.
  unfold Validation.UUID_RULES.pattern, Validation.USERNAME_RULES.pathTraversal,
    Validation.UUID_RULES.minLength, Validation.UUID_RULES.maxLength.
  rewrite test_plus_class, test_search_includes.
  destruct (String.eqb_spec s "") as [->|Hs]; cbn [negb].
  { split; [discriminate|]. intros (-> & [H _] & _). simpl in H. lia. }
  destruct (Nat.ltb_spec (String.length (trim s)) 5) as [H1|H1]; cbn [orb].
  { split; [discriminate | intros (-> & ? & _); lia]. }
  destruct (Nat.ltb_spec 50 (String.length (trim s))) as [H2|H2].
  { split; [discriminate | intros (-> & ? & _); lia]. }
  destruct (String.eqb_spec (trim s) "") as [E|E].
  { rewrite E in H1. simpl in H1. lia. }
  cbn [negb andb].
  destruct (all_chars _ (trim s)) eqn:H3; cbn [negb].
  2:{ split; [discriminate | intros (-> & _ & ?); congruence]. }
  rewrite (all_chars_excludes Validation.UUID_RULES.allowed "." "." (trim s) eq_refl H3).
  split; [intros [= <-]; split_and!; done | now intros (-> & _)].
Qed.

Lemma validateApiKey_iff (s k : string) (optional : bool) :
  Validation.validateApiKey (JStr s) optional = Ok k <->
  (s = "" /\ optional = true /\ k = "")
  \/ (k = trim s
      /\ 10 <= String.length k <= 200
      /\ all_chars Validation.apiKey_allowed k = true).
Proof.
  unfold Validation.validateApiKey, JS.falsy, JS.truthy, Validation.fail.
  rewrite test_plus_class.
  destruct (String.eqb_spec s "") as [->|Hs]; cbn [negb].
  { destruct optional; split.
    - intros [= <-]. now left.
    - intros [(_ & _ & ->)|(-> & [H _] & _)]; [reflexivity | simpl in H; lia].
    - discriminate.
    - intros [(_ & ? & _)|(-> & [H _] & _)]; [discriminate | simpl in H; lia]. }
  destruct (Nat.ltb_spec (String.length (trim s)) 10) as [H1|H1]; cbn [orb].
  { split; [discriminate | intros [(? & _)|(-> & ? & _)]; [contradiction | lia]]. }
  destruct (Nat.ltb_spec 200 (String.length (trim s))) as [H2|H2].
  { split; [discriminate | intros [(? & _)|(-> & ? & _)]; [contradiction | lia]]. }
  destruct (String.eqb_spec (trim s) "") as [E|E].
  { rewrite E in H1. simpl in H1. lia. }
  cbn [negb andb].
  destruct (all_chars _ (trim s)) eqn:H3; cbn [negb].
  2:{ split; [discriminate|].
      intros [(? & _)|(-> & _ & ?)]; [contradiction | congruence]. }
  split.
  - intros [= <-]. right. split_and!; done.
  - intros [(? & _)|(-> & _)]; [contradiction | reflexivity].
Qed.

Lemma validateFilePath_iff (s p : string) :
  Validation.validateFilePath (JStr s) = Ok p <->
  p = s
  /\ s <> ""
  /\ all_chars Validation.filePath_allowed s = true
  /\ ~ is_substring ".." s.
Proof.
  unfold Validation.validateFilePath, JS.falsy, JS.truthy, JS.is_string, Validation.fail.
  rewrite test_plus_class.
  destruct (String.eqb_spec s "") as [->|Hs]; cbn [negb orb andb].
  { split; [discriminate | now intros (_ & ? & _)]. }
  destruct (includes s "..") eqn:H1; cbn [orb].
  { split; [discriminate|]. intros (_ & _ & _ & H).
    apply includes_spec in H1. contradiction. }
  destruct (all_chars _ s) eqn:H3.
  - rewrite (all_chars_excludes Validation.filePath_allowed "~" "" s eq_refl H3).
    cbn [negb]. split.
    + intros [= <-]. split_and!; try done. now apply includes_false.
    + now intros (-> & _).
  - destruct (includes s "~"); cbn [negb];
      (split; [discriminate | intros (_ & _ & ? & _); congruence]).
Qed.

Lemma validOptions_nonempty (o : string) : o ∈ Validation.validOptions -> o <> "".
Proof.
  unfold Validation.validOptions. rewrite !elem_of_cons, elem_of_nil.
  intros [->|[->|[->|[->|[]]]]]; discriminate.
Qed.

Lemma validateOption_iff (s o : string) :
  Validation.validateOption (JStr s) = Ok o <->
  o = trim s /\ o ∈ Validation.validOptions.
Proof.
  unfold Validation.validateOption, JS.falsy, JS.truthy, Validation.fail.
  destruct (String.eqb_spec s "") as [->|Hs]; cbn [negb].
  { split; [discriminate|]. intros (-> & H). apply validOptions_nonempty in H.
    now contradiction H. }
  destruct (bool_decide_reflect (trim s ∈ Validation.validOptions)) as [H|H]; cbn [negb].
  - split; [now intros [= <-] | now intros (-> & _)].
  - split; [discriminate | intros (-> & ?); contradiction].
Qed.

Lemma validOptions_no_ws (o : string) :
  o ∈ Validation.validOptions -> no_whitespace o = true.
Proof.
  unfold Validation.validOptions. rewrite !elem_of_cons, elem_of_nil.
  intros [->|[->|[->|[->|[]]]]]; reflexivity.
Qed.

(** A word in lower case is its own lower-case form. *)
Lemma toLowerCase_lower_word (m : string) : lower_word m = true -> toLowerCase m = m.
Proof.
  intros H. apply toLowerCase_word; [exact H|].
  induction m as [|d m IH]; simpl in *; [reflexivity|].
  apply andb_true_iff in H as [Hd Hm]. rewrite (IH Hm), andb_true_r.
  unfold letter_variant, ascii_eqb. now rewrite Ascii.eqb_refl.
Qed.

Lemma lower_word_no_ws (m : string) : lower_word m = true -> no_whitespace m = true.
Proof.
  intros H. apply (same_up_to_case_no_ws m m H).
  apply toLowerCase_word; [exact H | now apply toLowerCase_lower_word].
Qed.

Lemma validLevels_words (m : string) :
  m ∈ Validation.validLevels -> lower_word m = true /\ m <> "".
Proof.
  unfold Validation.validLevels. rewrite !elem_of_cons, elem_of_nil.
  intros [->|[->|[->|[->|[]]]]]; split; (reflexivity || discriminate).
Qed.

Lemma validateMode_string (s m : string) :
  Validation.validateMode (JStr s) = Ok m ->
  m ∈ Validation.validModes
  /\ ((s = "" /\ m = "fast") \/ m = toLowerCase (trim s)).
Proof.
  unfold Validation.validateMode, JS.falsy, JS.truthy, Validation.fail.
  destruct (String.eqb_spec s "") as [->|Hs]; cbn [negb].
  { intros [= <-]. split; [apply list_elem_of_here | now left]. }
  destruct (bool_decide_reflect (toLowerCase (trim s) ∈ Validation.validModes)) as [H|H];
    cbn [negb]; [|discriminate].
  intros [= <-]. split; [exact H | now right].
Qed.

Lemma validateDetectionLevel_string (s l : string) :
  Validation.validateDetectionLevel (JStr s) = Ok l ->
  l ∈ Validation.validLevels
  /\ ((s = "" /\ l = "high") \/ l = toLowerCase (trim s)).
Proof.
  unfold Validation.validateDetectionLevel, JS.falsy, JS.truthy, Validation.fail.
  destruct (String.eqb_spec s "") as [->|Hs]; cbn [negb].
  { intros [= <-]. split; [apply list_elem_of_further, list_elem_of_here | now left]. }
  destruct (bool_decide_reflect (toLowerCase (trim s) ∈ Validation.validLevels)) as [H|H];
    cbn [negb]; [|discriminate].
  intros [= <-]. split; [exact H | now right].
Qed.

(** A word of the list is accepted as it is. *)
Lemma validateMode_word (m : string) :
  m ∈ Validation.validModes -> Validation.validateMode (JStr m) = Ok m.
Proof.
  intros Hm. destruct (validModes_words m Hm) as [Hw Hne].
  unfold Validation.validateMode, JS.falsy, JS.truthy.
  destruct (String.eqb_spec m "") as [|_]; [contradiction|]. cbn [negb].
  rewrite (trim_no_ws m) by now apply lower_word_no_ws.
  rewrite (toLowerCase_lower_word m Hw).
  now rewrite bool_decide_eq_true_2.
Qed.

Lemma validateDetectionLevel_word (l : string) :
  l ∈ Validation.validLevels -> Validation.validateDetectionLevel (JStr l) = Ok l.
Proof.
  intros Hl. destruct (validLevels_words l Hl) as [Hw Hne].
  unfold Validation.validateDetectionLevel, JS.falsy, JS.truthy.
  destruct (String.eqb_spec l "") as [|_]; [contradiction|]. cbn [negb].
  rewrite (trim_no_ws l) by now apply lower_word_no_ws.
  rewrite (toLowerCase_lower_word l Hw).
  now rewrite bool_decide_eq_true_2.
Qed.

(** Only strings pass the validators that have no default. *)
Lemma validateUsername_is_string (v : jsval) (u : string) :
  Validation.validateUsername v = Ok u -> exists s, v = JStr s.
Proof.
  intros H. destruct v as [| |b|n|s|f]; eauto; exfalso; revert H;
    unfold Validation.validateUsername; destruct (JS.falsy _); discriminate.
Qed.

(** X1. [validateUsername] accepts exactly the strings whose trimmed text
    has between 1 and 100 characters, all of them letters, digits, dots,
    underscores or hyphens, without two dots in a row and without a
    blocked keyword in its upper-case form; the value returned is the
    trimmed text.  Nothing that is not a string is accepted. *)
Theorem validateUsername_accepted (v : jsval) (u : string) :
  Validation.validateUsername v = Ok u <->
  exists s : string,
    v = JStr s
    /\ u = trim s
    /\ 1 <= String.length u <= 100
    /\ all_chars Validation.USERNAME_RULES.allowed u = true
    /\ ~ is_substring ".." u
    /\ (forall k, k ∈ Validation.USERNAME_RULES.blacklist ->
                  ~ is_substring k (toUpperCase u)).
Proof.
  split.
  - intros H. destruct (validateUsername_is_string v u H) as [s ->].
    exists s. split; [reflexivity|]. now apply validateUsername_iff.
  - intros (s & -> & H). now apply validateUsername_iff.
Qed.

(** X2. [validateUUID] accepts exactly the strings whose trimmed text has
    between 5 and 50 characters, all of them letters, digits or hyphens,
    and returns the trimmed text.  Its last check never decides: a text
    that passes the character pattern has no two dots in a row. *)
Theorem validateUUID_accepted :
  (forall (v : jsval) (u : string),
     Validation.validateUUID v = Ok u <->
     exists s : string,
       v = JStr s
       /\ u = trim s
       /\ 5 <= String.length u <= 50
       /\ all_chars Validation.UUID_RULES.allowed u = true)
  /\ (forall u : string,
        test Validation.UUID_RULES.pattern u = true ->
        test Validation.USERNAME_RULES.pathTraversal u = false).
Proof.
  split.
  - intros v u. split.
    + intros H.
      assert (Hs : exists s, v = JStr s).
      { destruct v as [| |b|n|s|f]; eauto; exfalso; revert H;
          unfold Validation.validateUUID; destruct (JS.falsy _); discriminate. }
      destruct Hs as [s ->]. exists s. split; [reflexivity|].
      now apply validateUUID_iff.
    + intros (s & -> & H). now apply validateUUID_iff.
  - intros u. unfold Validation.UUID_RULES.pattern, Validation.USERNAME_RULES.pathTraversal.
    rewrite test_plus_class, test_search_includes.
    intros H. apply andb_true_iff in H as [_ H].
    exact (all_chars_excludes Validation.UUID_RULES.allowed "." "." u eq_refl H).
Qed.

(** X3. [validateApiKey] accepts a string when its trimmed text has between
    10 and 200 characters, all of them letters, digits, underscores or
    hyphens, and returns the trimmed text; the empty string is accepted,
    as the empty string, when the key is optional.  Nothing else is
    accepted: a key of spaces only is refused also when it is optional. *)
Theorem validateApiKey_accepted (s k : string) (optional : bool) :
  Validation.validateApiKey (JStr s) optional = Ok k <->
  (s = "" /\ optional = true /\ k = "")
  \/ (k = trim s
      /\ 10 <= String.length k <= 200
      /\ all_chars Validation.apiKey_allowed k = true).
Proof. apply validateApiKey_iff. Qed.

(** X4. [validateFilePath] accepts exactly the non-empty strings over
    letters, digits, dots, underscores, slashes and hyphens that have no
    two dots in a row, and returns them unchanged (they are not trimmed).
    The check for a tilde changes the message only: a path with a tilde
    does not pass the character pattern. *)
Theorem validateFilePath_accepted :
  (forall (v : jsval) (p : string),
     Validation.validateFilePath v = Ok p <->
     v = JStr p
     /\ p <> ""
     /\ all_chars Validation.filePath_allowed p = true
     /\ ~ is_substring ".." p)
  /\ (forall s : string,
        includes s "~" = true ->
        test (Anchored (plus (Class Validation.filePath_allowed))) s = false).
Proof.
  split.
  - intros v p. split.
    + intros H.
      assert (Hs : exists s, v = JStr s).
      { destruct v as [| |b|n|s|f]; eauto; exfalso; revert H;
          unfold Validation.validateFilePath, JS.is_string; cbn [negb];
          rewrite ?orb_true_r; discriminate. }
      destruct Hs as [s ->]. apply validateFilePath_iff in H as (-> & H).
      now split.
    + intros (-> & H). now apply validateFilePath_iff.
  - intros s H. rewrite test_plus_class.
    destruct (all_chars Validation.filePath_allowed s) eqn:E;
      [|apply andb_false_r].
    now rewrite (all_chars_excludes Validation.filePath_allowed "~" "" s eq_refl E) in H.
Qed.

Lemma validateUsername_fixed (v : jsval) (u : string) :
  Validation.validateUsername v = Ok u -> Validation.validateUsername (JStr u) = Ok u.
Proof.
  intros H. destruct (validateUsername_is_string v u H) as [s ->].
  apply validateUsername_iff in H as (_ & H2 & H3 & H4 & H5).
  apply validateUsername_iff. rewrite (username_chars_trim u H3).
  split; [reflexivity | tauto].
Qed.

Lemma validateUUID_is_string (v : jsval) (u : string) :
  Validation.validateUUID v = Ok u -> exists s, v = JStr s.
Proof.
  intros H. destruct v as [| |b|n|s|f]; eauto; exfalso; revert H;
    unfold Validation.validateUUID; destruct (JS.falsy _); discriminate.
Qed.

(** X5. What a validator returns, it accepts and returns again: the
    validators of usernames, identifiers, API keys, file paths, options,
    modes and detection levels are idempotent on their results. *)
Theorem validators_accept_their_results :
  (forall v u, Validation.validateUsername v = Ok u ->
               Validation.validateUsername (JStr u) = Ok u)
  /\ (forall v u, Validation.validateUUID v = Ok u ->
                  Validation.validateUUID (JStr u) = Ok u)
  /\ (forall s k optional,
        Validation.validateApiKey (JStr s) optional = Ok k ->
        Validation.validateApiKey (JStr k) optional = Ok k)
  /\ (forall v p, Validation.validateFilePath v = Ok p ->
                  Validation.validateFilePath (JStr p) = Ok p)
  /\ (forall s o, Validation.validateOption (JStr s) = Ok o ->
                  Validation.validateOption (JStr o) = Ok o)
  /\ (forall s m, Validation.validateMode (JStr s) = Ok m ->
                  Validation.validateMode (JStr m) = Ok m)
  /\ (forall s l, Validation.validateDetectionLevel (JStr s) = Ok l ->
                  Validation.validateDetectionLevel (JStr l) = Ok l).
Proof.
  split_and!.
  - exact validateUsername_fixed.
  - intros v u H. destruct (validateUUID_is_string v u H) as [s ->].
    apply validateUUID_iff in H as (_ & H2 & H3). apply validateUUID_iff.
    rewrite (username_chars_trim u)
      by (revert H3; apply all_chars_weaken, uuid_allowed_username).
    split; [reflexivity | tauto].
  - intros s k optional H. apply validateApiKey_iff in H as [(_ & -> & ->)|(_ & H2 & H3)].
    + reflexivity.
    + apply validateApiKey_iff. right.
      rewrite (username_chars_trim k)
        by (revert H3; apply all_chars_weaken, apiKey_allowed_username).
      split; [reflexivity | tauto].
  - intros v p H.
    assert (Hs : exists s, v = JStr s).
    { destruct v as [| |b|n|s|f]; eauto; exfalso; revert H;
        unfold Validation.validateFilePath, JS.is_string; cbn [negb];
        rewrite ?orb_true_r; discriminate. }
    destruct Hs as [s ->]. apply validateFilePath_iff in H as (-> & H).
    now apply validateFilePath_iff.
  - intros s o H. apply validateOption_iff in H as (_ & H).
    apply validateOption_iff. split; [|exact H].
    symmetry. now apply trim_no_ws, validOptions_no_ws.
  - intros s m H. apply validateMode_string in H as [H _].
    now apply validateMode_word.
  - intros s l H. apply validateDetectionLevel_string in H as [H _].
    now apply validateDetectionLevel_word.
Qed.

(** The theorem at a username, an identifier, a key, a path, an option, a
    mode and a level that need trimming or lower case. *)
Lemma validators_accept_their_results_witness :
  Validation.validateUsername (JStr "john.doe") = Ok "john.doe"
  /\ Validation.validateUUID (JStr "123e4567-e89b") = Ok "123e4567-e89b"
  /\ Validation.validateApiKey (JStr "AIzaSyA-0123456789") false = Ok "AIzaSyA-0123456789"
  /\ Validation.validateFilePath (JStr "data/sites.json") = Ok "data/sites.json"
  /\ Validation.validateOption (JStr "ShowUserInfo") = Ok "ShowUserInfo"
  /\ Validation.validateMode (JStr "slow") = Ok "slow"
  /\ Validation.validateDetectionLevel (JStr "low") = Ok "low".
Proof.
  destruct validators_accept_their_results as (H1 & H2 & H3 & H4 & H5 & H6 & H7).
  split_and!.
  - apply (H1 (JStr "  john.doe ")). vm_compute. reflexivity.
  - apply (H2 (JStr " 123e4567-e89b")). vm_compute. reflexivity.
  - apply (H3 "AIzaSyA-0123456789  "). vm_compute. reflexivity.
  - apply (H4 (JStr "data/sites.json")). vm_compute. reflexivity.
  - apply (H5 " ShowUserInfo "). vm_compute. reflexivity.
  - apply (H6 " SLOW "). vm_compute. reflexivity.
  - apply (H7 "Low "). vm_compute. reflexivity.
Defined.

(** ** validateUserAgent *)

Lemma replace_class_empty_clean (p : ascii -> bool) (s : string) :
  all_chars (fun c => negb (p c)) (replace_class p "" s) = true.
Proof.
  induction s as [|c s IH]; simpl; [reflexivity|].
  destruct (p c) eqn:Hc; unfold_app; [exact IH|].
  simpl. now rewrite Hc, IH.
Qed.


Lemma replace_class_empty_all (p : ascii -> bool) (s : string) :
  all_chars p s = true -> replace_class p "" s = "".
Proof.
  induction s as [|c s IH]; simpl; [reflexivity|].
  intros H. apply andb_true_iff in H as [Hc Hs]. rewrite Hc, app_Empty. auto.
Qed.

Lemma replace_class_empty_none (p : ascii -> bool) (s : string) :
  all_chars (fun c => negb (p c)) s = true -> replace_class p "" s = s.
Proof.
  induction s as [|c s IH]; simpl; [reflexivity|].
  intros H. apply andb_true_iff in H as [Hc Hs].
  apply negb_true_iff in Hc. rewrite Hc. unfold_app. now rewrite IH.
Qed.

Lemma no_whitespace_app (a b : string) :
  no_whitespace (a ++ b) = no_whitespace a && no_whitespace b.
Proof.
  induction a as [|c a IH]; unfold_app; simpl; [reflexivity|].
  now rewrite IH, andb_assoc.
Qed.



(** X7. The length of a user agent is checked before its control
    characters are removed, so the lower bound of ten characters is not a
    property of the result: any text [t] without control characters and
    without white space is what [validateUserAgent] returns for [t]
    preceded by ten or more control characters that are not white space.
    For the empty [t] the result is the empty string, for which the
    validator returns the default agent. *)
Theorem validateUserAgent_short_result (pad t : string) :
  all_chars (fun c => Validation.is_ascii_control c && negb (is_whitespace c)) pad = true ->
  10 <= String.length pad ->
  String.length pad + String.length t <= 500 ->
  all_chars (fun c => negb (Validation.is_ascii_control c)) t = true ->
  no_whitespace t = true ->
  Validation.validateUserAgent (JStr (pad ++ t)) = Ok t
  /\ Validation.validateUserAgent (JStr "") = Ok Validation.default_userAgent.
Proof.
  intros Hpad Hlen Hmax Ht Hws. split; [|reflexivity].
  assert (Hpc : all_chars Validation.is_ascii_control pad = true).
  { revert Hpad. apply all_chars_weaken. intros c H.
    now apply andb_true_iff in H as [H _]. }
  assert (Hpw : no_whitespace pad = true).
  { revert Hpad. apply all_chars_no_ws. intros c H.
    apply andb_true_iff in H as [_ H]. now apply negb_true_iff in H. }
  unfold Validation.validateUserAgent, JS.falsy, JS.truthy.
  destruct (String.eqb_spec (pad ++ t) "") as [E|_].
  { apply (f_equal String.length) in E. rewrite length_app in E. simpl in E. lia. }
  cbn [negb].
  rewrite trim_no_ws by (now rewrite no_whitespace_app, Hpw, Hws).
  rewrite length_app.
  destruct (Nat.ltb_spec (String.length pad + String.length t) 10); [lia|].
  destruct (Nat.ltb_spec 500 (String.length pad + String.length t)); [lia|].
  cbn [orb]. rewrite replace_class_app, replace_class_empty_all by exact Hpc.
  now rewrite app_Empty, replace_class_empty_none.
Qed.

(** The theorem at ten escape characters, alone and before a short name. *)
Lemma validateUserAgent_short_result_witness :
  (Validation.validateUserAgent (JStr (repeat_char (ascii_of_nat 27) 10 ++ "bot")) = Ok "bot"
   /\ Validation.validateUserAgent (JStr "") = Ok Validation.default_userAgent)
  /\ (Validation.validateUserAgent (JStr (repeat_char (ascii_of_nat 27) 10 ++ "")) = Ok ""
      /\ Validation.validateUserAgent (JStr "") = Ok Validation.default_userAgent).
Proof.
  split.
  - apply (validateUserAgent_short_result (repeat_char (ascii_of_nat 27) 10) "bot");
      (reflexivity || (vm_compute; lia)).
  - apply (validateUserAgent_short_result (repeat_char (ascii_of_nat 27) 10) "");
      (reflexivity || (vm_compute; lia)).
Defined.

(** ** escapeRegex *)

Lemma unescape_escape_class (s : string) :
  unescape (Validation.escape_class Validation.is_regex_meta s) = s.
Proof.
  induction s as [|c s IH]; [reflexivity|].
  cbn [Validation.escape_class].
  destruct (Validation.is_regex_meta c) eqn:Hc.
  - cbn [unescape]. unfold ascii_eqb at 1. rewrite Ascii.eqb_refl. now rewrite IH.
  - cbn [unescape]. destruct (ascii_eqb c "\") eqn:E.
    + unfold ascii_eqb in E. apply Ascii.eqb_eq in E. subst c. discriminate Hc.
    + now rewrite IH.
Qed.

(** X8. [escapeRegex] puts a backslash before every character that is
    special in a pattern and before no other character, so that dropping
    each backslash together with keeping the character after it gives the
    text back; two texts with the same escaped form are the same.
    Anything that is not a string becomes the empty string. *)
Theorem escapeRegex_unescape :
  (forall s : string, unescape (Validation.escapeRegex (JStr s)) = s)
  /\ (forall s t : string,
        Validation.escapeRegex (JStr s) = Validation.escapeRegex (JStr t) -> s = t)
  /\ (forall v : jsval, JS.is_string v = false -> Validation.escapeRegex v = "").
Proof.
  assert (R : forall s, unescape (Validation.escapeRegex (JStr s)) = s).
  { intros s. unfold Validation.escapeRegex, JS.falsy, JS.truthy, JS.is_string.
    destruct (String.eqb_spec s "") as [->|_]; [reflexivity|].
    cbn [negb orb]. apply unescape_escape_class. }
  split_and!.
  - exact R.
  - intros s t E. rewrite <- (R s), <- (R t). now rewrite E.
  - intros v Hv. unfold Validation.escapeRegex. rewrite Hv. cbn [negb].
    now rewrite orb_true_r.
Qed.

(** The theorem at two texts with special characters. *)
Lemma escapeRegex_unescape_witness :
  unescape (Validation.escapeRegex (JStr "a.b*(c)\d")) = "a.b*(c)\d"
  /\ "a+b" = "a+b"
  /\ Validation.escapeRegex JNull = "".
Proof.
  destruct escapeRegex_unescape as (H1 & H2 & H3). split_and!.
  - apply H1.
  - apply H2. reflexivity.
  - apply H3. reflexivity.
Defined.

(** ** validateDetectionLevel *)

(** X9. [validateDetectionLevel] returns the default [high] on every
    falsy input.  A string that differs from one of [extreme], [high],
    [normal], [low] in the case of its letters or in surrounding white
    space only is accepted and that level is returned in lower case.
    Every other non-empty string is refused with the validation failure
    that lists the levels. *)
Theorem validateDetectionLevel_default_variants_and_failure :
  (forall v : jsval,
     JS.truthy v = false -> Validation.validateDetectionLevel v = Ok "high")
  /\ (forall l s : string,
        l ∈ Validation.validLevels -> mode_variant l s ->
        Validation.validateDetectionLevel (JStr s) = Ok l)
  /\ (forall s : string,
        s <> "" ->
        (forall l, l ∈ Validation.validLevels -> ~ mode_variant l s) ->
        Validation.validateDetectionLevel (JStr s)
        = Throw (Validation.new_ValidationError "detectionLevel"
                   "Detection level must be one of: extreme, high, normal, low")).
Proof.
  split_and!.
  - intros v Hv. unfold Validation.validateDetectionLevel, JS.falsy. now rewrite Hv.
  - intros m s Hm (pre & b & post & -> & Hpre & Hpost & Hb).
    destruct (validLevels_words m Hm) as [Hw Hne].
    assert (Hnb : b <> "") by (eapply same_up_to_case_nonempty; eauto).
    assert (Hnw : no_whitespace b = true)
      by (eapply same_up_to_case_no_ws; eauto).
    unfold Validation.validateDetectionLevel, JS.falsy, JS.truthy.
    destruct (String.eqb_spec (pre ++ b ++ post) "") as [E|_].
    + exfalso. apply (f_equal trim) in E.
      rewrite trim_variant in E by assumption. now subst b.
    + simpl negb at 1. cbv iota.
      rewrite trim_variant by assumption.
      apply (toLowerCase_word b m Hw) in Hb. rewrite Hb.
      now rewrite bool_decide_eq_true_2.
  - intros s Hne Hnone.
    unfold Validation.validateDetectionLevel, JS.falsy, JS.truthy.
    destruct (String.eqb_spec s "") as [|_]; [contradiction|]. simpl negb at 1.
    cbv iota.
    destruct (bool_decide_reflect (toLowerCase (trim s) ∈ Validation.validLevels))
      as [Hin|Hout]; [|reflexivity].
    exfalso. apply (Hnone _ Hin).
    destruct (trim_split s) as (pre & post & E & W1 & W2).
    exists pre, (trim s), post. repeat split; try assumption.
    apply toLowerCase_word; [|reflexivity].
    now apply validLevels_words.
Qed.

(** The theorem at [undefined], at [ Extreme] and at [medium]. *)
Lemma validateDetectionLevel_default_variants_and_failure_witness :
  Validation.validateDetectionLevel JUndefined = Ok "high"
  /\ Validation.validateDetectionLevel (JStr " Extreme") = Ok "extreme"
  /\ Validation.validateDetectionLevel (JStr "medium")
     = Throw (Validation.new_ValidationError "detectionLevel"
                "Detection level must be one of: extreme, high, normal, low").
Proof.
  destruct validateDetectionLevel_default_variants_and_failure as (H1 & H2 & H3).
  split_and!.
  - apply H1. reflexivity.
  - apply H2.
    + unfold Validation.validLevels. apply elem_of_cons. now left.
    + exists " ", "Extreme", "". repeat split; reflexivity.
  - apply H3; [discriminate|].
    intros m Hm (pre & b & post & E & Hpre & Hpost & Hb).
    destruct (validLevels_words m Hm) as [Hw Hne].
    assert (T : trim "medium" = b).
    { rewrite E. apply trim_variant; try assumption.
      - eapply same_up_to_case_no_ws; eauto.
      - eapply same_up_to_case_nonempty; eauto. }
    apply (toLowerCase_word b m Hw) in Hb. subst b.
    vm_compute in Hb. subst m.
    unfold Validation.validLevels in Hm.
    rewrite !elem_of_cons, elem_of_nil in Hm.
    destruct Hm as [?|[?|[?|[?|[]]]]]; discriminate.
Defined.

(** ** validateUsernames *)

Lemma trimEnd_cons (c : ascii) (s : string) :
  trimEnd (String c s)
  = match trimEnd s with
    | "" => if is_whitespace c then "" else String c ""
    | t => String c t
    end.
Proof. reflexivity. Qed.

Lemma trimEnd_idem (s : string) : trimEnd (trimEnd s) = trimEnd s.
Proof.
  induction s as [|c s IH]; [reflexivity|].
  rewrite trimEnd_cons. destruct (trimEnd s) as [|d t] eqn:E.
  - destruct (is_whitespace c) eqn:Hc; [reflexivity|].
    rewrite trimEnd_cons. cbn [trimEnd]. now rewrite Hc.
  - rewrite trimEnd_cons, IH. reflexivity.
Qed.

Lemma trimStart_head (s : string) :
  trimStart s = ""
  \/ exists c t, trimStart s = String c t /\ is_whitespace c = false.
Proof.
  induction s as [|c s IH]; simpl; [now left|].
  destruct (is_whitespace c) eqn:Hc; [exact IH | right; eauto].
Qed.

Lemma trim_idem (s : string) : trim (trim s) = trim s.
Proof.
  unfold trim at 2 3. destruct (trimStart_head s) as [->|(c & t & -> & Hc)];
    [reflexivity|].
  assert (H : exists t', trimEnd (String c t) = String c t').
  { rewrite trimEnd_cons. destruct (trimEnd t); rewrite ?Hc; eauto. }
  destruct H as [t' E]. unfold trim. rewrite E. cbn [trimStart]. rewrite Hc.
  rewrite <- E. apply trimEnd_idem.
Qed.

Lemma usernameList_of_trimmed (s : string) :
  Forall (fun u => trim u = u) (Validation.usernameList_of s).
Proof.
  apply Forall_forall. intros u Hu. unfold Validation.usernameList_of in Hu.
  apply list_elem_of_In, filter_In in Hu as [Hu _].
  apply list_elem_of_In, list_elem_of_fmap in Hu as (x & -> & _).
  apply trim_idem.
Qed.

Lemma validate_each_Ok (l : list string) :
  forall (k : nat) (vs : list string),
    Forall (fun u => trim u = u) l ->
    Validation.validate_each l k = Ok vs ->
    vs = l /\ Forall (fun u => Validation.validateUsername (JStr u) = Ok u) l.
Proof.
  induction l as [|u l IH]; intros k vs Ht; simpl.
  - intros [= <-]. split; [reflexivity | constructor].
  - apply Forall_cons in Ht as [Hu Ht].
    destruct (Validation.validateUsername (JStr u)) as [v|e] eqn:Hv; [|discriminate].
    destruct (Validation.validate_each l (S k)) as [ws|e] eqn:Hl; [|discriminate].
    cbn [mbind result_bind]. intros [= <-].
    destruct (IH _ _ Ht Hl) as [-> Hall].
    assert (E : v = u) by (apply validateUsername_iff in Hv as (-> & _); exact Hu).
    subst v. split; [reflexivity | now constructor].
Qed.

Lemma validate_each_valid (l : list string) :
  forall k : nat,
    Forall (fun u => Validation.validateUsername (JStr u) = Ok u) l ->
    Validation.validate_each l k = Ok l.
Proof.
  induction l as [|u l IH]; intros k H; simpl; [reflexivity|].
  apply Forall_cons in H as [Hu Hl]. now rewrite Hu, (IH _ Hl).
Qed.

Lemma validateUsernames_iff (s : string) (vs : list string) :
  Validation.validateUsernames (JStr s) = Ok vs <->
  vs = Validation.usernameList_of s
  /\ 1 <= length vs <= 50
  /\ Forall (fun u => Validation.validateUsername (JStr u) = Ok u) vs.
Proof.
  unfold Validation.validateUsernames, JS.falsy, JS.truthy, Validation.fail.
  destruct (String.eqb_spec s "") as [->|Hs]; cbn [negb].
  { split; [discriminate | intros (-> & H & _); simpl in H; lia]. }
  destruct (Nat.eqb_spec (length (Validation.usernameList_of s)) 0) as [H0|H0].
  { split; [discriminate | intros (-> & H & _); lia]. }
  destruct (Nat.ltb_spec 50 (length (Validation.usernameList_of s))) as [H1|H1].
  { split; [discriminate | intros (-> & H & _); lia]. }
  split.
  - intros H. apply validate_each_Ok in H as [-> Hall];
      [|apply usernameList_of_trimmed].
    split; [reflexivity|]. split; [lia | exact Hall].
  - intros (-> & _ & Hall). now apply validate_each_valid.
Qed.

(** X10. [validateUsernames] accepts a string exactly when the list of its
    trimmed, non-empty segments has between 1 and 50 elements and every
    element is a username that [validateUsername] returns unchanged; the
    value returned is that list. *)
Theorem validateUsernames_accepted (s : string) (vs : list string) :
  Validation.validateUsernames (JStr s) = Ok vs <->
  vs = Validation.usernameList_of s
  /\ 1 <= length vs <= 50
  /\ Forall (fun u => Validation.validateUsername (JStr u) = Ok u) vs.
Proof. apply validateUsernames_iff. Qed.

(** ** validateAnalyzeRequest *)

Lemma lift_Ok {A : Type} (r : result Validation.ValidationError A) (a : A) :
  Validation.lift r = Ok a -> r = Ok a.
Proof. destruct r; simpl; congruence. Qed.

Lemma validateUsernames_is_string (v : jsval) (vs : list string) :
  Validation.validateUsernames v = Ok vs -> exists s, v = JStr s.
Proof.
  intros H. destruct v as [| |b|n|s|f]; eauto; exfalso; revert H;
    unfold Validation.validateUsernames; destruct (JS.falsy _); discriminate.
Qed.

Lemma validateOption_in (v : jsval) (o : string) :
  Validation.validateOption v = Ok o -> o ∈ Validation.validOptions.
Proof.
  intros H. destruct v as [| |b|n|s|f];
    try (exfalso; revert H; unfold Validation.validateOption;
         destruct (JS.falsy _); discriminate).
  now apply validateOption_iff in H as [_ H].
Qed.

Lemma validateMode_in (v : jsval) (m : string) :
  Validation.validateMode v = Ok m -> m ∈ Validation.validModes.
Proof.
  intros H. destruct v as [| |b|n|s|f];
    try (revert H; unfold Validation.validateMode; destruct (JS.falsy _);
         [intros [= <-]; apply list_elem_of_here | discriminate]).
  now apply validateMode_string in H as [H _].
Qed.

(** X11. A request body that [validateAnalyzeRequest] accepts is an object
    whose [uuid] passes [validateUUID]; the names it returns are what
    [validateUsernames] returns for its [string], or the one name that
    [validateUsername] returns for it: one or more usernames, each of
    which [validateUsername] returns unchanged.  An option is returned
    exactly when the body holds a truthy one, and then it is what
    [validateOption] returns for it, one of the valid options; a body
    without a truthy option gets none.  A mode is returned exactly when
    the body holds a truthy one, and then it is what [validateMode]
    returns for it, one of the valid modes; a body without a truthy mode
    gets no mode: the default of [validateMode] is not applied. *)
Theorem validateAnalyzeRequest_accepted
  (body : Validation.json) (r : Validation.analyze_request) :
  Validation.validateAnalyzeRequest body = Ok r ->
  Validation.is_object body = true
  /\ Validation.validateUUID (Validation.body_prop body "uuid")
     = Ok (Validation.req_uuid r)
  /\ Validation.req_string r <> []
  /\ Forall (fun u => Validation.validateUsername (JStr u) = Ok u)
       (Validation.req_string r)
  /\ match Validation.req_option r with
     | Some o => o ∈ Validation.validOptions
     | None => JS.truthy (Validation.body_prop body "option") = false
     end
  /\ match Validation.req_mode r with
     | Some m => m ∈ Validation.validModes
     | None => JS.truthy (Validation.body_prop body "mode") = false
     end
  /\ (Validation.validateUsernames (Validation.body_prop body "string")
      = Ok (Validation.req_string r)
      \/ exists name,
           Validation.validateUsername (Validation.body_prop body "string") = Ok name
           /\ Validation.req_string r = [name])
  /\ (if JS.truthy (Validation.body_prop body "option")
      then exists o,
             Validation.req_option r = Some o
             /\ Validation.validateOption (Validation.body_prop body "option") = Ok o
      else Validation.req_option r = None)
  /\ (if JS.truthy (Validation.body_prop body "mode")
      then exists m,
             Validation.req_mode r = Some m
             /\ Validation.validateMode (Validation.body_prop body "mode") = Ok m
      else Validation.req_mode r = None).
Proof.
  unfold Validation.validateAnalyzeRequest.
  destruct (Validation.is_object body) eqn:Hobj;
    [|rewrite orb_true_r; discriminate].
  destruct (JS.falsy (Validation.to_jsval body)); [discriminate|]. cbn [negb orb].
  destruct (Validation.validateUUID _) as [uuid|e] eqn:Huuid; [|discriminate].
  cbn [Validation.lift mbind result_bind].
  match goal with
  | |- (?x ≫= _) = _ -> _ =>
      destruct x as [several|e] eqn:Hseveral; [|discriminate]
  end.
  cbn [mbind result_bind].
  assert (Hnames : forall names,
    (if several
     then Validation.lift (Validation.validateUsernames (Validation.body_prop body "string"))
     else name ← Validation.lift
                  (Validation.validateUsername (Validation.body_prop body "string"));
          Ok [name]) = Ok names ->
    names <> []
    /\ Forall (fun u => Validation.validateUsername (JStr u) = Ok u) names
    /\ (Validation.validateUsernames (Validation.body_prop body "string") = Ok names
        \/ exists name,
             Validation.validateUsername (Validation.body_prop body "string") = Ok name
             /\ names = [name])).
  { intros names. destruct several.
    - intros H. apply lift_Ok in H. pose proof H as Hkeep.
      destruct (validateUsernames_is_string _ _ H) as [s Hs]. rewrite Hs in H.
      apply validateUsernames_iff in H as (_ & Hlen & Hall).
      split_and!; [|exact Hall|now left]. intros ->. simpl in Hlen. lia.
    - destruct (Validation.validateUsername _) as [name|e] eqn:Hname; [|discriminate].
      cbn [Validation.lift mbind result_bind]. intros [= <-].
      split_and!; [discriminate| |right; now exists name].
      constructor; [|constructor].
      exact (validateUsername_fixed _ _ Hname). }
  match goal with
  | |- (?x ≫= _) = _ -> _ =>
      destruct x as [names|e] eqn:Hn; [|discriminate]
  end.
  destruct (Hnames names eq_refl) as (Hne & Hall & Hexact). cbn [mbind result_bind].
  destruct (JS.truthy (Validation.body_prop body "option")) eqn:Hopt;
    [destruct (Validation.validateOption _) as [o|e] eqn:Ho; [|discriminate];
     pose proof (validateOption_in _ _ Ho) as Hoin|];
    cbn [Validation.lift mbind result_bind];
    (destruct (JS.truthy (Validation.body_prop body "mode")) eqn:Hmode;
     [destruct (Validation.validateMode _) as [m|e] eqn:Hm; [|discriminate];
      pose proof (validateMode_in _ _ Hm) as Hmin|]);
    cbn [Validation.lift mbind result_bind]; intros [= <-];
    cbn [Validation.req_uuid Validation.req_string Validation.req_option
         Validation.req_mode];
    split_and!; try done; eexists; split; reflexivity.
Qed.

(** The theorem at a request for two names with an option and no mode:
    the option is returned, and no mode. *)
Lemma validateAnalyzeRequest_accepted_witness :
  Validation.validateAnalyzeRequest two_names_body = Ok two_names_request
  /\ Validation.req_mode two_names_request = None
  /\ exists o,
       Validation.req_option two_names_request = Some o
       /\ Validation.validateOption (JStr "ShowUserInfo") = Ok o.
Proof.
  assert (H : Validation.validateAnalyzeRequest two_names_body = Ok two_names_request)
    by (vm_compute; reflexivity).
  split; [exact H|].
  destruct (validateAnalyzeRequest_accepted two_names_body two_names_request H)
    as (_ & _ & _ & _ & _ & _ & _ & Ho & Hm).
  split; [exact Hm | exact Ho].
Defined.

Lemma body_prop_of_json (body v : Validation.json) (key : string) :
  Validation.body_prop_json body key = Some v ->
  Validation.body_prop body key = Validation.to_jsval v.
Proof.
  unfold Validation.body_prop_json, Validation.body_prop.
  destruct body; try discriminate. now intros ->.
Qed.

Lemma is_object_truthy (body : Validation.json) :
  Validation.is_object body = true -> JS.falsy (Validation.to_jsval body) = false.
Proof. destruct body; (discriminate || reflexivity). Qed.

(** X12. The parts of a request are validated in the order [uuid],
    [string], [option], [mode], and the first failure is the one thrown:
    a failure of the [uuid] is thrown whatever the other parts are; with a
    valid [uuid] a failure of a [string] that is text is thrown whatever
    the option and the mode are; with a valid [uuid] and an accepted
    [string] a failure of a truthy option is thrown whatever the mode is;
    and with these and an option that is falsy or valid, a failure of a
    truthy mode is thrown.  A text with a comma is validated as a list of
    usernames, any other text as one username. *)
Theorem validateAnalyzeRequest_first_failure (body : Validation.json) :
  Validation.is_object body = true ->
  (forall e,
     Validation.validateUUID (Validation.body_prop body "uuid") = Throw e ->
     Validation.validateAnalyzeRequest body = Throw (Validation.Invalid e))
  /\ (forall u s e,
        Validation.validateUUID (Validation.body_prop body "uuid") = Ok u ->
        Validation.body_prop_json body "string" = Some (Validation.JsStr s) ->
        (if includes s ","
         then Validation.validateUsernames (JStr s) = Throw e
         else Validation.validateUsername (JStr s) = Throw e) ->
        Validation.validateAnalyzeRequest body = Throw (Validation.Invalid e))
  /\ (forall u s e,
        Validation.validateUUID (Validation.body_prop body "uuid") = Ok u ->
        Validation.body_prop_json body "string" = Some (Validation.JsStr s) ->
        names_accepted s ->
        JS.truthy (Validation.body_prop body "option") = true ->
        Validation.validateOption (Validation.body_prop body "option") = Throw e ->
        Validation.validateAnalyzeRequest body = Throw (Validation.Invalid e))
  /\ (forall u s e,
        Validation.validateUUID (Validation.body_prop body "uuid") = Ok u ->
        Validation.body_prop_json body "string" = Some (Validation.JsStr s) ->
        names_accepted s ->
        (JS.truthy (Validation.body_prop body "option") = false
         \/ exists o,
              Validation.validateOption (Validation.body_prop body "option") = Ok o) ->
        JS.truthy (Validation.body_prop body "mode") = true ->
        Validation.validateMode (Validation.body_prop body "mode") = Throw e ->
        Validation.validateAnalyzeRequest body = Throw (Validation.Invalid e)).
Proof.
  intros Hobj.
  assert (Hnames : forall u s,
    Validation.validateUUID (Validation.body_prop body "uuid") = Ok u ->
    Validation.body_prop_json body "string" = Some (Validation.JsStr s) ->
    names_accepted s ->
    exists names,
      forall k : list string -> result Validation.request_error Validation.analyze_request,
        (several ←
           (if JS.truthy (Validation.body_prop body "string") then
              match Validation.body_prop_json body "string" with
              | Some v => Validation.includes_comma v
              | None => Ok false
              end
            else Ok false);
         names ←
           (if several : bool
            then Validation.lift
                   (Validation.validateUsernames (Validation.body_prop body "string"))
            else name ← Validation.lift
                         (Validation.validateUsername (Validation.body_prop body "string"));
                 Ok [name]);
         k names) = k names).
  { intros u s Hu Hs Hacc. unfold names_accepted in Hacc.
    rewrite Hs, (body_prop_of_json body _ "string" Hs).
    cbn [Validation.to_jsval Validation.includes_comma JS.truthy].
    destruct (String.eqb_spec s "") as [->|Hne]; cbn [negb mbind result_bind].
    - simpl in Hacc. destruct Hacc as [name Hname]. exists [name]. intros k.
      rewrite Hname. reflexivity.
    - destruct (includes s ",").
      + destruct Hacc as [names Hn]. exists names. intros k. now rewrite Hn.
      + destruct Hacc as [name Hname]. exists [name]. intros k. now rewrite Hname. }
  split_and!.
  - intros e He. unfold Validation.validateAnalyzeRequest.
    rewrite Hobj, (is_object_truthy body Hobj), He. reflexivity.
  - intros u s e Hu Hs He. unfold Validation.validateAnalyzeRequest.
    rewrite Hobj, (is_object_truthy body Hobj), Hu, Hs.
    rewrite (body_prop_of_json body _ "string" Hs).
    cbn [negb orb Validation.lift mbind result_bind Validation.to_jsval
         Validation.includes_comma JS.truthy].
    destruct (String.eqb_spec s "") as [->|Hne]; cbn [negb result_bind].
    + simpl in He. now rewrite He.
    + destruct (includes s ","); rewrite He; reflexivity.
  - intros u s e Hu Hs Hacc Hopt He.
    destruct (Hnames u s Hu Hs Hacc) as [names Hk].
    unfold Validation.validateAnalyzeRequest.
    rewrite Hobj, (is_object_truthy body Hobj), Hu.
    cbn [negb orb Validation.lift mbind result_bind].
    rewrite Hk, Hopt, He. reflexivity.
  - intros u s e Hu Hs Hacc Hopt Hmode He.
    destruct (Hnames u s Hu Hs Hacc) as [names Hk].
    unfold Validation.validateAnalyzeRequest.
    rewrite Hobj, (is_object_truthy body Hobj), Hu.
    cbn [negb orb Validation.lift mbind result_bind].
    rewrite Hk, Hmode, He.
    destruct Hopt as [Hopt|[o Ho]].
    + rewrite Hopt. reflexivity.
    + rewrite Ho. destruct (JS.truthy (Validation.body_prop body "option")); reflexivity.
Qed.

(** The theorem at a request with a short [uuid], at one with a blocked
    username, at one whose option and mode are both unknown, and at one
    with a valid option and an unknown mode. *)
Lemma validateAnalyzeRequest_first_failure_witness :
  Validation.validateAnalyzeRequest
    (Validation.JsObj [("uuid", Validation.JsStr "abc");
                       ("string", Validation.JsNum (Fin 7));
                       ("mode", Validation.JsStr "turbo")])
  = Throw (Validation.Invalid
             (Validation.new_ValidationError "uuid" "Invalid UUID format"))
  /\ Validation.validateAnalyzeRequest
       (Validation.JsObj [("uuid", Validation.JsStr "abc-12345");
                          ("string", Validation.JsStr "john,select");
                          ("mode", Validation.JsStr "turbo")])
     = Throw (Validation.Invalid
                (Validation.new_ValidationError "usernames"
                   ("Username #2 is invalid: "
                    ++ "Invalid username: Username contains blocked keywords")))
  /\ Validation.validateAnalyzeRequest
       (Validation.JsObj [("mode", Validation.JsStr "turbo");
                          ("option", Validation.JsStr "Everything");
                          ("uuid", Validation.JsStr "abc-12345");
                          ("string", Validation.JsStr "john")])
     = Throw (Validation.Invalid
                (Validation.new_ValidationError "option"
                   ("Invalid option. Must be one of: FindUserProfilesFast, "
                    ++ "FindUserProfilesSlow, FindUserProfilesSpecial, ShowUserInfo")))
  /\ Validation.validateAnalyzeRequest
       (Validation.JsObj [("mode", Validation.JsStr "turbo");
                          ("option", Validation.JsStr "ShowUserInfo");
                          ("uuid", Validation.JsStr "abc-12345");
                          ("string", Validation.JsStr "john")])
     = Throw (Validation.Invalid
                (Validation.new_ValidationError "mode"
                   "Mode must be one of: fast, slow, special")).
Proof.
  split_and!.
  - apply (proj1 (validateAnalyzeRequest_first_failure
                    (Validation.JsObj [("uuid", Validation.JsStr "abc");
                                       ("string", Validation.JsNum (Fin 7));
                                       ("mode", Validation.JsStr "turbo")])
                    eq_refl)).
    vm_compute. reflexivity.
  - apply (proj1 (proj2 (validateAnalyzeRequest_first_failure
                    (Validation.JsObj [("uuid", Validation.JsStr "abc-12345");
                                       ("string", Validation.JsStr "john,select");
                                       ("mode", Validation.JsStr "turbo")])
                    eq_refl)) "abc-12345" "john,select");
      vm_compute; reflexivity.
  - apply (proj1 (proj2 (proj2 (validateAnalyzeRequest_first_failure
                    (Validation.JsObj [("mode", Validation.JsStr "turbo");
                                       ("option", Validation.JsStr "Everything");
                                       ("uuid", Validation.JsStr "abc-12345");
                                       ("string", Validation.JsStr "john")])
                    eq_refl))) "abc-12345" "john");
      try (vm_compute; reflexivity).
    exists "john". vm_compute. reflexivity.
  - apply (proj2 (proj2 (proj2 (validateAnalyzeRequest_first_failure
                    (Validation.JsObj [("mode", Validation.JsStr "turbo");
                                       ("option", Validation.JsStr "ShowUserInfo");
                                       ("uuid", Validation.JsStr "abc-12345");
                                       ("string", Validation.JsStr "john")])
                    eq_refl))) "abc-12345" "john");
      try (vm_compute; reflexivity).
    + exists "john". vm_compute. reflexivity.
    + right. exists "ShowUserInfo". vm_compute. reflexivity.
Defined.

Lemma type_error_unclassified (message stack : string) :
  unclassified (thrown_of (Validation.NotAFunction message) stack) = true.
Proof. vm_compute. reflexivity. Qed.

(** X13. When the [uuid] of a request is valid and its [string] is a
    truthy number, boolean or plain object, [validateAnalyzeRequest]
    throws no validation failure but the [TypeError] of calling a method
    that is not there; [createErrorResponse] answers that failure as an
    internal error with status 500, in every mode. *)
Theorem validateAnalyzeRequest_type_error
  (body : Validation.json) (u : string) (v : Validation.json) :
  Validation.is_object body = true ->
  Validation.validateUUID (Validation.body_prop body "uuid") = Ok u ->
  Validation.body_prop_json body "string" = Some v ->
  without_includes v = true ->
  JS.truthy (Validation.to_jsval v) = true ->
  Validation.validateAnalyzeRequest body
  = Throw (Validation.NotAFunction "body.string.includes is not a function")
  /\ forall (NODE_ENV : option string) (st : Config.module_state)
       (c : Config.jsobject) (now stack : string),
       Config.config st = Some c ->
       exists response,
         ErrorHandler.createErrorResponse NODE_ENV st now
           (thrown_of
              (Validation.NotAFunction "body.string.includes is not a function") stack)
         = Ok response
         /\ response !! "type" = Some (JStr "internal_error")
         /\ response !! "statusCode" = Some (JS.int 500).
Proof.
  intros Hobj Hu Hs Hv Ht. split.
  - unfold Validation.validateAnalyzeRequest.
    rewrite Hobj, (is_object_truthy body Hobj), Hu, Hs.
    rewrite (body_prop_of_json body _ "string" Hs), Ht.
    cbn [negb orb Validation.lift mbind result_bind].
    destruct v; try discriminate Hv; reflexivity.
  - intros env st c now stack Hc. eexists. split.
    + apply (createErrorResponse_unclassified env st now c _ Hc).
      apply type_error_unclassified.
    + unfold ErrorHandler.base_response.
      destruct (negb _ || _); split; by simplify_map_eq.
Qed.

(** The theorem at a request whose [string] is the number 7. *)
Lemma validateAnalyzeRequest_type_error_witness :
  Validation.validateAnalyzeRequest
    (Validation.JsObj [("uuid", Validation.JsStr "abc-12345");
                       ("string", Validation.JsNum (Fin 7))])
  = Throw (Validation.NotAFunction "body.string.includes is not a function")
  /\ forall (NODE_ENV : option string) (st : Config.module_state)
       (c : Config.jsobject) (now stack : string),
       Config.config st = Some c ->
       exists response,
         ErrorHandler.createErrorResponse NODE_ENV st now
           (thrown_of
              (Validation.NotAFunction "body.string.includes is not a function") stack)
         = Ok response
         /\ response !! "type" = Some (JStr "internal_error")
         /\ response !! "statusCode" = Some (JS.int 500).
Proof.
  apply (validateAnalyzeRequest_type_error
           (Validation.JsObj [("uuid", Validation.JsStr "abc-12345");
                              ("string", Validation.JsNum (Fin 7))])
           "abc-12345" (Validation.JsNum (Fin 7)));
    vm_compute; reflexivity.
Defined.

(** ** Outcomes of loadConfig *)

Section LoadOutcome.
Import Config.
Variable Number : string -> jsnum.
Variable numToString : jsnum -> string.
Variable p : bool.
Variable w : World.
Variable h : heap.

Local Abbreviation vv := (validateValue Number numToString).
Local Abbreviation acc :=
  (foldl (load_step Number numToString w) (mkAcc ∅ [] [] h) (CONFIG_SCHEMA p)).
Local Abbreviation logDir := (resolve w (string_setting w "LOG_DIR" "./logs")).

Lemma loaded_session_secret :
  acc_config acc !! "SESSION_SECRET" = Some (CStr (session_secret w)).
Proof.
  rewrite (loaded_field Number numToString p w h "SESSION_SECRET"
             (mkField TString (CStr "") None None (Some 32) None None None false p
                "Session secret for CSRF protection")) by in_list.
  now rewrite (validateValue_string Number numToString _ _ _ _ "").
Qed.

Lemma missing_files_listed :
  missing_files w (acc_config acc) dataPaths = Ok (missing_data_files w).
Proof.
  unfold dataPaths. cbn [missing_files].
  rewrite (resolve_data_path Number numToString p w h "SITES_DATA_PATH" "./data/sites.json")
    by in_list.
  rewrite (resolve_data_path Number numToString p w h "NAMES_DATA_PATH" "./data/names.json")
    by in_list.
  rewrite (resolve_data_path Number numToString p w h "LANGUAGES_DATA_PATH"
             "./data/languages.json") by in_list.
  rewrite (resolve_data_path Number numToString p w h "DICT_DATA_PATH" "./data/dict.json")
    by in_list.
  rewrite (resolve_data_path Number numToString p w h "COUNTRIES_DATA_PATH"
             "./data/countries.json") by in_list.
  cbn [mbind result_bind]. unfold missing_data_files, data_files.
  cbn [omap list_omap fst snd].
  repeat match goal with
         | |- context [existsSync w ?x] => destruct (existsSync w x)
         end; reflexivity.
Qed.

(** What [loadConfig] returns, case by case. *)
Lemma loadConfig_returned :
  returned (loadConfig Number numToString p w h) =
    if negb (length (field_errors Number numToString p w h) =? 0) then
      Throw (ConfigValidationError (field_errors Number numToString p w h))
    else
      match missing_data_files w with
      | (_ :: _) as missing =>
          Throw (ConfigValidationError ("Required data files not found:" :: missing))
      | [] =>
          if negb (log_dir_available w) then
            Throw (ConfigValidationError [("Cannot create log directory: " ++ logDir)%string])
          else if String.eqb (session_secret w) "" then
            if is_production w then
              Throw (ConfigValidationError
                       ["SESSION_SECRET is required in production"; generate_hint])
            else
              Ok (mkObject
                    (<["SESSION_SECRET" := CStr (toHex (randomBytes w 32))]> (acc_config acc))
                    true)
          else Ok (mkObject (acc_config acc) true)
      end.
Proof.
  unfold loadConfig, field_errors.
  rewrite (loaded_errors Number numToString p w h).
  destruct (negb (length _ =? 0)); [reflexivity|].
  rewrite missing_files_listed.
  destruct (missing_data_files w) as [|x l]; [|reflexivity].
  rewrite (loaded_file_logging Number numToString p w h).
  rewrite (resolve_log_dir Number numToString p w h), loaded_session_secret.
  cbn [truthy_opt truthy mbind result_bind]. unfold log_dir_available.
  destruct (file_logging w); cbn [negb orb].
  - destruct (existsSync w logDir); cbn [negb orb].
    + destruct (String.eqb (session_secret w) ""), (is_production w); reflexivity.
    + destruct (mkdirSync w logDir); cbn [negb]; [|reflexivity].
      destruct (String.eqb (session_secret w) ""), (is_production w); reflexivity.
  - destruct (String.eqb (session_secret w) ""), (is_production w); reflexivity.
Qed.

End LoadOutcome.

Lemma Ok_inj {E A : Type} (a b : A) : @Ok E A a = Ok b -> a = b.
Proof. now intros [= ->]. Qed.

Lemma flat_map_nil_inv {A B : Type} (f : A -> list B) (l : list A) (x : A) :
  flat_map f l = [] -> x ∈ l -> f x = [].
Proof.
  induction l as [|y l IH]; simpl; intros E Hx.
  - now apply elem_of_nil in Hx.
  - apply app_eq_nil in E as [Ey El].
    apply elem_of_cons in Hx as [->|Hx]; [exact Ey | now apply IH].
Qed.

Lemma omap_nil_inv {A B : Type} (f : A -> option B) (l : list A) (x : A) :
  omap f l = [] -> x ∈ l -> f x = None.
Proof.
  intros E Hx. destruct (f x) as [y|] eqn:Hfx; [|reflexivity].
  assert (Hy : y ∈ omap f l) by (apply list_elem_of_omap; eauto).
  rewrite E in Hy. now apply elem_of_nil in Hy.
Qed.

Lemma length_toHex (bytes : list Byte.byte) :
  String.length (Config.toHex bytes) = 2 * length bytes.
Proof.
  unfold Config.toHex. induction bytes as [|b bytes IH]; simpl; [reflexivity|].
  rewrite IH. lia.
Qed.

Lemma length_zero_iff_nil (l : list string) : (length l =? 0) = true <-> l = [].
Proof. destruct l; simpl; split; congruence. Qed.

(** The properties of the loaded object are fields of the schema. *)
Lemma loaded_keys (Number : string -> jsnum) (numToString : jsnum -> string)
  (p : bool) (w : Config.World) (h : Config.heap) (k : string) :
  is_Some (Config.acc_config
             (foldl (Config.load_step Number numToString w) (Config.mkAcc ∅ [] [] h)
                (Config.CONFIG_SCHEMA p)) !! k) ->
  k ∈ (Config.CONFIG_SCHEMA p).*1.
Proof.
  intros Hk. destruct (decide (k ∈ (Config.CONFIG_SCHEMA p).*1)) as [|Hout];
    [assumption|].
  rewrite (load_config_other Number numToString w _ _ k Hout) in Hk.
  cbn [Config.acc_config] in Hk. rewrite lookup_empty in Hk. now destruct Hk.
Qed.

Lemma secret_key_in_schema (p : bool) :
  "SESSION_SECRET" ∈ (Config.CONFIG_SCHEMA p).*1.
Proof. unfold Config.CONFIG_SCHEMA. cbn [fmap list_fmap fst]. in_list. Qed.

(** X14. When a field of the schema is invalid, [loadConfig] throws one
    [ConfigValidationError] that carries the messages of all invalid
    fields, in the order of the schema; the data files, the log directory
    and the session secret are not looked at. *)
Theorem loadConfig_reports_all_field_errors
  (Number : string -> jsnum) (numToString : jsnum -> string)
  (p : bool) (w : Config.World) (h : Config.heap) :
  field_errors Number numToString p w h <> [] ->
  Config.returned (Config.loadConfig Number numToString p w h)
  = Throw (Config.ConfigValidationError (field_errors Number numToString p w h)).
Proof.
  intros Hne. rewrite loadConfig_returned.
  destruct (length (field_errors Number numToString p w h) =? 0) eqn:E;
    [|reflexivity].
  now apply length_zero_iff_nil in E.
Qed.

(** The theorem at a machine with a port below the range and an unknown
    logging level. *)
Lemma loadConfig_reports_all_field_errors_witness :
  Config.returned
    (Config.loadConfig Number_decimal numToString_integral false misconfigured_world
       Config.module_heap)
  = Throw (Config.ConfigValidationError
             (field_errors Number_decimal numToString_integral false misconfigured_world
                Config.module_heap))
  /\ field_errors Number_decimal numToString_integral false misconfigured_world
       Config.module_heap
     = ["PORT must be >= 1024, got: 80";
        "LOG_LEVEL must be one of: error, warn, info, debug, got: loud"].
Proof.
  split.
  - apply loadConfig_reports_all_field_errors. vm_compute. discriminate.
  - vm_compute. reflexivity.
Defined.

(** A returned snapshot holds, for every field other than the session
    secret, the value that validation gives, and no field has an error. *)
Lemma returned_snapshot_fields
  (Number : string -> jsnum) (numToString : jsnum -> string)
  (p : bool) (w : Config.World) (h : Config.heap) (c : Config.jsobject) :
  Config.returned (Config.loadConfig Number numToString p w h) = Ok c ->
  field_errors Number numToString p w h = []
  /\ (forall k s, (k, s) ∈ Config.CONFIG_SCHEMA p -> k <> "SESSION_SECRET" ->
        Config.props c !! k
        = Some (Config.value
                  (Config.validateValue Number numToString k (Config.env w !! k) s h).1)).
Proof.
  rewrite loadConfig_returned.
  destruct (length (field_errors Number numToString p w h) =? 0) eqn:Herr;
    cbn [negb]; [|discriminate].
  apply length_zero_iff_nil in Herr.
  destruct (missing_data_files w) as [|x l]; [|discriminate].
  destruct (negb (log_dir_available w)); [discriminate|].
  intros Hc. split; [assumption|]. intros k s Hin Hne.
  destruct (String.eqb (session_secret w) "");
    [destruct (Config.is_production w); [discriminate|]|];
    apply Ok_inj in Hc; subst c; cbn [Config.props].
  - rewrite lookup_insert_ne by congruence. now apply loaded_field.
  - now apply loaded_field.
Qed.

(** X15. [loadConfig] returns a snapshot only when every field of the
    schema is valid, the five data files are there and the log directory
    is available.  The snapshot is frozen, its properties are fields of
    the schema, and every field other than the session secret holds the
    value [validateValue] gives for it. *)
Theorem loadConfig_returns_only_valid
  (Number : string -> jsnum) (numToString : jsnum -> string)
  (p : bool) (w : Config.World) (h : Config.heap) (c : Config.jsobject) :
  Config.returned (Config.loadConfig Number numToString p w h) = Ok c ->
  Config.frozen c = true
  /\ field_errors Number numToString p w h = []
  /\ data_files_present w
  /\ log_dir_available w = true
  /\ (forall k, is_Some (Config.props c !! k) -> k ∈ (Config.CONFIG_SCHEMA p).*1)
  /\ (forall k s, (k, s) ∈ Config.CONFIG_SCHEMA p -> k <> "SESSION_SECRET" ->
        Config.props c !! k
        = Some (Config.value
                  (Config.validateValue Number numToString k (Config.env w !! k) s h).1)).
Proof.
  rewrite loadConfig_returned.
  destruct (length (field_errors Number numToString p w h) =? 0) eqn:Herr;
    cbn [negb]; [|discriminate].
  apply length_zero_iff_nil in Herr.
  destruct (missing_data_files w) as [|x l] eqn:Hmiss; [|discriminate].
  destruct (log_dir_available w) eqn:Hlog; cbn [negb]; [|discriminate].
  assert (Hfiles : data_files_present w).
  { intros key dflt Hin.
    pose proof (omap_nil_inv _ _ _ Hmiss Hin) as Hf. cbn [fst snd] in Hf.
    now destruct (Config.existsSync w _). }
  intros Hc.
  assert (Hprops :
    (Config.props c = Config.acc_config
                        (foldl (Config.load_step Number numToString w)
                           (Config.mkAcc ∅ [] [] h) (Config.CONFIG_SCHEMA p))
     \/ exists s, Config.props c
                  = <["SESSION_SECRET" := s]>
                      (Config.acc_config
                         (foldl (Config.load_step Number numToString w)
                            (Config.mkAcc ∅ [] [] h) (Config.CONFIG_SCHEMA p))))
    /\ Config.frozen c = true).
  { destruct (String.eqb (session_secret w) "");
      [destruct (Config.is_production w); [discriminate|]|];
      apply Ok_inj in Hc; subst c; cbn [Config.props Config.frozen];
      (split; [|reflexivity]);
      [right; eexists; reflexivity | left; reflexivity]. }
  destruct Hprops as [Hprops Hfrozen].
  split_and!; try assumption; try reflexivity.
  - intros k Hk. destruct Hprops as [E|[s E]]; rewrite E in Hk.
    + now apply loaded_keys in Hk.
    + destruct (decide (k = "SESSION_SECRET")) as [->|Hne];
        [apply secret_key_in_schema|].
      rewrite lookup_insert_ne in Hk by congruence. now apply loaded_keys in Hk.
  - intros k s Hin Hne. destruct Hprops as [E|[s' E]]; rewrite E.
    + now apply loaded_field.
    + rewrite lookup_insert_ne by congruence. now apply loaded_field.
Qed.

Lemma development_world_loads :
  exists c,
    Config.returned
      (Config.loadConfig Number_decimal numToString_integral false development_world
         Config.module_heap) = Ok c.
Proof.
  rewrite loadConfig_returned.
  replace (field_errors Number_decimal numToString_integral false development_world
             Config.module_heap) with (@nil string) by (vm_compute; reflexivity).
  replace (missing_data_files development_world) with (@nil string)
    by (vm_compute; reflexivity).
  replace (log_dir_available development_world) with true by (vm_compute; reflexivity).
  replace (session_secret development_world) with "" by (vm_compute; reflexivity).
  replace (Config.is_production development_world) with false
    by (vm_compute; reflexivity).
  cbn [length Nat.eqb negb String.eqb]. eauto.
Qed.

(** The theorem at a development machine with the data files. *)
Lemma loadConfig_returns_only_valid_witness :
  exists c,
    Config.returned
      (Config.loadConfig Number_decimal numToString_integral false development_world
         Config.module_heap) = Ok c
    /\ Config.frozen c = true
    /\ field_errors Number_decimal numToString_integral false development_world
         Config.module_heap = []
    /\ log_dir_available development_world = true.
Proof.
  destruct development_world_loads as [c E]. exists c.
  destruct (loadConfig_returns_only_valid _ _ _ _ _ c E) as (H1 & H2 & _ & H4 & _).
  now split_and!.
Defined.

Lemma session_secret_unset (w : Config.World) :
  Config.unset (Config.env w !! "SESSION_SECRET") = String.eqb (session_secret w) "".
Proof.
  unfold session_secret, string_setting, Config.unset.
  destruct (Config.env w !! "SESSION_SECRET") as [raw|]; [|reflexivity].
  destruct (String.eqb raw "") eqn:E; [reflexivity | now rewrite E].
Qed.

(** A session secret that is set and passes validation has 32 characters
    or more. *)
Lemma valid_session_secret (Number : string -> jsnum) (numToString : jsnum -> string)
  (p : bool) (w : Config.World) (h : Config.heap) :
  field_errors Number numToString p w h = [] ->
  session_secret w <> "" ->
  32 <= String.length (session_secret w).
Proof.
  intros Herr Hset.
  pose proof (flat_map_nil_inv _ _
                ("SESSION_SECRET",
                 Config.mkField Config.TString (Config.CStr "") None None (Some 32)
                   None None None false p "Session secret for CSRF protection")
                Herr ltac:(unfold Config.CONFIG_SCHEMA; in_list)) as E.
  cbn [fst snd] in E. unfold Config.validateValue in E.
  rewrite session_secret_unset in E.
  apply String.eqb_neq in Hset. rewrite Hset, andb_false_r in E.
  cbn [Config.type Config.minLength Config.pattern Config.enum] in E.
  unfold session_secret, string_setting in *.
  destruct (Config.env w !! "SESSION_SECRET") as [raw|]; [|discriminate].
  destruct (String.eqb raw ""); [discriminate|].
  cbn [Config.errors fst negb Nat.eqb andb] in E.
  destruct (Nat.ltb_spec (String.length raw) 32); [discriminate | assumption].
Qed.

(** X16. The session secret of a snapshot that [loadConfig] returns is a
    string.  When the raw source sets one, it is that one and it has 32
    characters or more.  When none is set, the mode is not production and
    the secret is the hexadecimal text of the 32 random bytes, two
    characters for each byte. *)
Theorem loadConfig_session_secret
  (Number : string -> jsnum) (numToString : jsnum -> string)
  (p : bool) (w : Config.World) (h : Config.heap) (c : Config.jsobject) :
  Config.returned (Config.loadConfig Number numToString p w h) = Ok c ->
  exists s : string,
    Config.props c !! "SESSION_SECRET" = Some (Config.CStr s)
    /\ (session_secret w <> "" ->
        s = session_secret w /\ 32 <= String.length s)
    /\ (session_secret w = "" ->
        Config.is_production w = false
        /\ s = Config.toHex (Config.randomBytes w 32)
        /\ String.length s = 2 * length (Config.randomBytes w 32)).
Proof.
  rewrite loadConfig_returned.
  destruct (length (field_errors Number numToString p w h) =? 0) eqn:Herr;
    cbn [negb]; [|discriminate].
  apply length_zero_iff_nil in Herr.
  destruct (missing_data_files w) as [|x l]; [|discriminate].
  destruct (negb (log_dir_available w)); [discriminate|].
  destruct (String.eqb_spec (session_secret w) "") as [E|E].
  - destruct (Config.is_production w); [discriminate|].
    intros Hc. apply Ok_inj in Hc. subst c. cbn [Config.props].
    exists (Config.toHex (Config.randomBytes w 32)).
    split; [apply lookup_insert_eq|]. split; [contradiction|].
    intros _. split_and!; try reflexivity. apply length_toHex.
  - intros Hc. apply Ok_inj in Hc. subst c. cbn [Config.props].
    exists (session_secret w).
    split; [apply loaded_session_secret|]. split; [|contradiction].
    intros _. split; [reflexivity|].
    now apply (valid_session_secret Number numToString p w h).
Qed.

(** The theorem at a development machine that sets no secret. *)
Lemma loadConfig_session_secret_witness :
  exists (c : Config.jsobject) (s : string),
    Config.returned
      (Config.loadConfig Number_decimal numToString_integral false development_world
         Config.module_heap) = Ok c
    /\ Config.props c !! "SESSION_SECRET" = Some (Config.CStr s)
    /\ String.length s = 64.
Proof.
  destruct development_world_loads as [c E].
  destruct (loadConfig_session_secret _ _ _ _ _ c E) as (s & Hs & _ & Hgen).
  destruct (Hgen eq_refl) as (_ & _ & Hlen).
  exists c, s. now split_and!.
Defined.

Lemma schema_defaults_in_range (p : bool) :
  Forall (fun e => default_in_range e.2 = true) (Config.CONFIG_SCHEMA p).
Proof. unfold Config.CONFIG_SCHEMA. repeat constructor. Qed.

(** X17. In a snapshot that [loadConfig] returns, a field of numeric type
    holds a number that is not [NaN] and lies within the bounds of the
    field, whether it was read from the raw source or is the default. *)
Theorem loadConfig_numbers_in_range
  (Number : string -> jsnum) (numToString : jsnum -> string)
  (p : bool) (w : Config.World) (h : Config.heap) (c : Config.jsobject)
  (k : string) (s : Config.field_schema) :
  Config.returned (Config.loadConfig Number numToString p w h) = Ok c ->
  (k, s) ∈ Config.CONFIG_SCHEMA p ->
  Config.type s = Config.TNumber ->
  exists n : jsnum,
    Config.props c !! k = Some (Config.CNum n)
    /\ Config.isNaN n = false
    /\ (forall lo, Config.min s = Some lo -> Config.num_lt n lo = false)
    /\ (forall hi, Config.max s = Some hi -> Config.num_gt n hi = false).
Proof.
  intros Hc Hin Ht.
  destruct (returned_snapshot_fields Number numToString p w h c Hc)
    as [Herr Hfields].
  assert (Hne : k <> "SESSION_SECRET").
  { intros ->. rewrite (secret_schema p s Hin) in Ht. discriminate. }
  rewrite (Hfields k s Hin Hne).
  pose proof (flat_map_nil_inv _ _ (k, s) Herr Hin) as E. cbn [fst snd] in E.
  pose proof (proj1 (Forall_forall _ _) (schema_defaults_in_range p) _ Hin) as Hd.
  cbn [snd] in Hd. unfold default_in_range in Hd. rewrite Ht in Hd.
  revert E. unfold Config.validateValue.
  destruct (Config.required s && Config.unset (Config.env w !! k)) eqn:Hreq;
    [discriminate|].
  destruct (Config.unset (Config.env w !! k)).
  - cbn [Config.value fst]. intros _.
    destruct (Config.default s) as [n| | |]; try discriminate.
    apply andb_true_iff in Hd as [Hd Hhi]. apply andb_true_iff in Hd as [Hnan Hlo].
    exists n. split; [reflexivity|]. split; [now apply negb_true_iff|].
    split.
    + intros lo E. rewrite E in Hlo. now apply negb_true_iff.
    + intros hi E. rewrite E in Hhi. now apply negb_true_iff.
  - rewrite Ht.
    destruct (Config.isNaN (Number _)) eqn:Hnan; [discriminate|].
    cbn [Config.value Config.errors fst]. intros E.
    apply app_eq_nil in E as [Elo Ehi].
    eexists. split; [reflexivity|]. split; [exact Hnan|]. split.
    + intros lo Hlo. rewrite Hlo in Elo.
      destruct (Config.num_lt _ lo); [discriminate | reflexivity].
    + intros hi Hhi. rewrite Hhi in Ehi.
      destruct (Config.num_gt _ hi); [discriminate | reflexivity].
Qed.

(** The theorem at the port of a development machine. *)
Lemma loadConfig_numbers_in_range_witness :
  exists (c : Config.jsobject) (n : jsnum),
    Config.returned
      (Config.loadConfig Number_decimal numToString_integral false development_world
         Config.module_heap) = Ok c
    /\ Config.props c !! "PORT" = Some (Config.CNum n)
    /\ Config.isNaN n = false
    /\ Config.num_lt n 1024 = false
    /\ Config.num_gt n 65535 = false.
Proof.
  destruct development_world_loads as [c E].
  destruct (loadConfig_numbers_in_range _ _ _ _ _ c "PORT"
              (Config.number_field 9005 1024 65535 "Server port number") E)
    as (n & Hn & Hnan & Hlo & Hhi).
  - unfold Config.CONFIG_SCHEMA. in_list.
  - reflexivity.
  - exists c, n. split_and!; try assumption; [now apply Hlo | now apply Hhi].
Defined.

(** X18. [initConfig] has two outcomes: the module holds a frozen
    snapshot, the one [loadConfig] returned; or [loadConfig] threw a
    [ConfigValidationError] and the process exits with status 1.  No
    other failure escapes from it: the paths that loading resolves are
    strings. *)
Theorem initConfig_outcomes
  (Number : string -> jsnum) (numToString : jsnum -> string)
  (p : bool) (w : Config.World) (h : Config.heap) :
  match Config.initConfig Number numToString p w h with
  | Config.Initialized st _ =>
      exists c, Config.config st = Some c
                /\ Config.returned (Config.loadConfig Number numToString p w h) = Ok c
                /\ Config.frozen c = true
  | Config.Exit code _ =>
      code = 1%Z
      /\ exists errs,
           Config.returned (Config.loadConfig Number numToString p w h)
           = Throw (Config.ConfigValidationError errs)
  | Config.Uncaught _ => False
  end.
Proof.
  unfold Config.initConfig.
  destruct (Config.returned (Config.loadConfig Number numToString p w h))
    as [c|[errs|msg]] eqn:E.
  - exists c. split_and!; try reflexivity.
    exact (loadConfig_frozen Number numToString p w h c E).
  - split; [reflexivity | eauto].
  - revert E. rewrite loadConfig_returned.
    destruct (negb _); [discriminate|].
    destruct (missing_data_files w); [|discriminate].
    destruct (negb _); [discriminate|].
    destruct (String.eqb _ _); [destruct (Config.is_production w)|]; discriminate.
Qed.

(** X19. When every field is valid and a data file is missing,
    [loadConfig] throws a [ConfigValidationError] that lists the missing
    files in the order of the five paths; this is decided before the log
    directory and the session secret are looked at. *)
Theorem loadConfig_missing_data_files
  (Number : string -> jsnum) (numToString : jsnum -> string)
  (p : bool) (w : Config.World) (h : Config.heap) :
  field_errors Number numToString p w h = [] ->
  missing_data_files w <> [] ->
  Config.returned (Config.loadConfig Number numToString p w h)
  = Throw (Config.ConfigValidationError
             ("Required data files not found:" :: missing_data_files w)).
Proof.
  intros Herr Hmiss. rewrite loadConfig_returned, Herr. cbn [length Nat.eqb negb].
  destruct (missing_data_files w); [contradiction | reflexivity].
Qed.

(** The theorem at a development machine without two of the files. *)
Lemma loadConfig_missing_data_files_witness :
  Config.returned
    (Config.loadConfig Number_decimal numToString_integral false incomplete_world
       Config.module_heap)
  = Throw (Config.ConfigValidationError
             ("Required data files not found:" :: missing_data_files incomplete_world))
  /\ missing_data_files incomplete_world
     = ["NAMES_DATA_PATH: ./data/names.json"; "DICT_DATA_PATH: ./data/dict.json"].
Proof.
  split.
  - apply loadConfig_missing_data_files.
    + vm_compute. reflexivity.
    + vm_compute. discriminate.
  - vm_compute. reflexivity.
Defined.

(** ** The projection of a loaded snapshot *)

Lemma update_truthy_lookup_eq (k : string) (f : Config.cval -> Config.cval)
  (m : gmap string Config.cval) (v : Config.cval) :
  m !! k = Some v -> Config.truthy v = true -> update_truthy k f m !! k = Some (f v).
Proof.
  intros Hk Hv. unfold update_truthy. rewrite Hk, Hv. apply lookup_insert_eq.
Qed.

Lemma toHex_nonempty (bytes : list Byte.byte) : bytes <> [] -> Config.toHex bytes <> "".
Proof.
  intros Hne E. apply (f_equal String.length) in E. rewrite length_toHex in E.
  destruct bytes; [contradiction | simpl in E; lia].
Qed.

(** The session secret of a returned snapshot is not empty, provided the
    random generator delivers bytes. *)
Lemma loadConfig_secret_truthy
  (Number : string -> jsnum) (numToString : jsnum -> string)
  (p : bool) (w : Config.World) (h : Config.heap) (c : Config.jsobject) :
  Config.returned (Config.loadConfig Number numToString p w h) = Ok c ->
  Config.randomBytes w 32 <> [] ->
  exists s, Config.props c !! "SESSION_SECRET" = Some (Config.CStr s) /\ s <> "".
Proof.
  rewrite loadConfig_returned. intros Hc Hrandom. revert Hc.
  destruct (negb _); [discriminate|].
  destruct (missing_data_files w); [|discriminate].
  destruct (negb _); [discriminate|].
  destruct (String.eqb_spec (session_secret w) "") as [E|E].
  - destruct (Config.is_production w); [discriminate|].
    intros Hc. apply Ok_inj in Hc. subst c. cbn [Config.props].
    eexists. split; [apply lookup_insert_eq | now apply toHex_nonempty].
  - intros Hc. apply Ok_inj in Hc. subst c. cbn [Config.props].
    eexists. split; [apply loaded_session_secret | exact E].
Qed.

(** X20. After a successful load, [getSanitized] does not throw.  The
    object it returns is a copy that is not frozen; its session secret is
    the fixed placeholder; and every property other than the API key, the
    session secret and the proxy address is the one of the snapshot, so
    the search engine identifier and the address of the Selenium grid are
    shown as they are. *)
Theorem getSanitized_after_load
  (Number : string -> jsnum) (numToString : jsnum -> string)
  (parseURL : string -> option URL)
  (p : bool) (w : Config.World) (h h' : Config.heap) (c : Config.jsobject) :
  Config.returned (Config.loadConfig Number numToString p w h) = Ok c ->
  Config.randomBytes w 32 <> [] ->
  exists c' : Config.jsobject,
    Config.getSanitized numToString parseURL (Config.mkState (Some c) h') = Ok c'
    /\ Config.frozen c' = false
    /\ Config.props c' !! "SESSION_SECRET" = Some (Config.CStr "***HIDDEN***")
    /\ (forall k, k ∉ ["GOOGLE_API_KEY"; "SESSION_SECRET"; "HTTP_PROXY"] ->
                  Config.props c' !! k = Config.props c !! k).
Proof.
  intros Hc Hrandom.
  destruct (returned_snapshot_fields Number numToString p w h c Hc)
    as [_ Hfields].
  destruct (loadConfig_secret_truthy Number numToString p w h c Hc Hrandom)
    as (s & Hs & Hne).
  assert (Hkey : forall v, Config.props c !! "GOOGLE_API_KEY" = Some v ->
                           Config.truthy v = true ->
                           exists r, Config.maskSecret h' v = Ok r).
  { intros v Hv _.
    rewrite (Hfields "GOOGLE_API_KEY"
               (Config.string_field "" true None None "Google Custom Search API key"))
      in Hv by (unfold Config.CONFIG_SCHEMA; in_list || discriminate).
    rewrite (validateValue_string Number numToString _ _ _ _ "") in Hv
      by reflexivity.
    injection Hv as <-.
    destruct (maskSecret_string h' (match Config.env w !! "GOOGLE_API_KEY" with
                                    | Some r => if String.eqb r "" then "" else r
                                    | None => ""
                                    end)) as (m & E & _). eauto. }
  eexists. split.
  - unfold Config.getSanitized. cbn [Config.config Config.store].
    apply (sanitize_projected numToString parseURL h' c Hkey).
  - cbn [Config.frozen Config.props]. split; [reflexivity|]. split.
    + unfold projected_props. rewrite update_truthy_lookup_ne by discriminate.
      rewrite (update_truthy_lookup_eq "SESSION_SECRET" _ _ (Config.CStr s));
        [reflexivity | |].
      * now rewrite update_truthy_lookup_ne by discriminate.
      * simpl. apply negb_true_iff. now apply String.eqb_neq.
    + intros k Hk. unfold projected_props.
      rewrite !update_truthy_lookup_ne; [reflexivity | | |];
        intros <-; apply Hk; in_list.
Qed.

(** The theorem at a development machine, with the table parser. *)
Lemma getSanitized_after_load_witness :
  exists c c' : Config.jsobject,
    Config.returned
      (Config.loadConfig Number_decimal numToString_integral false development_world
         Config.module_heap) = Ok c
    /\ Config.getSanitized numToString_integral parseURL_table
         (Config.mkState (Some c) Config.module_heap) = Ok c'
    /\ Config.props c' !! "SESSION_SECRET" = Some (Config.CStr "***HIDDEN***").
Proof.
  destruct development_world_loads as [c E].
  destruct (getSanitized_after_load Number_decimal numToString_integral parseURL_table
              false development_world Config.module_heap Config.module_heap c E)
    as (c' & H1 & _ & H3 & _).
  - discriminate.
  - exists c, c'. now split_and!.
Defined.

(** ** maskSecret *)

Lemma drop_app_exact (n : nat) (a b : string) :
  String.length a = n -> drop n (a ++ b) = b.
Proof.
  revert a. induction n as [|n IH]; intros [|c a]; unfold_app; simpl; try discriminate.
  - reflexivity.
  - intros [= H]. now apply IH.
Qed.

(** X21. [maskSecret] replaces a secret of at most ten characters by three
    stars.  A longer secret keeps its length and its first ten
    characters; only the characters after the tenth become stars. *)
Theorem maskSecret_discloses_prefix_and_length (h : Config.heap) (s : string) :
  (String.length s <= 10 -> Config.maskSecret h (Config.CStr s) = Ok (Config.CStr "***"))
  /\ (10 < String.length s ->
      exists m : string,
        Config.maskSecret h (Config.CStr s) = Ok (Config.CStr m)
        /\ String.length m = String.length s
        /\ take 10 m = take 10 s
        /\ drop 10 m = repeat_char "*" (String.length s - 10)).
Proof.
  unfold Config.maskSecret. cbn [Config.truthy]. split.
  - intros H. destruct (String.eqb s ""); cbn [negb]; [reflexivity|].
    destruct (Nat.leb_spec (String.length s) 10); [reflexivity | lia].
  - intros H. rewrite eqb_empty_length by lia. cbn [negb].
    destruct (Nat.leb_spec (String.length s) 10); [lia|].
    eexists. split; [reflexivity|].
    assert (Ht : String.length (take 10 s) = 10) by (apply length_take; lia).
    split_and!.
    + rewrite length_app, Ht, length_repeat_char. lia.
    + now apply take_app_exact.
    + now apply drop_app_exact.
Qed.

(** The theorem at a key of 18 characters. *)
Lemma maskSecret_discloses_prefix_and_length_witness :
  exists m : string,
    Config.maskSecret Config.module_heap (Config.CStr "AIzaSyA-0123456789")
    = Ok (Config.CStr m)
    /\ String.length m = 18
    /\ take 10 m = "AIzaSyA-01"
    /\ drop 10 m = "********".
Proof.
  destruct (proj2 (maskSecret_discloses_prefix_and_length Config.module_heap
                     "AIzaSyA-0123456789")) as (m & H1 & H2 & H3 & H4).
  - simpl. lia.
  - exists m. now split_and!.
Defined.

(** ** The branches of createErrorResponse *)

Section ErrorBranches.
Import ErrorHandler.

Variable NODE_ENV : option string.
Variable st : Config.module_state.
Variable c : Config.jsobject.
Variable now : string.
Hypothesis initialised : Config.config st = Some c.

Lemma createErrorResponse_AppError_branch (err : thrown) :
  JS.eq_str (prop err "name") "ValidationError" = false ->
  instanceof_AppError err = true ->
  createErrorResponse NODE_ENV st now err =
    Ok (let response :=
          respond (prop err "message") (prop err "type") (prop err "statusCode")
            (base_response now) in
        if negb (bool_decide (NODE_ENV = Some "production"))
           && JS.truthy (prop err "details")
        then <["details" := prop err "details"]> response
        else response).
Proof.
  intros Hname Happ. unfold createErrorResponse.
  rewrite (get_initialized st c "VERBOSE" initialised). cbn [mbind result_bind].
  now rewrite Hname, Happ.
Qed.

Lemma createErrorResponse_transport_branch (err : thrown) :
  transport_failure err = true ->
  unclassified err = false ->
  createErrorResponse NODE_ENV st now err =
    Ok (if JS.eq_str (prop err "code") "ECONNREFUSED" then
          respond (JStr "Service temporarily unavailable") (JStr ErrorTypes.NETWORK)
            (JS.int 503) (base_response now)
        else if JS.eq_str (prop err "code") "ETIMEDOUT"
                || JS.eq_str (prop err "name") "TimeoutError" then
          respond (JStr "Request timeout") (JStr ErrorTypes.TIMEOUT) (JS.int 504)
            (base_response now)
        else
          respond (JStr "Resource not found") (JStr ErrorTypes.NOT_FOUND) (JS.int 404)
            (base_response now)).
Proof.
  unfold transport_failure, unclassified. intros Ht Hu.
  apply andb_true_iff in Ht as [Hname Happ].
  rewrite Hname, Happ in Hu. cbn [andb] in Hu.
  apply negb_true_iff in Hname, Happ.
  unfold createErrorResponse.
  rewrite (get_initialized st c "VERBOSE" initialised). cbn [mbind result_bind].
  rewrite Hname, Happ.
  destruct (JS.eq_str (prop err "code") "ECONNREFUSED"); [reflexivity|].
  destruct (JS.eq_str (prop err "code") "ETIMEDOUT"); [reflexivity|].
  destruct (JS.eq_str (prop err "name") "TimeoutError"); [reflexivity|].
  cbn [orb]. destruct (JS.eq_str (prop err "code") "ENOENT"); [reflexivity|].
  discriminate Hu.
Qed.

End ErrorBranches.

Lemma createErrorResponse_validation_branch
  (NODE_ENV : option string) (st : Config.module_state) (c : Config.jsobject)
  (now : string) (err : ErrorHandler.thrown) :
  Config.config st = Some c ->
  JS.eq_str (ErrorHandler.prop err "name") "ValidationError" = true ->
  ErrorHandler.createErrorResponse NODE_ENV st now err =
    Ok (ErrorHandler.respond
          (JS.or (ErrorHandler.prop err "userMessage") (ErrorHandler.prop err "message"))
          (JStr ErrorHandler.ErrorTypes.VALIDATION) (JS.int 400)
          (ErrorHandler.base_response now)).
Proof.
  intros Hc Hname. unfold ErrorHandler.createErrorResponse.
  rewrite (get_initialized st c "VERBOSE" Hc). cbn [mbind result_bind].
  now rewrite Hname.
Qed.

Lemma respond_lookup (message type statusCode : jsval) (response : gmap string jsval) :
  ErrorHandler.respond message type statusCode response !! "message" = Some message
  /\ ErrorHandler.respond message type statusCode response !! "type" = Some type
  /\ ErrorHandler.respond message type statusCode response !! "statusCode"
     = Some statusCode
  /\ (forall k, k <> "message" -> k <> "type" -> k <> "statusCode" ->
       ErrorHandler.respond message type statusCode response !! k = response !! k).
Proof.
  unfold ErrorHandler.respond. split_and!.
  - rewrite !lookup_insert_ne by discriminate. apply lookup_insert_eq.
  - rewrite lookup_insert_ne by discriminate. apply lookup_insert_eq.
  - apply lookup_insert_eq.
  - intros k H1 H2 H3. now rewrite !lookup_insert_ne by congruence.
Qed.

Lemma base_response_lookup (now : string) :
  ErrorHandler.base_response now !! "error" = Some (JBool true)
  /\ ErrorHandler.base_response now !! "timestamp" = Some (JStr now)
  /\ ErrorHandler.base_response now !! "message" = Some (JStr "An error occurred")
  /\ ErrorHandler.base_response now !! "type" = Some (JStr "internal_error")
  /\ ErrorHandler.base_response now !! "statusCode" = None
  /\ ErrorHandler.base_response now !! "stack" = None
  /\ ErrorHandler.base_response now !! "details" = None.
Proof. unfold ErrorHandler.base_response. split_and!; by simplify_map_eq. Qed.

(** The properties of a classified response: the three of the branch,
    and the others as in the default response. *)
Lemma classified_lookup (message type statusCode : jsval) (now : string) :
  let response :=
    ErrorHandler.respond message type statusCode (ErrorHandler.base_response now) in
  response !! "message" = Some message
  /\ response !! "type" = Some type
  /\ response !! "statusCode" = Some statusCode
  /\ response !! "error" = Some (JBool true)
  /\ response !! "timestamp" = Some (JStr now)
  /\ response !! "stack" = None
  /\ response !! "details" = None.
Proof.
  destruct (respond_lookup message type statusCode (ErrorHandler.base_response now))
    as (H1 & H2 & H3 & H4).
  destruct (base_response_lookup now) as (B1 & B2 & _ & _ & _ & B6 & B7).
  cbn zeta. rewrite H1, H2, H3, !H4 by discriminate. now split_and!.
Qed.

Lemma AppError_fields (type message : string) (statusCode : Z) (details : jsval)
  (created : string) :
  let err := ErrorHandler.new_AppError type message statusCode details created in
  ErrorHandler.prop err "name" = JStr "AppError"
  /\ ErrorHandler.prop err "message" = JStr message
  /\ ErrorHandler.prop err "type" = JStr type
  /\ ErrorHandler.prop err "statusCode" = JS.int statusCode
  /\ ErrorHandler.prop err "details" = details.
Proof.
  cbn zeta. unfold ErrorHandler.prop, ErrorHandler.new_AppError.
  cbn [ErrorHandler.fields]. split_and!; by simplify_map_eq.
Qed.

(** X22. An [AppError] that is not named [ValidationError] is answered,
    in every mode and whatever [VERBOSE] is, with its own message, type
    and status and without a stack; its details are added outside
    production only, and only when they are truthy.  For the errors made
    by the seven constructors this gives the type and the status of each
    constructor, with the message as it was given or the default
    message. *)
Theorem createErrorResponse_application_error :
  (forall (NODE_ENV : option string) (st : Config.module_state) (c : Config.jsobject)
     (now : string) (err : ErrorHandler.thrown),
     Config.config st = Some c ->
     JS.eq_str (ErrorHandler.prop err "name") "ValidationError" = false ->
     ErrorHandler.instanceof_AppError err = true ->
     exists response,
       ErrorHandler.createErrorResponse NODE_ENV st now err = Ok response
       /\ response !! "message" = Some (ErrorHandler.prop err "message")
       /\ response !! "type" = Some (ErrorHandler.prop err "type")
       /\ response !! "statusCode" = Some (ErrorHandler.prop err "statusCode")
       /\ response !! "stack" = None
       /\ response !! "details"
          = (if negb (bool_decide (NODE_ENV = Some "production"))
                && JS.truthy (ErrorHandler.prop err "details")
             then Some (ErrorHandler.prop err "details") else None))
  /\ (forall (NODE_ENV : option string) (st : Config.module_state) (c : Config.jsobject)
        (now created : string),
        Config.config st = Some c ->
        (forall field message,
           response_triple
             (ErrorHandler.createErrorResponse NODE_ENV st now
                (ErrorHandler.validationError field message created))
           = Some (JStr "validation_error", JS.int 400, JStr message))
        /\ (forall resource,
              response_triple
                (ErrorHandler.createErrorResponse NODE_ENV st now
                   (ErrorHandler.notFoundError resource created))
              = Some (JStr "not_found", JS.int 404, JStr (resource ++ " not found")))
        /\ (forall retryAfter,
              response_triple
                (ErrorHandler.createErrorResponse NODE_ENV st now
                   (ErrorHandler.rateLimitError retryAfter created))
              = Some (JStr "rate_limit_exceeded", JS.int 429,
                      JStr "Too many requests, please try again later"))
        /\ (forall message,
              response_triple
                (ErrorHandler.createErrorResponse NODE_ENV st now
                   (ErrorHandler.internalError message created))
              = Some (JStr "internal_error", JS.int 500,
                      JStr (default "Internal server error" message)))
        /\ (forall message,
              response_triple
                (ErrorHandler.createErrorResponse NODE_ENV st now
                   (ErrorHandler.configurationError message created))
              = Some (JStr "configuration_error", JS.int 500, JStr message))
        /\ (forall message,
              response_triple
                (ErrorHandler.createErrorResponse NODE_ENV st now
                   (ErrorHandler.networkError message created))
              = Some (JStr "network_error", JS.int 503,
                      JStr (default "Network request failed" message)))
        /\ (forall message,
              response_triple
                (ErrorHandler.createErrorResponse NODE_ENV st now
                   (ErrorHandler.timeoutError message created))
              = Some (JStr "timeout_error", JS.int 504,
                      JStr (default "Request timeout" message)))).
Proof.
  split.
  - intros env st c now err Hc Hname Happ. eexists. split.
    + apply (createErrorResponse_AppError_branch env st c now Hc err Hname Happ).
    + cbn zeta.
      destruct (classified_lookup (ErrorHandler.prop err "message")
                  (ErrorHandler.prop err "type") (ErrorHandler.prop err "statusCode") now)
        as (H1 & H2 & H3 & _ & _ & H6 & H7).
      destruct (negb _ && _).
      * rewrite !lookup_insert_ne by discriminate. rewrite lookup_insert_eq.
        now split_and!.
      * now split_and!.
  - intros env st c now created Hc.
    assert (H : forall type message status details,
              response_triple
                (ErrorHandler.createErrorResponse env st now
                   (ErrorHandler.new_AppError type message status details created))
              = Some (JStr type, JS.int status, JStr message)).
    { intros type message status details.
      destruct (AppError_fields type message status details created)
        as (F1 & F2 & F3 & F4 & _).
      cbn zeta in F1, F2, F3, F4.
      rewrite (createErrorResponse_AppError_branch env st c now Hc)
        by (rewrite ?F1; reflexivity).
      cbn zeta. rewrite F2, F3, F4. unfold response_triple.
      destruct (classified_lookup (JStr message) (JStr type) (JS.int status) now)
        as (H1 & H2 & H3 & _).
      destruct (negb _ && _).
      - rewrite !lookup_insert_ne by discriminate. now rewrite H1, H2, H3.
      - now rewrite H1, H2, H3. }
    unfold ErrorHandler.validationError, ErrorHandler.notFoundError,
      ErrorHandler.rateLimitError, ErrorHandler.internalError,
      ErrorHandler.configurationError, ErrorHandler.networkError,
      ErrorHandler.timeoutError.
    cbn zeta. split_and!; intros; rewrite H; reflexivity.
Qed.

(** The theorem at a validation error for a field, in production. *)
Lemma createErrorResponse_application_error_witness :
  exists response,
    ErrorHandler.createErrorResponse (Some "production") quiet_state
      "2025-11-18T10:00:00.000Z"
      (ErrorHandler.validationError "email" "Email is malformed"
         "2025-11-18T09:59:59.000Z") = Ok response
    /\ response !! "message" = Some (JStr "Email is malformed")
    /\ response !! "statusCode" = Some (JS.int 400)
    /\ response !! "details" = None.
Proof.
  destruct (proj1 createErrorResponse_application_error (Some "production") quiet_state
              (Config.mkObject (<["VERBOSE" := Config.CBool false]> ∅) true)
              "2025-11-18T10:00:00.000Z"
              (ErrorHandler.validationError "email" "Email is malformed"
                 "2025-11-18T09:59:59.000Z") eq_refl eq_refl eq_refl)
    as (response & H & Hm & _ & Hs & _ & Hd).
  exists response. split_and!; assumption.
Defined.

(** X23. A failure with a transport code, that is neither a validation
    failure nor an [AppError], is answered with a fixed message, type and
    status: 503 for [ECONNREFUSED]; otherwise 504 for [ETIMEDOUT] or the
    name [TimeoutError]; otherwise 404 for [ENOENT].  The text of the
    failure, its stack and its details are not in the answer, in any mode
    and whatever [VERBOSE] is. *)
Theorem createErrorResponse_transport_failure :
  forall (NODE_ENV : option string) (st : Config.module_state) (c : Config.jsobject)
    (now : string) (err : ErrorHandler.thrown),
    Config.config st = Some c ->
    transport_failure err = true ->
    unclassified err = false ->
    response_triple (ErrorHandler.createErrorResponse NODE_ENV st now err)
    = Some (if JS.eq_str (ErrorHandler.prop err "code") "ECONNREFUSED" then
              (JStr "network_error", JS.int 503, JStr "Service temporarily unavailable")
            else if JS.eq_str (ErrorHandler.prop err "code") "ETIMEDOUT"
                    || JS.eq_str (ErrorHandler.prop err "name") "TimeoutError" then
              (JStr "timeout_error", JS.int 504, JStr "Request timeout")
            else (JStr "not_found", JS.int 404, JStr "Resource not found"))
    /\ response_field (ErrorHandler.createErrorResponse NODE_ENV st now err) "stack" = None
    /\ response_field (ErrorHandler.createErrorResponse NODE_ENV st now err) "details"
       = None.
Proof.
  intros env st c now err Hc Ht Hu.
  rewrite (createErrorResponse_transport_branch env st c now Hc err Ht Hu).
  unfold response_triple, response_field.
  destruct (JS.eq_str (ErrorHandler.prop err "code") "ECONNREFUSED");
    [|destruct (_ || _)];
    match goal with
    | |- context [ErrorHandler.respond ?m ?t ?s (ErrorHandler.base_response now)] =>
        destruct (classified_lookup m t s now) as (H1 & H2 & H3 & _ & _ & H6 & H7)
    end;
    rewrite H1, H2, H3, H6, H7; now split_and!.
Qed.

(** The theorem at a refused connection whose message names a host. *)
Lemma createErrorResponse_transport_failure_witness :
  response_triple
    (ErrorHandler.createErrorResponse None quiet_state "2025-11-18T10:00:00.000Z"
       (ErrorHandler.mkThrown false
          (<["name" := JStr "Error"]>
            (<["code" := JStr "ECONNREFUSED"]>
              (<["message" := JStr "connect ECONNREFUSED 10.0.0.5:5432"]> ∅)))))
  = Some (JStr "network_error", JS.int 503, JStr "Service temporarily unavailable").
Proof.
  destruct (createErrorResponse_transport_failure None quiet_state
              (Config.mkObject (<["VERBOSE" := Config.CBool false]> ∅) true)
              "2025-11-18T10:00:00.000Z"
              (ErrorHandler.mkThrown false
                 (<["name" := JStr "Error"]>
                   (<["code" := JStr "ECONNREFUSED"]>
                     (<["message" := JStr "connect ECONNREFUSED 10.0.0.5:5432"]> ∅)))))
    as (H & _);
    [vm_compute; reflexivity | vm_compute; reflexivity | vm_compute; reflexivity |].
  rewrite H. vm_compute. reflexivity.
Defined.

(** X24. Every response has the flag [error], the time of its creation, a
    message, a type and a status.  It has a stack only for a failure that
    is not classified, and then only outside production or with [VERBOSE]
    on; it has details only in that case, or for an [AppError] outside
    production.  So in production with [VERBOSE] off no response has a
    stack or details. *)
Theorem createErrorResponse_disclosure :
  forall (NODE_ENV : option string) (st : Config.module_state) (c : Config.jsobject)
    (now : string) (err : ErrorHandler.thrown) (response : gmap string jsval),
    Config.config st = Some c ->
    ErrorHandler.createErrorResponse NODE_ENV st now err = Ok response ->
    response !! "error" = Some (JBool true)
    /\ response !! "timestamp" = Some (JStr now)
    /\ is_Some (response !! "message")
    /\ is_Some (response !! "type")
    /\ is_Some (response !! "statusCode")
    /\ (is_Some (response !! "stack") ->
        unclassified err = true
        /\ (NODE_ENV <> Some "production"
            \/ Config.truthy_opt (Config.props c !! "VERBOSE") = true))
    /\ (is_Some (response !! "details") ->
        (unclassified err = true
         /\ (NODE_ENV <> Some "production"
             \/ Config.truthy_opt (Config.props c !! "VERBOSE") = true))
        \/ (ErrorHandler.instanceof_AppError err = true
            /\ NODE_ENV <> Some "production")).
Proof.
  intros env st c now err response Hc.
  assert (Hclassified : forall (r : gmap string jsval) m t s,
    r = ErrorHandler.respond m t s (ErrorHandler.base_response now) ->
    r !! "error" = Some (JBool true)
    /\ r !! "timestamp" = Some (JStr now)
    /\ is_Some (r !! "message")
    /\ is_Some (r !! "type")
    /\ is_Some (r !! "statusCode")
    /\ r !! "stack" = None
    /\ r !! "details" = None).
  { intros r m t s ->.
    destruct (classified_lookup m t s now) as (H1 & H2 & H3 & H4 & H5 & H6 & H7).
    rewrite H1, H2, H3. now split_and!. }
  assert (Hnone : forall x : option jsval, x = None -> is_Some x -> False).
  { intros x -> [y Hy]. discriminate. }
  destruct (JS.eq_str (ErrorHandler.prop err "name") "ValidationError") eqn:Hname.
  { rewrite (createErrorResponse_validation_branch env st c now err Hc Hname).
    intros E. apply Ok_inj in E. symmetry in E.
    destruct (Hclassified _ _ _ _ E) as (H1 & H2 & H3 & H4 & H5 & H6 & H7).
    split_and!; try assumption; intros Hs; exfalso; eauto. }
  destruct (ErrorHandler.instanceof_AppError err) eqn:Happ.
  { rewrite (createErrorResponse_AppError_branch env st c now Hc err Hname Happ).
    cbn zeta.
    destruct (Hclassified _ (ErrorHandler.prop err "message") (ErrorHandler.prop err "type")
                (ErrorHandler.prop err "statusCode") eq_refl)
      as (H1 & H2 & H3 & H4 & H5 & H6 & H7).
    destruct (bool_decide_reflect (env = Some "production")) as [Hp|Hp];
      cbn [negb andb]; [|destruct (JS.truthy _)];
      intros E; apply Ok_inj in E; subst response;
      rewrite ?(lookup_insert_ne _ "details") by discriminate.
    - split_and!; try assumption; intros Hs; exfalso; eauto.
    - split_and!; try assumption; [intros Hs; exfalso; eauto | intros _; now right].
    - split_and!; try assumption; intros Hs; exfalso; eauto. }
  destruct (base_response_lookup now) as (B1 & B2 & B3 & B4 & B5 & B6 & B7).
  destruct (unclassified err) eqn:Hu.
  - rewrite (createErrorResponse_unclassified env st now c err Hc Hu).
    destruct (bool_decide_reflect (env = Some "production")) as [Hp|Hp]; cbn [negb orb];
      [destruct (Config.truthy_opt (Config.props c !! "VERBOSE")) eqn:Hv|];
      intros E; apply Ok_inj in E; subst response;
      rewrite ?(lookup_insert_ne _ "statusCode") by discriminate;
      rewrite ?(lookup_insert_ne _ "details") by discriminate;
      rewrite ?(lookup_insert_ne _ "stack") by discriminate;
      rewrite ?(lookup_insert_ne _ "message") by discriminate;
      rewrite ?lookup_insert_eq.
    + split_and!; eauto.
    + split_and!; eauto; intros Hs; exfalso; eauto.
    + split_and!; eauto.
  - assert (Ht : transport_failure err = true)
      by (unfold transport_failure; now rewrite Hname, Happ).
    rewrite (createErrorResponse_transport_branch env st c now Hc err Ht Hu).
    destruct (JS.eq_str (ErrorHandler.prop err "code") "ECONNREFUSED");
      [|destruct (_ || _)]; intros E; apply Ok_inj in E; symmetry in E;
      destruct (Hclassified _ _ _ _ E) as (H1 & H2 & H3 & H4 & H5 & H6 & H7);
      split_and!; try assumption; intros Hs; exfalso; eauto.
Qed.

(** The theorem at the database failure in production with [VERBOSE]
    off. *)
Lemma createErrorResponse_disclosure_witness :
  exists response,
    ErrorHandler.createErrorResponse (Some "production") quiet_state
      "2025-11-18T10:00:00.000Z" database_failure = Ok response
    /\ response !! "error" = Some (JBool true)
    /\ response !! "timestamp" = Some (JStr "2025-11-18T10:00:00.000Z")
    /\ response !! "stack" = None.
Proof.
  destruct (ErrorHandler.createErrorResponse (Some "production") quiet_state
              "2025-11-18T10:00:00.000Z" database_failure) as [response|e] eqn:E;
    [|discriminate E].
  destruct (createErrorResponse_disclosure (Some "production") quiet_state
              (Config.mkObject (<["VERBOSE" := Config.CBool false]> ∅) true)
              "2025-11-18T10:00:00.000Z" database_failure response eq_refl E)
    as (H1 & H2 & _ & _ & _ & Hstack & _).
  exists response. split_and!; try done.
  destruct (response !! "stack") as [x|] eqn:Hx; [|reflexivity].
  destruct (Hstack (ex_intro _ x eq_refl)) as [_ [Hp|Hv]];
    [now contradiction Hp | discriminate Hv].
Defined.

(** ** Logging and the handlers *)

Lemma createErrorResponse_total
  (NODE_ENV : option string) (st : Config.module_state) (c : Config.jsobject)
  (now : string) (err : ErrorHandler.thrown) :
  Config.config st = Some c ->
  exists response, ErrorHandler.createErrorResponse NODE_ENV st now err = Ok response.
Proof.
  intros Hc. unfold ErrorHandler.createErrorResponse.
  rewrite (get_initialized st c "VERBOSE" Hc). cbn [mbind result_bind].
  repeat match goal with
         | |- context [if ?b then _ else _] => destruct b
         end; eauto.
Qed.

(** X25. Before the configuration is initialised, [createErrorResponse],
    [logError], [errorMiddleware] and [notFoundHandler] throw the error of
    the configuration module, whatever failure or request they are given:
    a failure cannot be answered before [initConfig] has succeeded. *)
Theorem handlers_need_configuration :
  forall (NODE_ENV : option string) (h : Config.heap)
    (platform : ErrorHandler.LogPlatform) (now0 now1 now2 stack : string)
    (err : ErrorHandler.thrown) (req : ErrorHandler.request)
    (context : list (string * jsval)),
    ErrorHandler.createErrorResponse NODE_ENV (Config.mkState None h) now1 err
    = Throw Config.not_initialized
    /\ ErrorHandler.logError NODE_ENV (Config.mkState None h) platform now1 err
         (Some req) context
       = Throw Config.not_initialized
    /\ ErrorHandler.errorMiddleware NODE_ENV (Config.mkState None h) platform now1 now2
         err req
       = Throw Config.not_initialized
    /\ ErrorHandler.notFoundHandler NODE_ENV (Config.mkState None h) platform now0 now1
         now2 stack req
       = Throw Config.not_initialized.
Proof. intros. split_and!; reflexivity. Qed.

Lemma logError_skipped
  (NODE_ENV : option string) (st : Config.module_state) (c : Config.jsobject)
  (platform : ErrorHandler.LogPlatform) (now : string) (err : ErrorHandler.thrown)
  (req : option ErrorHandler.request) (context : list (string * jsval)) :
  Config.config st = Some c ->
  Config.props c !! "LOG_LEVEL" = Some (Config.CStr "error") ->
  JS.eq_str (ErrorHandler.context_level context) "error" = false ->
  ErrorHandler.logError NODE_ENV st platform now err req context
  = Ok ErrorHandler.no_effects.
Proof.
  intros Hc Hlevel Hctx. unfold ErrorHandler.logError.
  rewrite !(get_initialized st c _ Hc). cbn [mbind result_bind].
  now rewrite Hlevel, Hctx.
Qed.

(** X26. With [LOG_LEVEL] set to [error], [logError] writes nothing
    unless the context it is given has the level [error].  No call in the
    module gives such a context: [errorMiddleware] gives none,
    [notFoundHandler] gives [warn], the handlers of uncaught exceptions
    and of unhandled rejections give [critical].  So with this level
    [errorMiddleware] and [notFoundHandler] write nothing, and no log
    entry is written for an uncaught exception or an unhandled rejection,
    on the console or in the file: all that their handlers write is the
    two console lines they print themselves, the title and the failure.
    The handler of uncaught exceptions schedules the exit with status 1
    after one second; the handler of rejections schedules none. *)
Theorem logError_silent_at_level_error :
  forall (NODE_ENV : option string) (st : Config.module_state) (c : Config.jsobject)
    (platform : ErrorHandler.LogPlatform),
    Config.config st = Some c ->
    Config.props c !! "LOG_LEVEL" = Some (Config.CStr "error") ->
    (forall now err req context,
       JS.eq_str (ErrorHandler.context_level context) "error" = false ->
       ErrorHandler.logError NODE_ENV st platform now err req context
       = Ok ErrorHandler.no_effects)
    /\ (forall now1 now2 err req,
          exists answer,
            ErrorHandler.errorMiddleware NODE_ENV st platform now1 now2 err req
            = Ok (ErrorHandler.no_effects, answer))
    /\ (forall now0 now1 now2 stack req,
          exists answer,
            ErrorHandler.notFoundHandler NODE_ENV st platform now0 now1 now2 stack req
            = Ok (ErrorHandler.no_effects, answer))
    /\ (forall now err,
          ErrorHandler.logError NODE_ENV st platform now err None
            ErrorHandler.uncaught_context
          = Ok ErrorHandler.no_effects)
    /\ (forall inspect now err,
          ErrorHandler.handleUncaughtException NODE_ENV st platform inspect now err
          = ErrorHandler.mkHandled ["--- Uncaught Exception ---"; inspect err]
              (Ok ErrorHandler.no_effects) (Some (1000, 1)%Z))
    /\ (forall inspect now stack reason promise,
          ErrorHandler.handleUnhandledRejection NODE_ENV st platform inspect now stack
            reason promise
          = ErrorHandler.mkHandled
              ["--- Unhandled Rejection ---";
               inspect (ErrorHandler.rejection_error reason stack)]
              (Ok ErrorHandler.no_effects) None).
Proof.
  intros env st c platform Hc Hlevel. split_and!.
  - intros. now apply (logError_skipped env st c).
  - intros now1 now2 err req. unfold ErrorHandler.errorMiddleware.
    rewrite (logError_skipped env st c) by (assumption || reflexivity).
    destruct (createErrorResponse_total env st c now2 err Hc) as [response ->].
    cbn [mbind result_bind]. eauto.
  - intros now0 now1 now2 stack req. unfold ErrorHandler.notFoundHandler.
    rewrite (logError_skipped env st c) by (assumption || reflexivity).
    match goal with
    | |- context [ErrorHandler.createErrorResponse env st now2 ?e] =>
        destruct (createErrorResponse_total env st c now2 e Hc) as [response ->]
    end.
    cbn [mbind result_bind]. eauto.
  - intros. now apply (logError_skipped env st c).
  - intros inspect now err. unfold ErrorHandler.handleUncaughtException.
    now rewrite (logError_skipped env st c) by (assumption || reflexivity).
  - intros inspect now stack reason promise.
    unfold ErrorHandler.handleUnhandledRejection.
    now rewrite (logError_skipped env st c) by (assumption || reflexivity).
Qed.

(** The theorem at the database failure, with the console and the file
    switched on: as a failure of a request, as an uncaught exception and
    as the reason of a rejection. *)
Lemma logError_silent_at_level_error_witness :
  (exists answer,
     ErrorHandler.errorMiddleware (Some "production") (handler_state true true "error")
       quiet_platform "2025-11-18T10:00:00.000Z" "2025-11-18T10:00:00.001Z"
       database_failure sample_request
     = Ok (ErrorHandler.no_effects, answer))
  /\ ErrorHandler.handleUncaughtException (Some "production")
       (handler_state true true "error") quiet_platform (fun _ => "[Error]")
       "2025-11-18T10:00:00.000Z" database_failure
     = ErrorHandler.mkHandled ["--- Uncaught Exception ---"; "[Error]"]
         (Ok ErrorHandler.no_effects) (Some (1000, 1)%Z)
  /\ ErrorHandler.handleUnhandledRejection (Some "production")
       (handler_state true true "error") quiet_platform (fun _ => "[Error]")
       "2025-11-18T10:00:00.000Z" "Error: 42" (ErrorHandler.ReasonOther "42")
       "[object Promise]"
     = ErrorHandler.mkHandled ["--- Unhandled Rejection ---"; "[Error]"]
         (Ok ErrorHandler.no_effects) None.
Proof.
  destruct (logError_silent_at_level_error (Some "production")
              (handler_state true true "error")
              (Config.mkObject
                 (<["VERBOSE" := Config.CBool true]>
                   (<["ENABLE_FILE_LOGGING" := Config.CBool true]>
                     (<["LOG_LEVEL" := Config.CStr "error"]>
                       (<["LOG_DIR" := Config.CStr "./logs"]> ∅))))
                 true)
              quiet_platform eq_refl) as (_ & H & _ & _ & Hu & Hr).
  - vm_compute. reflexivity.
  - split_and!.
    + apply H.
    + apply Hu.
    + apply Hr.
Defined.



Lemma assoc_fmap_values {A B : Type} (f : A -> B) (key : string)
  (l : list (string * A)) :
  Validation.assoc key ((fun kv => (kv.1, f kv.2)) <$> l) = f <$> Validation.assoc key l.
Proof.
  induction l as [|[k v] l IH]; simpl; [reflexivity|].
  now destruct (String.eqb k key).
Qed.



Lemma or_else_nonempty (a : option string) (b : string) :
  b <> "" -> ErrorHandler.or_else a b <> "".
Proof.
  intros Hb. unfold ErrorHandler.or_else.
  destruct a as [s|]; [|exact Hb].
  destruct (String.eqb_spec s ""); assumption.
Qed.

(** X28. [getClientIp] never returns the empty string.  When the request
    has a header [x-forwarded-for] whose text before the first comma is
    not empty, that text is the result, whatever the addresses of the
    connection are; when the request has no address at all the result is
    [unknown]. *)
Theorem getClientIp_result (req : ErrorHandler.request) :
  ErrorHandler.getClientIp req <> ""
  /\ (forall s,
        Validation.assoc "x-forwarded-for" (ErrorHandler.req_headers req) = Some s ->
        ErrorHandler.first_segment s <> "" ->
        ErrorHandler.getClientIp req = ErrorHandler.first_segment s)
  /\ (Validation.assoc "x-forwarded-for" (ErrorHandler.req_headers req) = None ->
      Validation.assoc "x-real-ip" (ErrorHandler.req_headers req) = None ->
      ErrorHandler.connection_remoteAddress req = None ->
      ErrorHandler.socket_remoteAddress req = None ->
      ErrorHandler.connection_socket_remoteAddress req = None ->
      ErrorHandler.getClientIp req = "unknown").
Proof.
  unfold ErrorHandler.getClientIp. split_and!.
  - repeat apply or_else_nonempty. discriminate.
  - intros s -> Hs. cbn [fmap option_fmap option_map ErrorHandler.or_else].
    apply String.eqb_neq in Hs. now rewrite Hs.
  - now intros -> -> -> -> ->.
Qed.

(** The theorem at the sample request, whose connection comes from a
    proxy. *)
Lemma getClientIp_result_witness :
  ErrorHandler.getClientIp sample_request = "203.0.113.7".
Proof.
  apply (proj1 (proj2 (getClientIp_result sample_request)) "203.0.113.7, 10.0.0.1").
  - reflexivity.
  - vm_compute. discriminate.
Defined.

(** ** sanitizeRequest *)

Lemma strip_nul_clean (s : string) : contains_char nul (Security.strip_nul s) = false.
Proof.
  apply (all_chars_contains (fun c => negb (ascii_eqb nul c))).
  - unfold ascii_eqb. now rewrite Ascii.eqb_refl.
  - apply replace_class_empty_clean.
Qed.

Lemma strip_nul_idem (s : string) :
  Security.strip_nul (Security.strip_nul s) = Security.strip_nul s.
Proof. apply replace_class_empty_none, replace_class_empty_clean. Qed.

Lemma sanitize_property_idem (v : Validation.json) :
  Security.sanitize_property (Security.sanitize_property v) = Security.sanitize_property v.
Proof. destruct v; simpl; try reflexivity. now rewrite strip_nul_idem. Qed.

Lemma sanitize_properties_idem (fields : list (string * Validation.json)) :
  Security.sanitize_properties (Security.sanitize_properties fields)
  = Security.sanitize_properties fields.
Proof.
  unfold Security.sanitize_properties.
  induction fields as [|[k v] fields IH]; simpl; [reflexivity|].
  rewrite sanitize_property_idem. f_equal. exact IH.
Qed.

Lemma sanitize_body_idem (b : Validation.json) :
  Security.sanitize_body (Security.sanitize_body b) = Security.sanitize_body b.
Proof.
  destruct b as [| | | |items|fields]; cbn [Security.sanitize_body]; try reflexivity.
  - f_equal. induction items as [|v items IH]; simpl; [reflexivity|].
    rewrite sanitize_property_idem. f_equal. exact IH.
  - now rewrite sanitize_properties_idem.
Qed.

Lemma assoc_sanitize_properties (key : string) (fields : list (string * Validation.json)) :
  Validation.assoc key (Security.sanitize_properties fields)
  = Security.sanitize_property <$> Validation.assoc key fields.
Proof. apply assoc_fmap_values. Qed.

Lemma sanitize_property_string (v : Validation.json) (s : string) :
  Security.sanitize_property v = Validation.JsStr s -> contains_char nul s = false.
Proof.
  destruct v; simpl; try discriminate. intros [= <-]. apply strip_nul_clean.
Qed.

Lemma nul_test (c : ascii) : ascii_eqb nul c = (code c =? 0).
Proof. each_ascii c; reflexivity. Qed.

Lemma strip_nul_without_nul (s : string) : Security.strip_nul s = without_nul s.
Proof.
  unfold Security.strip_nul, replace_char. fold nul.
  induction s as [|c s IH]; [reflexivity|].
  cbn [replace_class without_nul]. rewrite IH, nul_test.
  now destruct (code c =? 0).
Qed.

Lemma sanitize_property_cleaned (v : Validation.json) :
  Security.sanitize_property v = cleaned v.
Proof. destruct v; simpl; try reflexivity. now rewrite strip_nul_without_nul. Qed.

Lemma sanitize_properties_keys (fields : list (string * Validation.json)) :
  (Security.sanitize_properties fields).*1 = fields.*1.
Proof.
  unfold Security.sanitize_properties.
  induction fields as [|[k v] fields IH]; simpl; [reflexivity|].
  f_equal. exact IH.
Qed.

(** X29. [sanitizeRequest] removes the NUL characters from the strings
    that are properties of the query and of the body, and from nothing
    else.  The query keeps its keys, and each of its properties is the
    one before the call, without its NUL characters when it is a string
    and unchanged otherwise.  A body that is a plain object is treated in
    the same way; of a body that is an array every element that is a
    string loses its NUL characters and every other element is unchanged;
    a body that is no object is left as it is; a query or a body that is
    not there stays absent.  So a property that is not a string, such as
    a list of names, is left with the NUL characters it may hold.  After
    the call no string property of the query or of the body has a NUL
    character, and a second call changes nothing. *)
Theorem sanitizeRequest_top_level_strings :
  (forall req : Security.request,
     Security.sanitizeRequest (Security.sanitizeRequest req) = Security.sanitizeRequest req)
  /\ (forall (req : Security.request) (b : Validation.json) (key s : string),
        Security.body (Security.sanitizeRequest req) = Some b ->
        Validation.body_prop_json b key = Some (Validation.JsStr s) ->
        contains_char nul s = false)
  /\ (forall (req : Security.request) (fields : list (string * Validation.json))
        (key s : string),
        Security.query (Security.sanitizeRequest req) = Some fields ->
        Validation.assoc key fields = Some (Validation.JsStr s) ->
        contains_char nul s = false)
  /\ (forall (req : Security.request) (b v : Validation.json) (key : string),
        Security.body req = Some b ->
        Validation.body_prop_json b key = Some v ->
        (forall s, v <> Validation.JsStr s) ->
        exists b',
          Security.body (Security.sanitizeRequest req) = Some b'
          /\ Validation.body_prop_json b' key = Some v)
  /\ (forall (req : Security.request) (fields : list (string * Validation.json)),
        Security.query req = Some fields ->
        exists fields',
          Security.query (Security.sanitizeRequest req) = Some fields'
          /\ fields'.*1 = fields.*1
          /\ forall key, Validation.assoc key fields' = cleaned <$> Validation.assoc key fields)
  /\ (forall (req : Security.request) (fields : list (string * Validation.json)),
        Security.body req = Some (Validation.JsObj fields) ->
        exists fields',
          Security.body (Security.sanitizeRequest req) = Some (Validation.JsObj fields')
          /\ fields'.*1 = fields.*1
          /\ forall key, Validation.assoc key fields' = cleaned <$> Validation.assoc key fields)
  /\ (forall (req : Security.request) (items : list Validation.json),
        Security.body req = Some (Validation.JsArr items) ->
        exists items',
          Security.body (Security.sanitizeRequest req) = Some (Validation.JsArr items')
          /\ length items' = length items
          /\ forall i : nat, items' !! i = cleaned <$> items !! i)
  /\ (forall (req : Security.request) (b : Validation.json),
        Security.body req = Some b ->
        Validation.is_object b = false ->
        Security.body (Security.sanitizeRequest req) = Some b)
  /\ (forall req : Security.request,
        (Security.query req = None -> Security.query (Security.sanitizeRequest req) = None)
        /\ (Security.body req = None -> Security.body (Security.sanitizeRequest req) = None))
  /\ (forall (s : string) (c : ascii),
        contains_char c (without_nul s) = negb (code c =? 0) && contains_char c s).
Proof.
  split_and!.
  - intros [q b]. unfold Security.sanitizeRequest. cbn [Security.query Security.body].
    f_equal.
    + destruct q as [fields|]; [|reflexivity].
      cbn [fmap option_fmap option_map]. now rewrite sanitize_properties_idem.
    + destruct b as [b|]; [|reflexivity].
      cbn [fmap option_fmap option_map]. now rewrite sanitize_body_idem.
  - intros [q b0] b key s. unfold Security.sanitizeRequest. cbn [Security.body].
    destruct b0 as [b0|]; [|discriminate].
    cbn [fmap option_fmap option_map]. intros [= <-].
    destruct b0 as [| | | |items|fields]; try discriminate.
    cbn [Security.sanitize_body Validation.body_prop_json].
    rewrite assoc_sanitize_properties.
    destruct (Validation.assoc key fields) as [v|]; [|discriminate].
    cbn [fmap option_fmap option_map].
    intros [= H]. now apply (sanitize_property_string v).
  - intros [q b0] fields key s. unfold Security.sanitizeRequest. cbn [Security.query].
    destruct q as [q|]; [|discriminate].
    cbn [fmap option_fmap option_map]. intros [= <-].
    rewrite assoc_sanitize_properties.
    destruct (Validation.assoc key q) as [v|]; [|discriminate].
    cbn [fmap option_fmap option_map].
    intros [= H]. now apply (sanitize_property_string v).
  - intros [q b0] b v key. cbn [Security.body]. intros -> Hv Hns.
    eexists. split; [reflexivity|].
    destruct b as [| | | |items|fields]; try discriminate.
    cbn [Security.sanitize_body Validation.body_prop_json] in *.
    rewrite assoc_sanitize_properties, Hv. cbn [fmap option_fmap option_map].
    destruct v; try reflexivity. now contradiction (Hns s).
  - intros [q b0] fields. cbn [Security.query]. intros ->.
    eexists. split_and!; [reflexivity|apply sanitize_properties_keys|].
    intros key. rewrite assoc_sanitize_properties.
    destruct (Validation.assoc key fields) as [v|]; [|reflexivity].
    cbn [fmap option_fmap option_map]. now rewrite sanitize_property_cleaned.
  - intros [q b0] fields. cbn [Security.body]. intros ->.
    eexists. split_and!; [reflexivity|apply sanitize_properties_keys|].
    intros key. rewrite assoc_sanitize_properties.
    destruct (Validation.assoc key fields) as [v|]; [|reflexivity].
    cbn [fmap option_fmap option_map]. now rewrite sanitize_property_cleaned.
  - intros [q b0] items. cbn [Security.body]. intros ->.
    eexists. split_and!; [reflexivity|apply length_fmap|].
    intros i. rewrite list_lookup_fmap.
    destruct (items !! i) as [v|]; [|reflexivity].
    cbn [fmap option_fmap option_map]. now rewrite sanitize_property_cleaned.
  - intros [q b0] b. cbn [Security.body]. intros -> Hobj.
    unfold Security.sanitizeRequest. cbn [Security.body fmap option_fmap option_map].
    destruct b; (discriminate || reflexivity).
  - intros [q b0]. cbn [Security.query Security.body]. now split; intros ->.
  - intros s c. induction s as [|d s IH]; cbn [without_nul contains_char].
    + now rewrite andb_false_r.
    + destruct (code d =? 0) eqn:Hd.
      * rewrite IH. unfold ascii_eqb.
        destruct (Ascii.eqb_spec c d) as [->|Hne]; [|reflexivity].
        now rewrite Hd.
      * cbn [contains_char]. rewrite IH. unfold ascii_eqb.
        destruct (Ascii.eqb_spec c d) as [->|Hne]; [|reflexivity].
        now rewrite Hd.
Qed.

(** The theorem at a body whose [uuid] and whose list of names hold a
    NUL character: the first is cleaned, the second is not; and at a body
    that is an array of a text, a list and a number: the text is cleaned,
    the list and the number are not. *)
Lemma sanitizeRequest_top_level_strings_witness :
  (exists b',
     Security.body (Security.sanitizeRequest request_with_nul) = Some b'
     /\ Validation.body_prop_json b' "string"
        = Some (Validation.JsArr [Validation.JsStr (String "j" (String nul "o"))])
     /\ Validation.body_prop_json b' "uuid" = Some (Validation.JsStr "abc-12345"))
  /\ (exists items',
        Security.body (Security.sanitizeRequest array_request_with_nul)
        = Some (Validation.JsArr items')
        /\ items' !! 0 = Some (Validation.JsStr "ab")
        /\ items' !! 1 = Some (Validation.JsArr [Validation.JsStr (String nul "c")])
        /\ items' !! 2 = Some (Validation.JsNum (Fin 7))
        /\ length items' = 3).
Proof.
  destruct sanitizeRequest_top_level_strings as (_ & _ & _ & H & _ & _ & Ha & _).
  split.
  - destruct (H request_with_nul
                (Validation.JsObj
                   [ ("uuid", Validation.JsStr (String nul "abc-12345"));
                     ("string",
                      Validation.JsArr [Validation.JsStr (String "j" (String nul "o"))]) ])
                (Validation.JsArr [Validation.JsStr (String "j" (String nul "o"))])
                "string" eq_refl eq_refl) as (b' & Hb & Hs).
    + discriminate.
    + exists b'. split_and!; try assumption.
      vm_compute in Hb. injection Hb as <-. reflexivity.
  - destruct (Ha array_request_with_nul _ eq_refl) as (items' & Hb & Hlen & Hi).
    exists items'. split_and!; [exact Hb|rewrite Hi; reflexivity..|exact Hlen].
Defined.

(** ** The CORS middleware *)

(** X30. When CORS is enabled, [setupSecurityHeaders] installs a
    middleware that holds the array of allowed origins itself.  For every
    request the middleware sets the four CORS headers exactly when the
    origin of the request is an element of that array at that time, with
    the origin as the allowed origin; it answers every [OPTIONS] request
    with status 200, allowed or not, and passes every other request on.
    An origin that is pushed on the array handed out by [getAll] after
    the set-up is allowed from then on. *)
Theorem cors_allow_list_is_shared :
  forall (st : Config.module_state) (enabled : option Config.cval) (a : Config.loc),
    Config.get st "ENABLE_CORS" = Ok enabled ->
    Config.truthy_opt enabled = true ->
    Config.get st "CORS_ORIGINS" = Ok (Some (Config.CArr a)) ->
    Security.setupSecurityHeaders st = Ok (Some (Some (Config.CArr a)))
    /\ (forall (h : Config.heap) (origin : option string) (method : string),
          exists r,
            Security.cors_middleware (Some (Config.CArr a)) h origin method = Ok r
            /\ Security.outcome r
               = (if String.eqb method "OPTIONS"
                  then Security.SendStatus 200 else Security.CallNext)
            /\ Security.set_headers r
               = match origin with
                 | Some o =>
                     if bool_decide (o ∈ Config.array_at h a)
                     then Security.cors_headers o else []
                 | None => []
                 end)
    /\ (forall (x method : string) (st' : Config.module_state),
          push_to_field st "CORS_ORIGINS" x = Ok st' ->
          exists r,
            Security.cors_middleware (Some (Config.CArr a)) (Config.store st')
              (Some x) method = Ok r
            /\ Security.set_headers r = Security.cors_headers x).
Proof.
  intros st enabled a Hget Henabled Horigins. split_and!.
  - unfold Security.setupSecurityHeaders.
    rewrite Hget. cbn [mbind result_bind]. rewrite Henabled, Horigins. reflexivity.
  - intros h origin method. unfold Security.cors_middleware, Security.origin_included.
    cbn [mbind result_bind].
    destruct origin as [o|]; [destruct (bool_decide _)|]; cbn [mbind result_bind];
      eexists; split_and!; reflexivity.
  - intros x method st'. unfold push_to_field, Config.getAll.
    unfold Config.get in Horigins.
    destruct (Config.config st) as [c|]; [|discriminate].
    apply Ok_inj in Horigins. rewrite Horigins.
    intros E. apply Ok_inj in E. subst st'. cbn [Config.store].
    unfold Security.cors_middleware, Security.origin_included.
    assert (Hin : x ∈ Config.array_at (Config.array_push (Config.store st) a x) a).
    { unfold Config.array_at, Config.array_push. cbn [Config.cells].
      rewrite lookup_insert_eq. cbn [default]. apply elem_of_app. right.
      apply list_elem_of_here. }
    rewrite (bool_decide_eq_true_2 _ Hin). cbn [mbind result_bind].
    eexists. split; reflexivity.
Qed.

Lemma cors_enabled_state_facts :
  Config.get cors_enabled_state "ENABLE_CORS" = Ok (Some (Config.CBool true))
  /\ Config.get cors_enabled_state "CORS_ORIGINS" = Ok (Some (Config.CArr 1))
  /\ Config.array_at (Config.store cors_enabled_state) 1 = ["https://app.example"].
Proof. split_and!; vm_compute; reflexivity. Qed.

(** The theorem after a load with one allowed origin: an origin that was
    not configured is allowed after a push. *)
Lemma cors_allow_list_is_shared_witness :
  (exists r,
     Security.cors_middleware (Some (Config.CArr 1)) (Config.store cors_enabled_state)
       (Some "https://evil.example") "OPTIONS" = Ok r
     /\ Security.outcome r = Security.SendStatus 200
     /\ Security.set_headers r = [])
  /\ (forall st',
        push_to_field cors_enabled_state "CORS_ORIGINS" "https://evil.example" = Ok st' ->
        exists r,
          Security.cors_middleware (Some (Config.CArr 1)) (Config.store st')
            (Some "https://evil.example") "GET" = Ok r
          /\ Security.set_headers r = Security.cors_headers "https://evil.example").
Proof.
  destruct cors_enabled_state_facts as (G1 & G2 & G3).
  destruct (cors_allow_list_is_shared cors_enabled_state (Some (Config.CBool true)) 1
              G1 eq_refl G2) as (_ & H2 & H3).
  split.
  - destruct (H2 (Config.store cors_enabled_state) (Some "https://evil.example")
                "OPTIONS") as (r & Hr & Ho & Hh).
    exists r. split; [exact Hr|]. split; [exact Ho|].
    rewrite Hh, G3. reflexivity.
  - intros st' Hpush. now apply (H3 "https://evil.example" "GET").
Defined.
